(** * MyRecipeFinder: the fallback orchestrator, the nutrition merge and
      estimate, the health score and the output guard of the chat pipeline

    A shallow embedding of [backend/mcp_server.py] (class
    [RobustRecipeMCPServer]) and of the output guard of
    [backend/llm_graph.py] ([_generate]), with the properties the
    specification states about them.

    Conventions of the embedding.
    - A Python [str] is a [string]; a character is a code point below 256
      (Latin-1), which covers every literal of the source.
    - A Python number (int or float) is a rational [Q]; comparisons and
      [max] are exact on both sides, division is the exact quotient, and
      division by zero raises, as in Python.  The rounding of the code's
      floating-point operations is not modelled: a statement that compares
      the result of arithmetic with a fixed bound says how far from the
      bound it holds.  Numbers are taken within the range of a float,
      where a division raises for a zero divisor only.
    - An exception is a value of [exn]; a call that may raise returns a
      [result].
    - [self.api_health] is a dictionary keyed by provider name: a
      [gmap string health_entry].  A missing key raises [KeyError].
    - External providers are oracles: a function from the method name to
      the outcome of the call (a list of records, or a raised exception). *)

From Stdlib Require Import ZArith QArith Qminmax Lqa String Ascii List Lia.
From stdpp Require Import gmap strings.
Import ListNotations.

Local Open Scope string_scope.
Local Open Scope list_scope.
Local Open Scope Z_scope.

(** ** Python primitives used by the source *)

(** [c.isspace()] for a code point below 256. *)
Definition isspace (c : ascii) : bool :=
  let n := N_of_ascii c in
  ((9 <=? n) && (n <=? 13))%N || ((28 <=? n) && (n <=? 32))%N
  || (n =? 133)%N || (n =? 160)%N.

(** [c.lower()] for a code point below 256. *)
Definition lower_char (c : ascii) : ascii :=
  let n := N_of_ascii c in
  if ((65 <=? n) && (n <=? 90))%N
     || (((192 <=? n) && (n <=? 222))%N && negb (n =? 215)%N)
  then ascii_of_N (n + 32) else c.

(** [s.lower()]. *)
Fixpoint lower (s : string) : string :=
  match s with
  | EmptyString => EmptyString
  | String c s' => String (lower_char c) (lower s')
  end.

(** [s.lstrip()]. *)
Fixpoint lstrip (s : string) : string :=
  match s with
  | EmptyString => EmptyString
  | String c s' => if isspace c then lstrip s' else s
  end.

(** [s.rstrip()]: the characters are kept up to the last one that is not
    white space. *)
Fixpoint rstrip (s : string) : string :=
  match s with
  | EmptyString => EmptyString
  | String c s' =>
      match rstrip s' with
      | EmptyString => if isspace c then EmptyString else String c EmptyString
      | r => String c r
      end
  end.

(** [s.strip()]. *)
Definition strip (s : string) : string := rstrip (lstrip s).

(** [len(s)] as a Python int. *)
Definition len (s : string) : Z := Z.of_nat (String.length s).

(** [s[:n]] for a Python int [n]: a negative bound counts from the end. *)
Definition str_slice_to (s : string) (n : Z) : string :=
  if n <? 0 then substring 0 (Z.to_nat (len s + n)) s
  else substring 0 (Z.to_nat n) s.

(** [l[:n]] on a list. *)
Definition list_slice_to {A} (l : list A) (n : Z) : list A :=
  if n <? 0 then firstn (Z.to_nat (Z.of_nat (length l) + n)) l
  else firstn (Z.to_nat n) l.

(** [w in s] on strings: [w] occurs in [s] as a contiguous substring. *)
Fixpoint str_in (w s : string) : bool :=
  String.prefix w s ||
  match s with
  | EmptyString => false
  | String _ s' => str_in w s'
  end.

(** [any(w in s for w in words)]. *)
Definition any_in (words : list string) (s : string) : bool :=
  existsb (fun w => str_in w s) words.

(** Exceptions the modelled code can raise. *)
Inductive exn : Type :=
  | KeyError (key : string)
  | ZeroDivisionError
  | ProviderError (msg : string).

Inductive result (A : Type) : Type :=
  | Ok (a : A)
  | Raise (e : exn).
Arguments Ok {A} a.
Arguments Raise {A} e.

(** [a / b] on Python numbers. *)
Definition py_div (a b : Q) : result Q :=
  if Qeq_bool b 0 then Raise ZeroDivisionError else Ok (a / b)%Q.

(** [max(a, b)] on Python numbers: the first argument unless the second is
    strictly greater. *)
Definition py_max (a b : Q) : Q := if Qlt_le_dec a b then b else a.

(** ** [llm_graph.py]: the output guard of [_generate] *)

(** The literal appended to a trimmed answer: two line feeds and
    [...(trimmed)]. *)
Definition trimmed_suffix : string :=
  String (ascii_of_N 10) (String (ascii_of_N 10) "...(trimmed)").

(** [int(os.getenv("LLM_MAX_CHARS", "2500"))] with the [ValueError]
    handler: [env] is the integer the variable parses to, [None] when it is
    unset or does not parse. *)
Definition max_chars_of_env (env : option Z) : Z :=
  match env with Some n => n | None => 2500 end.

(** The max output guard: lines 146-152. *)
Definition output_guard (max_chars : Z) (answer : string) : string :=
  if max_chars <? len answer
  then rstrip (str_slice_to answer max_chars) +:+ trimmed_suffix
  else answer.

(** The tail of [_generate], lines 144-156: from the text that line 143
    takes from the LLM response, here [resp], to the [answer] stored in
    the state. *)
Definition _generate (env : option Z) (resp : string) : string :=
  let answer := strip resp in
  let max_chars := max_chars_of_env env in
  output_guard max_chars answer.

(** ** [mcp_server.py]: the data *)

(** One entry of [self.api_health]. *)
Record health_entry : Type := mk_health {
  available : bool;
  last_success : Q;
  failures : Z
}.

Definition set_available (b : bool) (e : health_entry) : health_entry :=
  {| available := b; last_success := last_success e; failures := failures e |}.
Definition set_last_success (t : Q) (e : health_entry) : health_entry :=
  {| available := available e; last_success := t; failures := failures e |}.
Definition set_failures (n : Z) (e : health_entry) : health_entry :=
  {| available := available e; last_success := last_success e; failures := n |}.

(** [self.api_health] as [__init__] builds it; [t] gives the reading of
    [time.time()] taken for each entry. *)
Definition api_health_init (t : string -> Q) : gmap string health_entry :=
  <["themealdb" := mk_health true (t "themealdb") 0]>
  (<["usda" := mk_health true (t "usda") 0]>
  (<["fatsecret" := mk_health true (t "fatsecret") 0]>
  (<["spoonacular" := mk_health true (t "spoonacular") 0]> ∅))).

(** The state of the server object that the modelled methods read and
    write: the health dictionary, and a log of the provider methods that
    were invoked, in order.  The log is not in the source; it records the
    calls so that "skipped without calling" can be stated. *)
Record server : Type := mk_server {
  api_health : gmap string health_entry;
  call_log : list string
}.

(** One element of a [nutrients] list: [{'name': ..., 'amount': ...}],
    with the defaults of [.get] applied ([''] and [0]). *)
Record nutrient : Type := mk_nutrient {
  name : string;
  amount : Q
}.

(** The [nutrition] dictionary of a recipe: the [nutrients] list when the
    key is there, and the remaining numeric entries. *)
Record nutrition_dict : Type := mk_nutrition {
  nutrients : option (list nutrient);
  macros : list (string * Q)
}.

(** A recipe dictionary.  [servings] and the four keys that
    [search_recipes_with_fallback] adds are optional; the free-text
    entries [instructions] and [image], which no modelled method reads,
    are left out. *)
Record recipe : Type := mk_recipe {
  title : string;
  ingredients : list string;
  category : string;
  readyInMinutes : Q;
  servings : option Q;
  source : string;
  nutrition : nutrition_dict;
  tags : list string;
  _sources_tried : option (list string);
  _fallback_used : option bool;
  _enhanced_by : option string;
  _api_cost : option string
}.

(** The four assignments of lines 98-101 on one record. *)
Definition tag_recipe (sources_tried : list string) (r : recipe) : recipe :=
  {| title := title r; ingredients := ingredients r; category := category r;
     readyInMinutes := readyInMinutes r; servings := servings r;
     source := source r; nutrition := nutrition r; tags := tags r;
     _sources_tried := Some sources_tried;
     _fallback_used := Some (1 <? Z.of_nat (length sources_tried));
     _enhanced_by := Some "FREE MCP";
     _api_cost := Some "$0" |}.

(** ** [get_fallback_recipes] *)

Definition fallback_recipe (t : string) (ings : list string) (cat : string)
    (ready serv : Q) (nut : list (string * Q)) (tgs : list string) : recipe :=
  {| title := t; ingredients := ings; category := cat;
     readyInMinutes := ready; servings := Some serv;
     source := "Fallback Recipe";
     nutrition := mk_nutrition None nut; tags := tgs;
     _sources_tried := None; _fallback_used := None;
     _enhanced_by := None; _api_cost := None |}.

(** The dictionary [fallback_recipes], as the list of its items in
    insertion order. *)
Definition fallback_recipes : list (string * recipe) :=
  [ ("chicken",
     fallback_recipe "Simple Grilled Chicken"
       ["chicken breast"; "olive oil"; "salt"; "pepper"; "garlic powder"]
       "Main Course" 20 2
       [("calories", 350%Q); ("protein", 30%Q); ("carbs", 2%Q); ("fat", 15%Q)]
       ["healthy"; "high-protein"; "low-carb"]);
    ("salad",
     fallback_recipe "Fresh Garden Salad"
       ["mixed greens"; "cherry tomatoes"; "cucumber"; "red onion";
        "olive oil"; "balsamic vinegar"; "feta cheese"]
       "Salad" 10 2
       [("calories", 180%Q); ("protein", 6%Q); ("carbs", 12%Q); ("fat", 12%Q)]
       ["healthy"; "vegetarian"; "low-calorie"]);
    ("pasta",
     fallback_recipe "Simple Pasta Aglio e Olio"
       ["spaghetti"; "garlic"; "olive oil"; "red pepper flakes"; "parsley";
        "parmesan cheese"]
       "Main Course" 15 2
       [("calories", 450%Q); ("protein", 15%Q); ("carbs", 65%Q); ("fat", 18%Q)]
       ["classic"; "italian"; "vegetarian"]);
    ("quinoa",
     fallback_recipe "Mediterranean Quinoa Bowl"
       ["quinoa"; "chickpeas"; "feta cheese"; "cherry tomatoes"; "cucumber";
        "red onion"; "olive oil"; "lemon juice"]
       "Main Course" 25 2
       [("calories", 420%Q); ("protein", 18%Q); ("carbs", 55%Q); ("fat", 16%Q)]
       ["healthy"; "vegetarian"; "high-fiber"]);
    ("soup",
     fallback_recipe "Chicken Vegetable Soup"
       ["chicken breast"; "carrots"; "celery"; "onion"; "chicken broth";
        "garlic"; "thyme"; "bay leaf"]
       "Soup" 30 4
       [("calories", 180%Q); ("protein", 22%Q); ("carbs", 12%Q); ("fat", 4%Q)]
       ["healthy"; "comfort-food"; "low-fat"]) ].

(** The test of line 280 for one item of the table. *)
Definition fallback_matches (query_lower : string) (item : string * recipe) : bool :=
  str_in (fst item) query_lower || any_in (ingredients (snd item)) query_lower.

Definition get_fallback_recipes (query : string) (max_results : Z) : list recipe :=
  let query_lower := lower query in
  let matching := map snd (List.filter (fallback_matches query_lower) fallback_recipes) in
  match matching with
  | [] => firstn 1 (map snd fallback_recipes)
  | _ => list_slice_to matching max_results
  end.

(** ** [search_recipes_with_fallback] *)

(** The local variables of the method together with the server state,
    while the loop over [api_priority] runs. *)
Record search_state : Type := mk_search_state {
  recipes : list recipe;
  sources_tried : list string;
  self : server
}.

(** [api_priority], line 55. *)
Definition api_priority : list (string * string) :=
  [ ("themealdb", "search_recipes_themealdb");
    ("spoonacular", "search_recipes_spoonacular") ].

(** The [except] branch of lines 80-88 on the health entry of the failed
    provider. *)
Definition search_record_failure (e : health_entry) : health_entry :=
  let e1 := set_failures (failures e + 1) e in
  if 3 <=? failures e1 then set_available false e1 else e1.

(** The two assignments of lines 74-75 (and of lines 129-130). *)
Definition record_success (now : Q) (e : health_entry) : health_entry :=
  set_failures 0 (set_last_success now e).

Section Search.

(** [getattr(self, method_name)(query, max_results)]: what the provider
    method returns or raises. *)
Variable search_method : string -> string -> Z -> result (list recipe).
(** The reading of [time.time()] at line 74. *)
Variable now : Q.
Variables (query : string) (max_results : Z).

(** The [for] loop of lines 60-88; [Ok] carries the state when the loop
    ends, by exhaustion or by [break]; [Raise] is an exception that
    leaves the method. *)
Fixpoint search_loop (priority : list (string * string)) (st : search_state)
    : result search_state :=
  match priority with
  | [] => Ok st
  | (api_name, method_name) :: rest =>
      match api_health (self st) !! api_name with
      | None => Raise (KeyError api_name)
      | Some entry =>
          if negb (available entry) then
            search_loop rest
              (mk_search_state (recipes st)
                 (sources_tried st ++ [api_name +:+ "(unavailable)"])
                 (self st))
          else
            let log := call_log (self st) ++ [method_name] in
            match search_method method_name query max_results with
            | Ok api_recipes =>
                let tried := sources_tried st ++ [api_name] in
                match api_recipes with
                | [] =>
                    search_loop rest
                      (mk_search_state (recipes st) tried
                         (mk_server (api_health (self st)) log))
                | _ :: _ =>
                    Ok (mk_search_state (recipes st ++ api_recipes) tried
                          (mk_server
                             (<[api_name := record_success now entry]>
                                (api_health (self st)))
                             log))
                end
            | Raise _ =>
                search_loop rest
                  (mk_search_state (recipes st)
                     (sources_tried st ++ [api_name +:+ "(failed)"])
                     (mk_server
                        (<[api_name := search_record_failure entry]>
                           (api_health (self st)))
                        log))
            end
      end
  end.

(** The method; [diet] is accepted and not read, as in the source.  The
    result is the returned list and the server state after the call. *)
Definition search_recipes_with_fallback (diet : string) (srv : server)
    : result (list recipe * server) :=
  match search_loop api_priority (mk_search_state [] [] srv) with
  | Raise e => Raise e
  | Ok st =>
      let st1 :=
        match recipes st with
        | [] =>
            mk_search_state (get_fallback_recipes query max_results)
              (sources_tried st ++ ["fallback"]) (self st)
        | _ :: _ => st
        end in
      let tagged := map (tag_recipe (sources_tried st1)) (recipes st1) in
      Ok (list_slice_to tagged max_results, self st1)
  end.

End Search.

(** ** Nutrition dictionaries *)

(** A dictionary with exactly the five nutrient keys, which the source
    builds from a literal and reads and writes by literal key:
    [nutrition_data] of the provider methods and [estimated] of
    [estimate_nutrition]. *)
Record nutrition_record : Type := mk_nutrition_record {
  calories : Q;
  protein : Q;
  carbs : Q;
  fat : Q;
  fiber : Q
}.

Definition zero_record : nutrition_record := mk_nutrition_record 0 0 0 0 0.

(** A value stored in a dictionary that is read generically. *)
Inductive pyval : Type :=
  | VNum (q : Q)
  | VStr (s : string)
  | VList (l : list string).

(** [bool(v)]. *)
Definition truthy (v : pyval) : bool :=
  match v with
  | VNum q => negb (Qeq_bool q 0)
  | VStr s => negb (String.eqb s "")
  | VList l => match l with [] => false | _ :: _ => true end
  end.

(** [d.items()] of a five-nutrient dictionary, in insertion order. *)
Definition record_items (r : nutrition_record) : list (string * Q) :=
  [ ("calories", calories r); ("protein", protein r); ("carbs", carbs r);
    ("fat", fat r); ("fiber", fiber r) ].

Definition py_items (r : nutrition_record) : list (string * pyval) :=
  map (fun kv => (fst kv, VNum (snd kv))) (record_items r).

(** [a > b] on Python numbers. *)
Definition Qgt_bool (a b : Q) : bool := negb (Qle_bool a b).

(** ** [merge_nutrition_data] *)

(** The dictionary with the five nutrient keys and the numbers of [r]. *)
Definition dict_of_record (r : nutrition_record) : gmap string Q :=
  list_to_map (record_items r).

(** The all-zero dictionary of lines 157 and 160. *)
Definition zero_dict : gmap string Q := dict_of_record zero_record.

(** The body of the inner loop, lines 165-166. *)
Definition merge_item (merged : gmap string Q) (item : string * pyval)
    : gmap string Q :=
  match snd item with
  | VNum value =>
      if Qgt_bool value (default 0%Q (merged !! fst item))
      then <[fst item := value]> merged
      else merged
  | _ => merged
  end.

(** [nutrition_results] is the list of the items of the dictionary, in
    insertion order; each [data] likewise. *)
Definition merge_nutrition_data
    (nutrition_results : list (string * list (string * pyval))) : gmap string Q :=
  match nutrition_results with
  | [] => zero_dict
  | _ :: _ =>
      fold_left (fun merged sd => fold_left merge_item (snd sd) merged)
        nutrition_results zero_dict
  end.

(** ** [estimate_nutrition] *)

Definition estimations_protein : list string :=
  ["chicken"; "beef"; "fish"; "egg"; "tofu"; "beans"; "protein"; "turkey"; "pork"].
Definition estimations_high_carb : list string :=
  ["rice"; "pasta"; "bread"; "potato"; "flour"; "sugar"; "noodles"; "quinoa"].
Definition estimations_high_fat : list string :=
  ["oil"; "butter"; "cheese"; "avocado"; "nuts"; "mayonnaise"; "cream"].
Definition estimations_high_fiber : list string :=
  ["vegetables"; "fruits"; "whole grain"; "beans"; "broccoli"; "spinach"; "kale"].
Definition estimations_low_cal : list string :=
  ["lettuce"; "cucumber"; "tomato"; "celery"; "broth"; "water"; "tea"].

(** [estimated[k] += v] for each of the five keys. *)
Definition add_calories (v : Q) (r : nutrition_record) : nutrition_record :=
  mk_nutrition_record (calories r + v) (protein r) (carbs r) (fat r) (fiber r).
Definition add_protein (v : Q) (r : nutrition_record) : nutrition_record :=
  mk_nutrition_record (calories r) (protein r + v) (carbs r) (fat r) (fiber r).
Definition add_carbs (v : Q) (r : nutrition_record) : nutrition_record :=
  mk_nutrition_record (calories r) (protein r) (carbs r + v) (fat r) (fiber r).
Definition add_fat (v : Q) (r : nutrition_record) : nutrition_record :=
  mk_nutrition_record (calories r) (protein r) (carbs r) (fat r + v) (fiber r).
Definition add_fiber (v : Q) (r : nutrition_record) : nutrition_record :=
  mk_nutrition_record (calories r) (protein r) (carbs r) (fat r) (fiber r + v).

(** The body of the loop, lines 185-205. *)
Definition estimate_ingredient (estimated : nutrition_record) (ingredient : string)
    : nutrition_record :=
  let ingredient_lower := lower ingredient in
  if any_in estimations_protein ingredient_lower then
    add_protein 15 (add_calories 100 estimated)
  else if any_in estimations_high_carb ingredient_lower then
    add_carbs 30 (add_calories 150 estimated)
  else if any_in estimations_high_fat ingredient_lower then
    add_fat 12 (add_calories 120 estimated)
  else if any_in estimations_low_cal ingredient_lower then
    add_fiber 3 (add_calories 25 estimated)
  else if any_in estimations_high_fiber ingredient_lower then
    add_fiber 8 (add_calories 50 estimated)
  else
    add_carbs 15 (add_calories 75 estimated).

Definition estimate_nutrition (ingredients : list string) : nutrition_record :=
  fold_left estimate_ingredient ingredients zero_record.

(** ** [get_nutrition_with_fallback] *)

(** [nutrition_apis], line 112. *)
Definition nutrition_apis : list (string * string) :=
  [ ("usda", "get_nutrition_usda"); ("fatsecret", "get_nutrition_fatsecret") ].

(** [any(result.values())] on a five-nutrient dictionary. *)
Definition any_values (r : nutrition_record) : bool :=
  existsb truthy (map snd (py_items r)).

(** [any(final_nutrition.values())] on the merged dictionary. *)
Definition any_dict_values (d : gmap string Q) : bool :=
  existsb (fun kv => truthy (VNum (snd kv))) (map_to_list d).

(** The [except] branch of lines 134-137 on the health entry. *)
Definition nutrition_record_failure (e : health_entry) : health_entry :=
  set_failures (failures e + 1) e.

Record nutrition_state : Type := mk_nutrition_state {
  nutrition_results : list (string * list (string * pyval));
  n_sources_tried : list string;
  n_self : server
}.

(** The returned dictionary: the numeric entries and the two keys added by
    lines 148-149. *)
Record nutrition_out : Type := mk_nutrition_out {
  values : gmap string Q;
  nutrition_sources_tried : list string;
  _nutrition_cost : string
}.

Section Nutrition.

(** [getattr(self, method_name)(ingredients)]. *)
Variable nutrition_method : string -> list string -> result nutrition_record.
(** The reading of [time.time()] at line 129. *)
Variable now : Q.
Variable ingredient_list : list string.

(** The [for] loop of lines 117-137. *)
Fixpoint nutrition_loop (apis : list (string * string)) (st : nutrition_state)
    : result nutrition_state :=
  match apis with
  | [] => Ok st
  | (api_name, method_name) :: rest =>
      match api_health (n_self st) !! api_name with
      | None => Raise (KeyError api_name)
      | Some entry =>
          if negb (available entry) then
            nutrition_loop rest
              (mk_nutrition_state (nutrition_results st)
                 (n_sources_tried st ++ [api_name +:+ "(unavailable)"])
                 (n_self st))
          else
            let log := call_log (n_self st) ++ [method_name] in
            match nutrition_method method_name ingredient_list with
            | Ok res =>
                let tried := n_sources_tried st ++ [api_name] in
                if any_values res then
                  Ok (mk_nutrition_state
                        (nutrition_results st ++ [(api_name, py_items res)])
                        tried
                        (mk_server
                           (<[api_name := record_success now entry]>
                              (api_health (n_self st)))
                           log))
                else
                  nutrition_loop rest
                    (mk_nutrition_state (nutrition_results st) tried
                       (mk_server (api_health (n_self st)) log))
            | Raise _ =>
                nutrition_loop rest
                  (mk_nutrition_state (nutrition_results st)
                     (n_sources_tried st ++ [api_name +:+ "(failed)"])
                     (mk_server
                        (<[api_name := nutrition_record_failure entry]>
                           (api_health (n_self st)))
                        log))
            end
      end
  end.

Definition get_nutrition_with_fallback (srv : server)
    : result (nutrition_out * server) :=
  match nutrition_loop nutrition_apis (mk_nutrition_state [] [] srv) with
  | Raise e => Raise e
  | Ok st =>
      let final_nutrition := merge_nutrition_data (nutrition_results st) in
      if negb (any_dict_values final_nutrition) then
        Ok (mk_nutrition_out
              (dict_of_record (estimate_nutrition ingredient_list))
              (n_sources_tried st ++ ["estimated"]) "$0",
            n_self st)
      else
        Ok (mk_nutrition_out final_nutrition (n_sources_tried st) "$0",
            n_self st)
  end.

End Nutrition.

(** ** [analyze_nutrition] *)

(** The [analysis] dictionary; the constant text entries
    ([analysis_source], [analysis_method], [data_quality]) are left out. *)
Record analysis : Type := mk_analysis {
  calories_per_serving : Q;
  protein_per_serving : Q;
  carbs_per_serving : Q;
  fat_per_serving : Q;
  health_score : Z;
  recommendations : list string
}.

Definition analysis_init : analysis := mk_analysis 0 0 0 0 0 [].

Definition set_per_serving (c p cb f : Q) (a : analysis) : analysis :=
  mk_analysis c p cb f (health_score a) (recommendations a).

(** The body of the loop over the embedded [nutrients] list, lines
    500-510: the amount is divided by [servings] itself. *)
Definition analyze_nutrient (servings : Q) (a : analysis) (n : nutrient)
    : result analysis :=
  if str_in "Calories" (name n) then
    match py_div (amount n) servings with
    | Ok v => Ok (set_per_serving v (protein_per_serving a)
                    (carbs_per_serving a) (fat_per_serving a) a)
    | Raise e => Raise e
    end
  else if str_in "Protein" (name n) then
    match py_div (amount n) servings with
    | Ok v => Ok (set_per_serving (calories_per_serving a) v
                    (carbs_per_serving a) (fat_per_serving a) a)
    | Raise e => Raise e
    end
  else if str_in "Carbohydrates" (name n) then
    match py_div (amount n) servings with
    | Ok v => Ok (set_per_serving (calories_per_serving a)
                    (protein_per_serving a) v (fat_per_serving a) a)
    | Raise e => Raise e
    end
  else if str_in "Fat" (name n) then
    match py_div (amount n) servings with
    | Ok v => Ok (set_per_serving (calories_per_serving a)
                    (protein_per_serving a) (carbs_per_serving a) v a)
    | Raise e => Raise e
    end
  else Ok a.

Fixpoint analyze_nutrients (servings : Q) (l : list nutrient) (a : analysis)
    : result analysis :=
  match l with
  | [] => Ok a
  | n :: l' =>
      match analyze_nutrient servings a n with
      | Ok a' => analyze_nutrients servings l' a'
      | Raise e => Raise e
      end
  end.

(** The estimate by recipe category, lines 524-536. *)
Definition category_estimate (category : string) (a : analysis) : analysis :=
  let category := lower category in
  if str_in "dessert" category || str_in "cake" category || str_in "cookie" category
  then set_per_serving 400 (protein_per_serving a) 60 20 a
  else if str_in "salad" category || str_in "soup" category
  then set_per_serving 250 (protein_per_serving a) 20 10 a
  else set_per_serving 350 (protein_per_serving a) 30 15 a.

(** Lines 556-563. *)
Definition balance_score (protein_pct carb_pct fat_pct : Q) : Z :=
  (if Qle_bool 10 protein_pct && Qle_bool protein_pct 30 then 25 else 0)
  + (if Qle_bool carb_pct 65 then 25 else 0)
  + (if Qle_bool fat_pct 35 then 25 else 0).

(** Lines 566-574. *)
Definition calorie_score (calories : Q) : Z :=
  if Qle_bool 200 calories && Qle_bool calories 600 then 25
  else if Qgt_bool 200 calories then 15
  else if Qgt_bool calories 800 then 10
  else 20.

(** The health score and the recommendations, lines 539-589. *)
Definition score_analysis (a : analysis) : analysis :=
  let calories := calories_per_serving a in
  let protein := protein_per_serving a in
  let carbs := carbs_per_serving a in
  let fat := fat_per_serving a in
  if Qgt_bool calories 0 then
    let total_calories := calories in
    let protein_pct := (protein * 4 / total_calories * 100)%Q in
    let carb_pct := (carbs * 4 / total_calories * 100)%Q in
    let fat_pct := (fat * 9 / total_calories * 100)%Q in
    let balance := balance_score protein_pct carb_pct fat_pct in
    let cal := calorie_score calories in
    let rec1 :=
      if 50 <=? balance then "Well-balanced macronutrients!"
      else "Consider balancing protein, carbs, and fat" in
    let rec2 :=
      if 20 <=? cal then "Appropriate calorie content"
      else if Qgt_bool 200 calories then "May need more calories for satiety"
      else "High calorie meal - watch portions" in
    mk_analysis calories protein carbs fat (balance + cal)
      (recommendations a ++ [rec1; rec2])
  else a.

Section Analyze.

Variable nutrition_method : string -> list string -> result nutrition_record.
Variable now : Q.

(** [nutrition_data.get(key, 0) / max(servings, 1)]. *)
Definition per_serving (nutrition_data : nutrition_out) (key : string)
    (servings : Q) : result Q :=
  py_div (default 0%Q (values nutrition_data !! key)) (py_max servings 1).

(** Lines 513-536: the per-serving values when the embedded list gave no
    calories. *)
Definition estimate_per_serving (recipe_data : recipe) (servings : Q)
    (a : analysis) (srv : server) : result (analysis * server) :=
  match ingredients recipe_data with
  | _ :: _ =>
      match get_nutrition_with_fallback nutrition_method now
              (ingredients recipe_data) srv with
      | Raise e => Raise e
      | Ok (nutrition_data, srv') =>
          match per_serving nutrition_data "calories" servings,
                per_serving nutrition_data "protein" servings,
                per_serving nutrition_data "carbs" servings,
                per_serving nutrition_data "fat" servings with
          | Ok c, Ok p, Ok cb, Ok f => Ok (set_per_serving c p cb f a, srv')
          | Raise e, _, _, _ => Raise e
          | _, Raise e, _, _ => Raise e
          | _, _, Raise e, _ => Raise e
          | _, _, _, Raise e => Raise e
          end
      end
  | [] => Ok (category_estimate (category recipe_data) a, srv)
  end.

(** The method.  The test [if nutrition:] of line 497 is not written out:
    an empty [nutrition] dictionary has no [nutrients] list, and the loop
    over an absent or empty list does nothing. *)
Definition analyze_nutrition (recipe_data : recipe) (srv : server)
    : result (analysis * server) :=
  let nutrition := nutrition recipe_data in
  let servings := default 1%Q (servings recipe_data) in
  match analyze_nutrients servings (default [] (nutrients nutrition))
          analysis_init with
  | Raise e => Raise e
  | Ok a =>
      match
        (if Qeq_bool (calories_per_serving a) 0
         then estimate_per_serving recipe_data servings a srv
         else Ok (a, srv))
      with
      | Raise e => Raise e
      | Ok (a', srv') => Ok (score_analysis a', srv')
      end
  end.

End Analyze.

(** ** The statements of the specification, and concrete inputs *)

(** A response of 5,000 characters, none of them white space but the
    2,500th, which is a space. *)
Definition response_5000 : string :=
  string_of_list_ascii
    (repeat "a"%char 2499 ++ " "%char :: repeat "a"%char 2500).

(** A recipe as [search_recipes_spoonacular] builds it from a response
    that reports [servings: 0] and carries a [nutrients] list. *)
Definition recipe_zero_servings : recipe :=
  {| title := "Toast"; ingredients := ["bread"]; category := "";
     readyInMinutes := 5; servings := Some 0%Q; source := "Spoonacular";
     nutrition := mk_nutrition (Some [mk_nutrient "Calories" 200]) [];
     tags := []; _sources_tried := None; _fallback_used := None;
     _enhanced_by := None; _api_cost := None |}.

(** *** The estimator as the specification words it *)

(** The five keyword sets. *)
Inductive bucket : Type :=
  | ProteinRich | HighCarb | HighFat | HighFiber | LowCalorie.

Definition bucket_words (b : bucket) : list string :=
  match b with
  | ProteinRich => estimations_protein
  | HighCarb => estimations_high_carb
  | HighFat => estimations_high_fat
  | HighFiber => estimations_high_fiber
  | LowCalorie => estimations_low_cal
  end.

(** The fixed contribution of a bucket, with the constants of lines
    189-205; [None] is the default "other" contribution. *)
Definition bucket_contribution (b : option bucket) : nutrition_record :=
  match b with
  | Some ProteinRich => mk_nutrition_record 100 15 0 0 0
  | Some HighCarb => mk_nutrition_record 150 0 30 0 0
  | Some HighFat => mk_nutrition_record 120 0 0 12 0
  | Some HighFiber => mk_nutrition_record 50 0 0 0 8
  | Some LowCalorie => mk_nutrition_record 25 0 0 0 3
  | None => mk_nutrition_record 75 0 15 0 0
  end.

(** The first bucket of [order] one of whose keywords occurs in the
    lower-cased ingredient. *)
Definition first_bucket (order : list bucket) (ingredient : string)
    : option bucket :=
  find (fun b => any_in (bucket_words b) (lower ingredient)) order.

Definition record_add (a b : nutrition_record) : nutrition_record :=
  mk_nutrition_record (calories a + calories b) (protein a + protein b)
    (carbs a + carbs b) (fat a + fat b) (fiber a + fiber b).

(** One contribution for each ingredient, that of its first matching
    bucket, all added up. *)
Fixpoint estimate_by_priority (order : list bucket) (ingredients : list string)
    : nutrition_record :=
  match ingredients with
  | [] => zero_record
  | i :: rest =>
      record_add (bucket_contribution (first_bucket order i))
        (estimate_by_priority order rest)
  end.

(** The priority order that the specification gives. *)
Definition claimed_priority : list bucket :=
  [ProteinRich; HighCarb; HighFat; HighFiber; LowCalorie].

(** The order in which [estimate_nutrition] tests the sets. *)
Definition source_priority : list bucket :=
  [ProteinRich; HighCarb; HighFat; LowCalorie; HighFiber].

(** Two five-nutrient dictionaries with equal numbers. *)
Definition record_equiv (a b : nutrition_record) : Prop :=
  (calories a == calories b /\ protein a == protein b /\ carbs a == carbs b
   /\ fat a == fat b /\ fiber a == fiber b)%Q.

(** *** The merge as the specification words it *)

(** The maximum of the positive numbers of a list, zero when there is
    none. *)
Definition max_positive (l : list Q) : Q :=
  fold_right Qmax 0%Q (List.filter (fun v => Qgt_bool v 0) l).

(** For each nutrient, the maximum over the records that report a positive
    value for it. *)
Definition max_record (rs : list nutrition_record) : nutrition_record :=
  mk_nutrition_record (max_positive (map calories rs))
    (max_positive (map protein rs)) (max_positive (map carbs rs))
    (max_positive (map fat rs)) (max_positive (map fiber rs)).

Definition pair_max (a b : nutrition_record) : nutrition_record :=
  mk_nutrition_record (Qmax (calories a) (calories b))
    (Qmax (protein a) (protein b)) (Qmax (carbs a) (carbs b))
    (Qmax (fat a) (fat b)) (Qmax (fiber a) (fiber b)).

Definition nonneg_record (r : nutrition_record) : Prop :=
  (0 <= calories r /\ 0 <= protein r /\ 0 <= carbs r /\ 0 <= fat r
   /\ 0 <= fiber r)%Q.

(** The argument of [merge_nutrition_data] when each provider of [results]
    reported the five-nutrient dictionary paired with it. *)
Definition results_dict (results : list (string * nutrition_record))
    : list (string * list (string * pyval)) :=
  map (fun pr => (fst pr, py_items (snd pr))) results.

(** What the test of line 165 keeps for one nutrient. *)
Definition keep_greater (merged value : Q) : Q :=
  if Qgt_bool value merged then value else merged.

Definition record_keep_greater (a r : nutrition_record) : nutrition_record :=
  mk_nutrition_record (keep_greater (calories a) (calories r))
    (keep_greater (protein a) (protein r)) (keep_greater (carbs a) (carbs r))
    (keep_greater (fat a) (fat r)) (keep_greater (fiber a) (fiber r)).

(** *** The orchestration as the specification words it *)

(** What the orchestrator meets at one provider: the provider is marked
    unavailable and is not called, or its call raises, or returns nothing
    usable, or returns usable data. *)
Inductive attempt (A : Type) : Type :=
  | Unavailable
  | Failed
  | NoData
  | Data (a : A).
Arguments Unavailable {A}.
Arguments Failed {A}.
Arguments NoData {A}.
Arguments Data {A} a.

Definition is_called {A} (a : attempt A) : bool :=
  match a with Unavailable => false | _ => true end.

Definition is_success {A} (a : attempt A) : bool :=
  match a with Data _ => true | _ => false end.

(** The attempt at a provider whose health entry is [e] and whose method,
    if called, has the outcome [outcome]. *)
Definition attempt_on {A} (usable : A -> bool) (e : health_entry)
    (outcome : result A) : attempt A :=
  if available e then
    match outcome with
    | Ok x => if usable x then Data x else NoData
    | Raise _ => Failed
    end
  else Unavailable.

(** The same, for the provider [p] of a priority list, with its entry read
    from the health dictionary [h]. *)
Definition attempt_of {A} (usable : A -> bool) (h : gmap string health_entry)
    (outcome : string -> result A) (p : string * string) : attempt A :=
  match h !! fst p with
  | Some e => attempt_on usable e (outcome (snd p))
  | None => Unavailable
  end.

(** The providers the orchestrator gets to: those of the priority list, in
    order, up to and including the first that gives usable data. *)
Fixpoint tried_until_success {A} (l : list (string * string * attempt A))
    : list (string * string * attempt A) :=
  match l with
  | [] => []
  | pa :: rest =>
      pa :: (if is_success (snd pa) then [] else tried_until_success rest)
  end.

(** The provenance entry of an attempt. *)
Definition provenance_entry {A} (pa : string * string * attempt A) : string :=
  match snd pa with
  | Unavailable => fst (fst pa) +:+ "(unavailable)"
  | Failed => fst (fst pa) +:+ "(failed)"
  | NoData | Data _ => fst (fst pa)
  end.

(** The provider methods invoked, in order. *)
Definition calls_of {A} (l : list (string * string * attempt A)) : list string :=
  map (fun pa => snd (fst pa)) (List.filter (fun pa => is_called (snd pa)) l).

(** The usable data gathered. *)
Definition data_of {A} (l : list (string * string * attempt A)) : list A :=
  flat_map (fun pa => match snd pa with Data x => [x] | _ => [] end) l.

(** What an attempt does to the health entry of its provider; [on_failure]
    is the branch taken when the call raises. *)
Definition entry_after {A} (now : Q) (on_failure : health_entry -> health_entry)
    (a : attempt A) (e : health_entry) : health_entry :=
  match a with
  | Failed => on_failure e
  | Data _ => record_success now e
  | Unavailable | NoData => e
  end.

Definition health_after {A} (now : Q) (on_failure : health_entry -> health_entry)
    (l : list (string * string * attempt A)) (h : gmap string health_entry)
    : gmap string health_entry :=
  fold_left (fun h pa => alter (entry_after now on_failure (snd pa)) (fst (fst pa)) h)
    l h.

(** [bool(api_recipes)]. *)
Definition nonempty {A} (l : list A) : bool :=
  match l with [] => false | _ :: _ => true end.

(** The attempts of one search invocation on the priority list
    [priority], from the health dictionary [h]. *)
Definition search_attempts
    (search_method : string -> string -> Z -> result (list recipe))
    (query : string) (max_results : Z) (priority : list (string * string))
    (h : gmap string health_entry)
    : list (string * string * attempt (list recipe)) :=
  tried_until_success
    (map (fun p => (p, attempt_of nonempty h
                         (fun m => search_method m query max_results) p))
       priority).

(** The usable data gathered, with the name of the provider it came
    from. *)
Definition named_data_of {A} (l : list (string * string * attempt A))
    : list (string * A) :=
  flat_map (fun pa => match snd pa with
                      | Data x => [(fst (fst pa), x)]
                      | _ => []
                      end) l.

(** The attempts of one nutrition invocation on the list [apis], from the
    health dictionary [h]. *)
Definition nutrition_attempts
    (nutrition_method : string -> list string -> result nutrition_record)
    (ingredient_list : list string) (apis : list (string * string))
    (h : gmap string health_entry)
    : list (string * string * attempt nutrition_record) :=
  tried_until_success
    (map (fun p => (p, attempt_of any_values h
                         (fun m => nutrition_method m ingredient_list) p))
       apis).

(** The provenance list of an invocation: one entry for each provider the
    loop got to, and ["fallback"] at the end when none gave results. *)
Definition provenance_of (atts : list (string * string * attempt (list recipe)))
    : list string :=
  map provenance_entry atts
  ++ (if nonempty (concat (data_of atts)) then [] else ["fallback"]).

(** The records that are tagged and returned. *)
Definition records_of (query : string) (max_results : Z)
    (atts : list (string * string * attempt (list recipe))) : list recipe :=
  if nonempty (concat (data_of atts)) then concat (data_of atts)
  else get_fallback_recipes query max_results.

(** *** Concrete servers and providers *)

(** The server as [__init__] leaves it, with the clock at 0. *)
Definition initial_server : server :=
  mk_server (api_health_init (fun _ => 0%Q)) [].

(** Both search providers raise. *)
Definition search_all_down (method_name query : string) (max_results : Z)
    : result (list recipe) :=
  Raise (ProviderError "network error").

(** TheMealDB raises; Spoonacular returns one record. *)
Definition search_themealdb_down (method_name query : string) (max_results : Z)
    : result (list recipe) :=
  if String.eqb method_name "search_recipes_themealdb"
  then Raise (ProviderError "TheMealDB HTTP 500")
  else Ok [ {| title := "Lentil Soup"; ingredients := ["lentils"; "onion"];
               category := ""; readyInMinutes := 40; servings := Some 4%Q;
               source := "Spoonacular"; nutrition := mk_nutrition None [];
               tags := []; _sources_tried := None; _fallback_used := None;
               _enhanced_by := None; _api_cost := None |} ].

(** A record of the table is selected when its keyword, or one of its
    ingredients, occurs in the lower-cased query; when no record is
    selected the first record of the table stands in. *)
Definition selected (query : string) (item : string * recipe) : Prop :=
  In item fallback_recipes
  /\ (fallback_matches (lower query) item = true
      \/ (Forall (fun it => fallback_matches (lower query) it = false)
            fallback_recipes
          /\ Some item = head fallback_recipes)).

(** Both nutrition providers raise. *)
Definition nutrition_all_down (method_name : string) (ingredient_list : list string)
    : result nutrition_record :=
  Raise (ProviderError "network error").

(** [n] invocations of [get_nutrition_with_fallback] in a row, each with
    the providers behaving as [nutrition_method] says. *)
Fixpoint nutrition_invocations
    (nutrition_method : string -> list string -> result nutrition_record)
    (now : Q) (ingredient_list : list string) (n : nat) (srv : server)
    : result server :=
  match n with
  | O => Ok srv
  | S k =>
      match get_nutrition_with_fallback nutrition_method now ingredient_list srv with
      | Ok (_, srv') =>
          nutrition_invocations nutrition_method now ingredient_list k srv'
      | Raise e => Raise e
      end
  end.

(** [n] invocations of [search_recipes_with_fallback] in a row. *)
Fixpoint search_invocations
    (search_method : string -> string -> Z -> result (list recipe))
    (now : Q) (query : string) (max_results : Z) (n : nat) (srv : server)
    : result server :=
  match n with
  | O => Ok srv
  | S k =>
      match search_recipes_with_fallback search_method now query max_results
              "" srv with
      | Ok (_, srv') =>
          search_invocations search_method now query max_results k srv'
      | Raise e => Raise e
      end
  end.

(** A server on which every provider has failed twice in a row. *)
Definition server_two_failures : server :=
  mk_server
    (<["themealdb" := mk_health true 0 2]>
     (<["usda" := mk_health true 0 2]>
     (<["fatsecret" := mk_health true 0 2]>
     (<["spoonacular" := mk_health true 0 2]> ∅)))) [].

(** Both search providers answer with an empty list. *)
Definition search_no_results (method_name query : string) (max_results : Z)
    : result (list recipe) :=
  Ok [].

(** Both nutrition providers answer with a record of zeros. *)
Definition nutrition_no_data (method_name : string) (ingredient_list : list string)
    : result nutrition_record :=
  Ok zero_record.

(** *** The bands of the health score *)


(** ** [app.py]: the chunks of [chat_stream] *)

(** [range(start, stop, step)] for a positive [step]; [fuel] bounds the
    number of elements. *)
Fixpoint range_from (fuel start stop step : nat) : list nat :=
  match fuel with
  | O => []
  | S fuel' =>
      if (start <? stop)%nat
      then start :: range_from fuel' (start + step) stop step
      else []
  end.

(** [range(0, stop, step)]: no more than [stop] elements. *)
Definition py_range (stop step : nat) : list nat := range_from stop 0 stop step.

(** [chunk_size], line 221. *)
Definition chunk_size : nat := 200.

Definition line_feed : string := String (ascii_of_N 10) EmptyString.

(** The event of line 224 for one chunk. *)
Definition data_event (chunk : string) : string :=
  "data: " +:+ chunk +:+ line_feed +:+ line_feed.

(** The event of line 226. *)
Definition end_event : string :=
  "event: end" +:+ line_feed +:+ "data: done" +:+ line_feed +:+ line_feed.

(** The slices [reply[i:i+chunk_size]] of lines 222-223, in order. *)
Definition reply_chunks (size : nat) (reply : string) : list string :=
  map (fun i => substring i size reply) (py_range (String.length reply) size).

(** What [generate_stream] yields from line 205 on, when every database
    step goes through: [reply] is the reply of the pipeline, or the text of
    the exception it raised. *)
Definition generate_stream (reply : string + string) : list string :=
  match reply with
  | inr e => ["data: ERROR: " +:+ e +:+ line_feed +:+ line_feed]
  | inl text => map data_event (reply_chunks chunk_size text) ++ [end_event]
  end.


(** ** [llm_graph.py]: the text of the LLM response *)

(** What [llm.invoke] returns, as line 143 reads it: [content] is
    [getattr(resp, "content", None)], a string or [None], and [printed] is
    [str(resp)]. *)
Record llm_response : Type := mk_llm_response {
  content : option string;
  printed : string
}.

(** Line 143, [getattr(resp, "content", None) or str(resp)]: the text that
    [_generate] goes on with.  An empty [content] is falsy. *)
Definition response_text (resp : llm_response) : string :=
  match content resp with
  | Some (String c s) => String c s
  | Some EmptyString => printed resp
  | None => printed resp
  end.

(** A reply without text, as LangChain prints the message object. *)
Definition empty_reply : llm_response :=
  mk_llm_response (Some "")
    "content='' additional_kwargs={} response_metadata={}".

(** ** [llm_graph.py]: the routing *)

(** The keys of the state that the routing reads and writes; [None] is an
    absent or null [query]. *)
Record graph_state : Type := mk_graph_state {
  state_query : option string;
  state_needs_search : bool;
  state_route_taken : string
}.

(** [trigger_words], line 32. *)
Definition trigger_words : list string :=
  ["latest"; "recent"; "news"; "study"; "research"; "trending"; "new"; "202";
   "google"; "web"; "online"; "search"].

(** [_should_search], lines 28-50. *)
Definition _should_search (state : graph_state) : graph_state :=
  let q := lower (default "" (state_query state)) in
  let needs_search := any_in trigger_words q in
  mk_graph_state (state_query state) needs_search
    (if needs_search then "search" else "generate").

(** [_router], lines 174-175. *)
Definition _router (state : graph_state) : string :=
  if state_needs_search state then "search" else "generate".

(** ** Statements about the nutrition functions *)

(** What holds of every entry of a merged dictionary: it is one of the
    initial zeros, or a positive number that [reported] holds of. *)
Definition merged_entries (reported : string * pyval -> Prop)
    (m : gmap string Q) : Prop :=
  forall k v, m !! k = Some v ->
    (v = 0%Q /\ In k (map fst (record_items zero_record)))
    \/ ((0 < v)%Q /\ reported (k, VNum v)).

(** A provider's record with the numbers that are not positive replaced by
    zero: what the merge keeps of a single record. *)
Definition positive_part (r : nutrition_record) : nutrition_record :=
  record_keep_greater zero_record r.

(** USDA returns a record with a negative calorie value and 12 g of
    protein; FatSecret returns zeros. *)
Definition nutrition_usda_negative (method_name : string)
    (ingredient_list : list string) : result nutrition_record :=
  if String.eqb method_name "get_nutrition_usda"
  then Ok (mk_nutrition_record (-5) 12 0 0 0)
  else Ok zero_record.

(** A server on which Spoonacular has been marked unavailable. *)
Definition server_spoonacular_off : server :=
  mk_server
    (<["spoonacular" := mk_health false 0 3]> (api_health_init (fun _ => 0%Q)))
    ["search_recipes_themealdb"].

(** The test of the [if]/[elif] chain of lines 503-509: the name of the
    nutrient has one of the four words in it. *)
Definition names_macro (n : nutrient) : bool :=
  str_in "Calories" (name n) || str_in "Protein" (name n)
  || str_in "Carbohydrates" (name n) || str_in "Fat" (name n).

(** ** [mcp_server.py]: the provider methods *)

(** What [requests.get] gives: a [RequestException], or a response with
    its status code and its decoded body. *)
Inductive http_response (A : Type) : Type :=
  | NetworkError (msg : string)
  | Response (status_code : Z) (json : A).
Arguments NetworkError {A} msg.
Arguments Response {A} status_code json.

(** [min(a, b)]: the first argument unless the second is smaller. *)
Definition py_min (a b : Z) : Z := if b <? a then b else a.

(** *** [get_nutrition_fatsecret], lines 415-434 *)

Definition get_nutrition_fatsecret (fatsecret_app_key fatsecret_app_secret : string)
    (ingredient_list : list string) : result nutrition_record :=
  if String.eqb fatsecret_app_key "" || String.eqb fatsecret_app_secret ""
  then Ok zero_record
  else Ok zero_record.

(** *** [get_nutrition_usda], lines 366-413 *)

(** One element of [foodNutrients], with the defaults of [.get]. *)
Record usda_nutrient : Type := mk_usda_nutrient {
  nutrientName : string;
  nutrient_value : Q;
  unitName : string
}.

(** The body of a search response: for each of its [foods], the
    [foodNutrients] list. *)
Definition usda_body : Type := list (list usda_nutrient).

(** Lines 384-403 for one nutrient. *)
Definition usda_add_nutrient (nutrition_data : nutrition_record)
    (nutrient : usda_nutrient) : nutrition_record :=
  let name := nutrientName nutrient in
  let amount := nutrient_value nutrient in
  if str_in "per 100 g" (lower name) || String.eqb (unitName nutrient) "g"
  then nutrition_data
  else if str_in "Energy" name && str_in "kcal" name
  then add_calories amount nutrition_data
  else if str_in "Protein" name then add_protein amount nutrition_data
  else if str_in "Carbohydrate" name then add_carbs amount nutrition_data
  else if str_in "Total lipid" name || str_in "Fat" name
  then add_fat amount nutrition_data
  else if str_in "Fiber" name then add_fiber amount nutrition_data
  else nutrition_data.

(** Lines 379-403 for the response to one request. *)
Definition usda_add_response (nutrition_data : nutrition_record)
    (response : http_response usda_body) : result nutrition_record :=
  match response with
  | NetworkError msg => Raise (ProviderError ("USDA network error: " +:+ msg))
  | Response status_code data =>
      if status_code =? 200
      then Ok (fold_left
                 (fun d food => fold_left usda_add_nutrient food d)
                 (firstn 1 data) nutrition_data)
      else Ok nutrition_data
  end.

(** The loop over the ingredients, with the list of the ingredients a
    request was made for. *)
Fixpoint usda_loop (http : string -> http_response usda_body)
    (ingredient_list : list string) (nutrition_data : nutrition_record)
    (requests : list string) : result nutrition_record * list string :=
  match ingredient_list with
  | [] => (Ok nutrition_data, requests)
  | ingredient :: rest =>
      match usda_add_response nutrition_data (http ingredient) with
      | Ok d => usda_loop http rest d (requests ++ [ingredient])
      | Raise e => (Raise e, requests ++ [ingredient])
      end
  end.

Definition get_nutrition_usda (http : string -> http_response usda_body)
    (ingredient_list : list string) : result nutrition_record * list string :=
  usda_loop http (firstn 3 ingredient_list) zero_record [].

(** [getattr(self, method_name)] for the nutrition methods. *)
Definition nutrition_methods (usda_http : string -> http_response usda_body)
    (fatsecret_app_key fatsecret_app_secret : string)
    (method_name : string) (ingredient_list : list string)
    : result nutrition_record :=
  if String.eqb method_name "get_nutrition_usda"
  then fst (get_nutrition_usda usda_http ingredient_list)
  else if String.eqb method_name "get_nutrition_fatsecret"
  then get_nutrition_fatsecret fatsecret_app_key fatsecret_app_secret
         ingredient_list
  else Raise (ProviderError "AttributeError").

(** *** [search_recipes_spoonacular], lines 325-364 *)

(** One element of [results], with the defaults of [.get]; the free-text
    entries are left out as in [recipe]. *)
Record spoonacular_hit : Type := mk_spoonacular_hit {
  hit_title : string;
  hit_extendedIngredients : list string;
  hit_nutrition : nutrition_dict;
  hit_readyInMinutes : option Q;
  hit_servings : option Q
}.

Definition spoonacular_recipe (hit : spoonacular_hit) : recipe :=
  {| title := hit_title hit;
     ingredients := hit_extendedIngredients hit;
     category := "";
     readyInMinutes := default 0%Q (hit_readyInMinutes hit);
     servings := Some (default 1%Q (hit_servings hit));
     source := "Spoonacular";
     nutrition := hit_nutrition hit;
     tags := [];
     _sources_tried := None; _fallback_used := None;
     _enhanced_by := None; _api_cost := None |}.

(** The method, with the requests it makes: the query and the [number]
    parameter.  [api_key] is [os.getenv('SPOONACULAR_API_KEY')]. *)
Definition search_recipes_spoonacular (api_key : option string)
    (http : string -> Z -> http_response (list spoonacular_hit))
    (query : string) (max_results : Z)
    : result (list recipe) * list (string * Z) :=
  if String.eqb (default "" api_key) ""
  then (Raise (ProviderError "Spoonacular API key not configured"), [])
  else
    let number := py_min max_results 3 in
    (match http query number with
     | NetworkError msg =>
         Raise (ProviderError ("Spoonacular network error: " +:+ msg))
     | Response status_code results =>
         if status_code =? 200
         then Ok (map spoonacular_recipe results)
         else Raise (ProviderError "Spoonacular HTTP error")
     end,
     [(query, number)]).

(** *** [search_recipes_themealdb], lines 286-323 *)

(** One element of [meals]: [strIngredient i] is the entry
    [strIngredient<i>], [None] when it is absent or null. *)
Record meal : Type := mk_meal {
  strMeal : string;
  strIngredient : nat -> option string;
  strCategory : string;
  strTags : option string
}.

(** The [meals] entry of the body: absent, null, or a list. *)
Inductive meals_json : Type :=
  | MealsAbsent
  | MealsNull
  | Meals (l : list meal).

(** [s.split(',')]. *)
Fixpoint split_comma (s : string) : list string :=
  match s with
  | EmptyString => [EmptyString]
  | String c s' =>
      if Ascii.eqb c ","%char then EmptyString :: split_comma s'
      else
        match split_comma s' with
        | [] => [String c EmptyString]
        | first :: others => String c first :: others
        end
  end.

(** The comprehension of lines 299-302. *)
Definition meal_ingredients (m : meal) : list string :=
  flat_map (fun i => match strIngredient m i with
                     | Some s => if String.eqb s "" then [] else [s]
                     | None => []
                     end)
    (seq 1 20).

Definition themealdb_recipe (m : meal) : recipe :=
  {| title := strMeal m;
     ingredients := meal_ingredients m;
     category := strCategory m;
     readyInMinutes := 30;
     servings := Some 4%Q;
     source := "TheMealDB";
     nutrition := mk_nutrition None [];
     tags := match strTags m with
             | Some t => if String.eqb t "" then [] else split_comma t
             | None => []
             end;
     _sources_tried := None; _fallback_used := None;
     _enhanced_by := None; _api_cost := None |}.

(** The method; slicing the null of a [meals: null] body raises a
    [TypeError], which the handler of line 321 raises again. *)
Definition search_recipes_themealdb (http : string -> http_response meals_json)
    (query : string) (max_results : Z) : result (list recipe) :=
  match http query with
  | NetworkError msg =>
      Raise (ProviderError ("TheMealDB network error: " +:+ msg))
  | Response status_code data =>
      if status_code =? 200 then
        match data with
        | MealsAbsent => Ok []
        | MealsNull => Raise (ProviderError "TypeError")
        | Meals l => Ok (map themealdb_recipe (list_slice_to l max_results))
        end
      else Raise (ProviderError "TheMealDB HTTP error")
  end.

(** [getattr(self, method_name)] for the search methods. *)
Definition search_methods (themealdb_http : string -> http_response meals_json)
    (api_key : option string)
    (spoonacular_http : string -> Z -> http_response (list spoonacular_hit))
    (method_name query : string) (max_results : Z) : result (list recipe) :=
  if String.eqb method_name "search_recipes_themealdb"
  then search_recipes_themealdb themealdb_http query max_results
  else if String.eqb method_name "search_recipes_spoonacular"
  then fst (search_recipes_spoonacular api_key spoonacular_http query
              max_results)
  else Raise (ProviderError "AttributeError").

(** The test of line 389: the nutrient is given per 100 g or in grams,
    and is passed over. *)
Definition usda_passed_over (nutrient : usda_nutrient) : bool :=
  str_in "per 100 g" (lower (nutrientName nutrient))
  || String.eqb (unitName nutrient) "g".

(** A response that adds nothing: a status other than 200, or a first
    food all of whose nutrients are passed over. *)
Definition usda_adds_nothing (response : http_response usda_body) : Prop :=
  match response with
  | NetworkError _ => False
  | Response status_code data =>
      status_code <> 200
      \/ Forall (fun food => Forall (fun n => usda_passed_over n = true) food)
           (firstn 1 data)
  end.

(** USDA answers every request with one food, whose protein is given in
    grams. *)
Definition usda_http_grams (ingredient : string) : http_response usda_body :=
  Response 200 [[mk_usda_nutrient "Protein" 21 "g"]].

(** TheMealDB answers with [meals: null]. *)
Definition themealdb_http_null (query : string) : http_response meals_json :=
  Response 200 MealsNull.

(** Spoonacular is never reached over the network. *)
Definition spoonacular_http_down (query : string) (number : Z)
    : http_response (list spoonacular_hit) :=
  NetworkError "unreachable".

(** Every search provider answers with the same three records, whatever
    it is asked for. *)
Definition search_three_results (method_name query : string) (max_results : Z)
    : result (list recipe) :=
  Ok (map (fun t => spoonacular_recipe
                      (mk_spoonacular_hit t [] (mk_nutrition None []) None None))
        ["Dal"; "Pho"; "Ramen"]).

(** ** The callers of the analysis

    [RecipeMCPClient.analyze_recipe_nutrition] hands on the dictionary of
    [analyze_nutrition], or the empty dictionary when the call failed; the
    callers read it with [.get(key, 0)].  [None] stands for the empty
    dictionary. *)

(** [enhance_recipe_with_mcp] of [mcp_client.py], lines 91-108: the keys
    [mcp_recommendations] and [mcp_health_score] it adds to the recipe. *)
Definition mcp_recommendations (nutrition_analysis : option analysis)
    : list string :=
  (if from_option health_score 0 nutrition_analysis <? 70
   then ["Consider balancing this meal with additional vegetables"]
   else [])
  ++ (if Qgt_bool 15 (from_option protein_per_serving 0%Q nutrition_analysis)
      then ["Add protein-rich ingredients for better satiety"]
      else []).

Definition mcp_health_score (nutrition_analysis : option analysis) : Z :=
  from_option health_score 0 nutrition_analysis.

(** [analyze_recipe_health] of [enhanced_recipes.py], lines 110-160: the
    share of the calories that a macronutrient gives, lines 143-145. *)
Definition macro_ratio (grams kcal_per_gram calories : Q) : Q :=
  if Qgt_bool calories 0 then (grams * kcal_per_gram / calories)%Q else 0%Q.

(** The [insights] list, lines 123-148. *)
Definition insights (analysis : option analysis) : list string :=
  let calories := from_option calories_per_serving 0%Q analysis in
  let protein := from_option protein_per_serving 0%Q analysis in
  let carbs := from_option carbs_per_serving 0%Q analysis in
  let fat := from_option fat_per_serving 0%Q analysis in
  let protein_ratio := macro_ratio protein 4 calories in
  let carb_ratio := macro_ratio carbs 4 calories in
  let fat_ratio := macro_ratio fat 9 calories in
  (if Qgt_bool 300 calories
   then ["Low calorie meal - good for weight management"]
   else if Qgt_bool calories 800
   then ["High calorie meal - consider portion control"]
   else [])
  ++ (if Qgt_bool 15 protein
      then ["Low protein - consider adding protein-rich foods"]
      else if Qgt_bool protein 30
      then ["High protein - excellent for muscle maintenance"]
      else [])
  ++ (if Qle_bool 0.15 protein_ratio && Qle_bool protein_ratio 0.25
         && Qle_bool carb_ratio 0.5 && Qle_bool fat_ratio 0.3
      then ["Well-balanced macronutrient profile"]
      else []).

(** A recipe as [search_recipes_spoonacular] builds it, with four
    servings and a [nutrients] list that gives a fifth of the calories as
    protein. *)
Definition balanced_bowl : recipe :=
  {| title := "Grain Bowl"; ingredients := ["quinoa"; "chicken"];
     category := ""; readyInMinutes := 25; servings := Some 4%Q;
     source := "Spoonacular";
     nutrition :=
       mk_nutrition
         (Some [mk_nutrient "Calories" 1600; mk_nutrient "Protein" 80;
                mk_nutrient "Carbohydrates" 160; mk_nutrient "Fat" 48]) [];
     tags := []; _sources_tried := None; _fallback_used := None;
     _enhanced_by := None; _api_cost := None |}.

(** * Properties *)

(** ** Strings *)

Lemma rstrip_length (s : string) :
  (String.length (rstrip s) <= String.length s)%nat.
Proof.
  induction s as [|c s IH]; simpl; [lia|].
  destruct (rstrip s) eqn:E; [destruct (isspace c)|]; simpl in *; lia.
Qed.

Lemma rstrip_prefix (s : string) : String.prefix (rstrip s) s = true.
Proof.
  induction s as [|c s IH]; simpl; [reflexivity|].
  destruct (rstrip s) eqn:E.
  - destruct (isspace c); simpl; [reflexivity|].
    destruct (Ascii.ascii_dec c c); [|congruence]. now destruct s.
  - simpl. destruct (Ascii.ascii_dec c c); [exact IH|congruence].
Qed.

(** A string whose last character is not white space is left as it is. *)
Lemma rstrip_last_nonspace (s : string) (c : ascii) :
  String.get (String.length s - 1) s = Some c -> isspace c = false ->
  rstrip s = s.
Proof.
  revert c. induction s as [|a s IH]; intros c Hget Hc; [reflexivity|].
  simpl. destruct s as [|b s'].
  - simpl in *. injection Hget as ->. now rewrite Hc.
  - assert (Hs : rstrip (String b s') = String b s').
    { apply (IH c); [|exact Hc].
      simpl in Hget. simpl. now rewrite Nat.sub_0_r in *. }
    now rewrite Hs.
Qed.

Lemma substring_0_length (n : nat) (s : string) :
  String.length (substring 0 n s) = Nat.min n (String.length s).
Proof.
  revert s. induction n as [|n IH]; intros [|c s]; simpl; auto.
Qed.

Lemma substring_0_get (n i : nat) (s : string) :
  (i < n)%nat -> String.get i (substring 0 n s) = String.get i s.
Proof.
  revert i s. induction n as [|n IH]; intros i [|c s] Hi; simpl; try lia; auto.
  destruct i; [reflexivity|]. apply IH. lia.
Qed.

Lemma substring_0_prefix (n : nat) (s : string) :
  String.prefix (substring 0 n s) s = true.
Proof.
  revert s. induction n as [|n IH]; intros [|c s]; simpl; auto.
  destruct (Ascii.ascii_dec c c); [apply IH|congruence].
Qed.

Lemma prefix_trans (a b c : string) :
  String.prefix a b = true -> String.prefix b c = true ->
  String.prefix a c = true.
Proof.
  revert b c. induction a as [|x a IH]; intros [|y b] [|z c]; simpl; auto;
    try discriminate.
  destruct (Ascii.ascii_dec x y) as [->|]; [|discriminate].
  destruct (Ascii.ascii_dec y z) as [->|]; [|discriminate].
  apply IH.
Qed.

Lemma append_length (s t : string) :
  String.length (s +:+ t) = (String.length s + String.length t)%nat.
Proof. induction s; simpl; auto. Qed.

(** ** [_generate]: the output guard *)

(** C8, as stated, fails: the response of 5,000 characters whose 2,500th
    character is a space is longer than the default budget, and the answer
    is not its first 2,500 characters followed by the suffix; it has 2,499
    characters before the suffix. *)
Lemma generate_truncation_counterexample :
  len response_5000 = 5000 /\
  max_chars_of_env None = 2500 /\
  _generate None response_5000
    <> str_slice_to response_5000 2500 +:+ trimmed_suffix /\
  len (_generate None response_5000) = 2499 + len trimmed_suffix.
Proof.
  split; [now vm_compute|]. split; [reflexivity|]. split.
  - intros H. apply (f_equal String.length) in H. vm_compute in H. discriminate.
  - now vm_compute.
Qed.

(** C8, amended: when the response, stripped of leading and trailing white
    space, is longer than a budget that is not negative, the answer is the
    first [budget] characters of the stripped text with their trailing
    white space removed, followed by the trimmed suffix.  It never has more
    than [budget] characters before the suffix, and it has exactly [budget]
    when the character at which the text is cut is not white space. *)
Theorem generate_trims_to_budget (env : option Z) (resp : string) :
  0 <= max_chars_of_env env < len (strip resp) ->
  let budget := max_chars_of_env env in
  let cut := substring 0 (Z.to_nat budget) (strip resp) in
  _generate env resp = rstrip cut +:+ trimmed_suffix
  /\ len cut = budget
  /\ String.prefix (rstrip cut) (strip resp) = true
  /\ len (_generate env resp) <= budget + len trimmed_suffix
  /\ (forall c, 0 < budget ->
        String.get (Z.to_nat budget - 1) (strip resp) = Some c ->
        isspace c = false ->
        _generate env resp = cut +:+ trimmed_suffix
        /\ len (_generate env resp) = budget + len trimmed_suffix).
Proof.
  intros [Hlo Hhi] budget cut.
  assert (Hgen : _generate env resp = rstrip cut +:+ trimmed_suffix).
  { unfold _generate, output_guard. fold budget.
    destruct (budget <? len (strip resp)) eqn:E; [|lia].
    unfold str_slice_to. destruct (budget <? 0) eqn:E0; [lia|reflexivity]. }
  assert (Hcut : len cut = budget).
  { unfold len, cut in *. rewrite substring_0_length. lia. }
  split; [exact Hgen|]. split; [exact Hcut|]. split.
  { apply (prefix_trans _ cut); [apply rstrip_prefix|].
    apply substring_0_prefix. }
  split.
  { rewrite Hgen. unfold len in *. rewrite append_length.
    pose proof (rstrip_length cut). lia. }
  intros c Hpos Hget Hc.
  assert (Hr : rstrip cut = cut).
  { apply (rstrip_last_nonspace cut c); [|exact Hc].
    unfold len in Hcut.
    replace (String.length cut - 1)%nat with (Z.to_nat budget - 1)%nat by lia.
    unfold cut. rewrite substring_0_get; [exact Hget|lia]. }
  rewrite Hgen, Hr. split; [reflexivity|].
  unfold len in *. rewrite append_length. lia.
Qed.

Lemma generate_trims_to_budget_witness :
  0 <= max_chars_of_env (Some 3) < len (strip "ab cde  ")
  /\ _generate (Some 3) "ab cde  " = "ab" +:+ trimmed_suffix.
Proof.
  assert (H : 0 <= max_chars_of_env (Some 3) < len (strip "ab cde  "))
    by (vm_compute; split; [discriminate|reflexivity]).
  split; [exact H|].
  exact (proj1 (generate_trims_to_budget (Some 3) "ab cde  " H)).
Defined.

(** ** Comparisons on numbers *)

Lemma Qgt_bool_true (a b : Q) : Qgt_bool a b = true <-> (b < a)%Q.
Proof.
  unfold Qgt_bool. rewrite negb_true_iff, <- not_true_iff_false, Qle_bool_iff.
  split; [apply Qnot_le_lt | apply Qlt_not_le].
Qed.

Lemma Qgt_bool_false (a b : Q) : Qgt_bool a b = false <-> (a <= b)%Q.
Proof.
  unfold Qgt_bool. rewrite negb_false_iff. apply Qle_bool_iff.
Qed.

Lemma Qle_bool_false (a b : Q) : Qle_bool a b = false <-> (b < a)%Q.
Proof.
  rewrite <- not_true_iff_false, Qle_bool_iff.
  split; [apply Qnot_le_lt | apply Qlt_not_le].
Qed.

(** Turns the outcome of every comparison in the context into an order on
    [Q]. *)
Ltac q_tests :=
  repeat match goal with
  | H : Qle_bool _ _ = true |- _ => apply Qle_bool_iff in H
  | H : Qle_bool _ _ = false |- _ => apply Qle_bool_false in H
  | H : Qgt_bool _ _ = true |- _ => apply Qgt_bool_true in H
  | H : Qgt_bool _ _ = false |- _ => apply Qgt_bool_false in H
  end.

(** ** [analyze_nutrition]: the health score *)



Lemma analyze_nutrient_keeps_score (s : Q) (a a' : analysis) (n : nutrient) :
  analyze_nutrient s a n = Ok a' ->
  health_score a' = health_score a /\ recommendations a' = recommendations a.
Proof.
  unfold analyze_nutrient.
  repeat match goal with
         | |- context [if ?b then _ else _] => destruct b
         | |- context [match py_div ?x ?y with _ => _ end] =>
             destruct (py_div x y)
         end; intros H; inversion H; subst; auto.
Qed.

Lemma analyze_nutrients_keeps_score (s : Q) (l : list nutrient) :
  forall a a', analyze_nutrients s l a = Ok a' ->
  health_score a' = health_score a /\ recommendations a' = recommendations a.
Proof.
  induction l as [|n l IH]; intros a a'; cbn [analyze_nutrients].
  - intros H; inversion H; auto.
  - destruct (analyze_nutrient s a n) as [a1|e] eqn:E; [|discriminate].
    intros H. apply IH in H as [H1 H2].
    apply analyze_nutrient_keeps_score in E as [E1 E2].
    split; congruence.
Qed.

Lemma category_estimate_keeps_score (c : string) (a : analysis) :
  health_score (category_estimate c a) = health_score a
  /\ recommendations (category_estimate c a) = recommendations a.
Proof.
  unfold category_estimate.
  repeat match goal with
         | |- context [if ?b then _ else _] => destruct b
         end; auto.
Qed.

Lemma estimate_per_serving_keeps_score nm now (recipe_data : recipe) (s : Q)
    (a a' : analysis) (srv srv' : server) :
  estimate_per_serving nm now recipe_data s a srv = Ok (a', srv') ->
  health_score a' = health_score a /\ recommendations a' = recommendations a.
Proof.
  unfold estimate_per_serving.
  destruct (ingredients recipe_data).
  - intros H; inversion H; subst. apply category_estimate_keeps_score.
  - destruct (get_nutrition_with_fallback _ _ _ _) as [[nd srv1]|e];
      [|discriminate].
    repeat match goal with
           | |- context [match per_serving ?x ?y ?z with _ => _ end] =>
               destruct (per_serving x y z)
           end; intros H; inversion H; subst; auto.
Qed.

Lemma analyze_nutrition_scored nm now (recipe_data : recipe)
    (srv srv' : server) (a : analysis) :
  analyze_nutrition nm now recipe_data srv = Ok (a, srv') ->
  exists a0, a = score_analysis a0 /\ health_score a0 = 0
             /\ recommendations a0 = [].
Proof.
  unfold analyze_nutrition. cbv zeta.
  destruct (analyze_nutrients _ _ analysis_init) as [a1|e] eqn:E1;
    [|discriminate].
  apply analyze_nutrients_keeps_score in E1 as [H1 H2].
  cbn [analysis_init health_score recommendations] in H1, H2.
  destruct (Qeq_bool (calories_per_serving a1) 0).
  - destruct (estimate_per_serving _ _ _ _ _ _) as [[a2 srv2]|e] eqn:E2;
      [|discriminate].
    apply estimate_per_serving_keeps_score in E2 as [H3 H4].
    intros H; inversion H; subst. exists a2. repeat split; congruence.
  - intros H; inversion H; subst. exists a1. auto.
Qed.

Lemma balance_score_values (p c f : Q) :
  let b := balance_score p c f in
  0 <= b <= 75 /\ (b = 0 \/ b = 25 \/ b = 50 \/ b = 75).
Proof.
  unfold balance_score.
  repeat match goal with
         | |- context [if ?b then _ else _] => destruct b
         end; cbv zeta; lia.
Qed.

Lemma calorie_score_values (c : Q) :
  let s := calorie_score c in s = 10 \/ s = 15 \/ s = 20 \/ s = 25.
Proof.
  unfold calorie_score.
  repeat match goal with
         | |- context [if ?b then _ else _] => destruct b
         end; cbv zeta; lia.
Qed.

(** The score and the recommendations of an analysis that starts without
    either. *)
Lemma score_analysis_cases (a0 : analysis) :
  health_score a0 = 0 -> recommendations a0 = [] ->
  let a := score_analysis a0 in
  let calories := calories_per_serving a0 in
  let balance :=
    balance_score (protein_per_serving a0 * 4 / calories * 100)
      (carbs_per_serving a0 * 4 / calories * 100)
      (fat_per_serving a0 * 9 / calories * 100) in
  ((calories <= 0)%Q /\ a = a0)
  \/ ((0 < calories)%Q
      /\ calories_per_serving a = calories
      /\ protein_per_serving a = protein_per_serving a0
      /\ carbs_per_serving a = carbs_per_serving a0
      /\ fat_per_serving a = fat_per_serving a0
      /\ health_score a = balance + calorie_score calories
      /\ recommendations a
         = [ if 50 <=? balance then "Well-balanced macronutrients!"
             else "Consider balancing protein, carbs, and fat";
             if 20 <=? calorie_score calories
             then "Appropriate calorie content"
             else if Qgt_bool 200 calories
             then "May need more calories for satiety"
             else "High calorie meal - watch portions" ]).
Proof.
  intros Hs Hr. cbv zeta. unfold score_analysis. cbv zeta.
  destruct (Qgt_bool (calories_per_serving a0) 0) eqn:E.
  - right. apply Qgt_bool_true in E. rewrite Hr.
    cbn [calories_per_serving protein_per_serving carbs_per_serving
         fat_per_serving health_score recommendations app].
    repeat split; auto.
  - left. apply Qgt_bool_false in E. auto.
Qed.



(** ** [analyze_nutrition]: the divisor *)

Lemma py_max_one_positive (s : Q) : (0 < py_max s 1)%Q.
Proof. unfold py_max. destruct (Qlt_le_dec s 1); lra. Qed.

(** The estimate branch divides by [max(servings, 1)] and cannot raise. *)
Lemma per_serving_ok (d : nutrition_out) (k : string) (s : Q) :
  per_serving d k s = Ok (default 0%Q (values d !! k) / py_max s 1)%Q.
Proof.
  unfold per_serving, py_div.
  destruct (Qeq_bool (py_max s 1) 0) eqn:E; [|reflexivity].
  apply Qeq_bool_iff in E. pose proof (py_max_one_positive s). lra.
Qed.

(** C9, the defect: a recipe that carries a [nutrients] list and whose
    [servings] is 0 makes the analysis divide by zero, whatever the
    providers do; the branch for recipes without such a list divides by
    [max(servings, 1)] and never does. *)
Theorem analyze_nutrition_divides_by_servings nm now (srv : server)
    (d : nutrition_out) (k : string) (s : Q) :
  analyze_nutrition nm now recipe_zero_servings srv = Raise ZeroDivisionError
  /\ per_serving d k s = Ok (default 0%Q (values d !! k) / py_max s 1)%Q.
Proof.
  split; [reflexivity|apply per_serving_ok].
Qed.

(** ** [estimate_nutrition] *)

Lemma record_equiv_refl (a : nutrition_record) : record_equiv a a.
Proof. unfold record_equiv. repeat split; reflexivity. Qed.

Lemma record_equiv_trans (a b c : nutrition_record) :
  record_equiv a b -> record_equiv b c -> record_equiv a c.
Proof.
  unfold record_equiv. intros (H1 & H2 & H3 & H4 & H5) (G1 & G2 & G3 & G4 & G5).
  repeat split; etransitivity; eassumption.
Qed.

(** One turn of the loop adds the contribution of the first bucket, in the
    order of the source, that the ingredient matches. *)
Lemma estimate_ingredient_first_bucket (acc : nutrition_record) (i : string) :
  record_equiv (estimate_ingredient acc i)
    (record_add acc (bucket_contribution (first_bucket source_priority i))).
Proof.
  unfold estimate_ingredient, first_bucket, source_priority.
  cbn [find bucket_words].
  destruct (any_in estimations_protein (lower i));
    [|destruct (any_in estimations_high_carb (lower i));
      [|destruct (any_in estimations_high_fat (lower i));
        [|destruct (any_in estimations_low_cal (lower i));
          [|destruct (any_in estimations_high_fiber (lower i))]]]];
    unfold record_equiv; cbn; repeat split; lra.
Qed.

Lemma estimate_fold_equiv (l : list string) (a b : nutrition_record) :
  record_equiv a b ->
  record_equiv (fold_left estimate_ingredient l a)
    (record_add b (estimate_by_priority source_priority l)).
Proof.
  revert a b. induction l as [|i l IH]; intros a b Hab; simpl.
  - unfold record_equiv in *. simpl. destruct Hab as (H1 & H2 & H3 & H4 & H5).
    repeat split; lra.
  - eapply record_equiv_trans.
    + apply (IH _ (record_add b
                     (bucket_contribution (first_bucket source_priority i)))).
      eapply record_equiv_trans; [apply estimate_ingredient_first_bucket|].
      unfold record_equiv in *. simpl. destruct Hab as (H1 & H2 & H3 & H4 & H5).
      repeat split; lra.
    + unfold record_equiv. simpl. repeat split; lra.
Qed.

(** C7, as stated, fails: with the sets tested in the order of the
    specification, an ingredient that names both a high-fibre and a
    low-calorie keyword would add 50 kcal; the source adds 25. *)
Lemma estimate_priority_counterexample :
  first_bucket claimed_priority "spinach and tomato" = Some HighFiber /\
  estimate_nutrition ["spinach and tomato"] = mk_nutrition_record (0 + 25) 0 0 0 (0 + 3) /\
  ~ record_equiv (estimate_nutrition ["spinach and tomato"])
      (estimate_by_priority claimed_priority ["spinach and tomato"]).
Proof.
  split; [reflexivity|]. split; [reflexivity|].
  intros (H & _). vm_compute in H. discriminate.
Qed.

(** C7, amended: every ingredient is lower-cased and tested against the
    keyword sets in the order protein-rich, high-carb, high-fat,
    low-calorie, high-fibre; the first set that matches gives its whole
    contribution, an ingredient that matches none gives the default one,
    and the estimate is the sum of one contribution for each ingredient. *)
Theorem estimate_nutrition_first_match (ingredient_list : list string) :
  record_equiv (estimate_nutrition ingredient_list)
    (estimate_by_priority source_priority ingredient_list).
Proof.
  unfold estimate_nutrition.
  eapply record_equiv_trans;
    [apply (estimate_fold_equiv _ _ zero_record), record_equiv_refl|].
  unfold record_equiv. simpl. repeat split; lra.
Qed.

(** ** [merge_nutrition_data] *)

(** One item of a provider's dictionary against a merged dictionary in its
    five-key shape, for each of the five keys. *)
Ltac merge_item_step a key field :=
  unfold merge_item, keep_greater; cbn [fst snd];
  change (default 0%Q (dict_of_record a !! key)) with (field a);
  match goal with |- context [Qgt_bool ?v ?m] => destruct (Qgt_bool v m) end;
  [reflexivity | destruct a; reflexivity].

Lemma merge_item_calories (a : nutrition_record) (v : Q) :
  merge_item (dict_of_record a) ("calories", VNum v)
  = dict_of_record (mk_nutrition_record (keep_greater (calories a) v)
                      (protein a) (carbs a) (fat a) (fiber a)).
Proof. merge_item_step a "calories" calories. Qed.

Lemma merge_item_protein (a : nutrition_record) (v : Q) :
  merge_item (dict_of_record a) ("protein", VNum v)
  = dict_of_record (mk_nutrition_record (calories a)
                      (keep_greater (protein a) v) (carbs a) (fat a) (fiber a)).
Proof. merge_item_step a "protein" protein. Qed.

Lemma merge_item_carbs (a : nutrition_record) (v : Q) :
  merge_item (dict_of_record a) ("carbs", VNum v)
  = dict_of_record (mk_nutrition_record (calories a) (protein a)
                      (keep_greater (carbs a) v) (fat a) (fiber a)).
Proof. merge_item_step a "carbs" carbs. Qed.

Lemma merge_item_fat (a : nutrition_record) (v : Q) :
  merge_item (dict_of_record a) ("fat", VNum v)
  = dict_of_record (mk_nutrition_record (calories a) (protein a) (carbs a)
                      (keep_greater (fat a) v) (fiber a)).
Proof. merge_item_step a "fat" fat. Qed.

Lemma merge_item_fiber (a : nutrition_record) (v : Q) :
  merge_item (dict_of_record a) ("fiber", VNum v)
  = dict_of_record (mk_nutrition_record (calories a) (protein a) (carbs a)
                      (fat a) (keep_greater (fiber a) v)).
Proof. merge_item_step a "fiber" fiber. Qed.

(** The inner loop over the items of one provider keeps the dictionary in
    its five-key shape. *)
Lemma merge_items_record (a r : nutrition_record) :
  fold_left merge_item (py_items r) (dict_of_record a)
  = dict_of_record (record_keep_greater a r).
Proof.
  unfold py_items, record_items. cbn [map fold_left fst snd].
  rewrite merge_item_calories, merge_item_protein, merge_item_carbs,
    merge_item_fat, merge_item_fiber.
  reflexivity.
Qed.

Lemma merge_fold_record (results : list (string * nutrition_record))
    (a : nutrition_record) :
  fold_left (fun merged sd => fold_left merge_item (snd sd) merged)
    (results_dict results) (dict_of_record a)
  = dict_of_record (fold_left record_keep_greater (map snd results) a).
Proof.
  revert a. induction results as [|[p r] rs IH]; intros a; [reflexivity|].
  cbn [results_dict map fold_left fst snd].
  rewrite merge_items_record. apply IH.
Qed.

Lemma merge_nutrition_data_record (results : list (string * nutrition_record)) :
  merge_nutrition_data (results_dict results)
  = dict_of_record (fold_left record_keep_greater (map snd results) zero_record).
Proof.
  destruct results as [|pr rs]; [reflexivity|].
  unfold merge_nutrition_data, zero_dict.
  change (results_dict (pr :: rs))
    with ((fst pr, py_items (snd pr)) :: results_dict rs).
  exact (merge_fold_record (pr :: rs) zero_record).
Qed.

(** Records proofs about [Qmax] and [keep_greater] for an order solver. *)
Ltac q_max_cases :=
  unfold keep_greater in *;
  repeat match goal with
  | |- context [Qgt_bool ?a ?b] =>
      let E := fresh "E" in destruct (Qgt_bool a b) eqn:E
  end;
  q_tests;
  repeat match goal with
  | |- context [Qmax ?a ?b] =>
      lazymatch goal with
      | _ : (a < b)%Q /\ (Qmax a b == b)%Q \/ _ |- _ => fail
      | _ => pose proof (Q.max_spec a b)
      end
  end.

Lemma max_positive_nonneg (l : list Q) : (0 <= max_positive l)%Q.
Proof.
  unfold max_positive. induction l as [|v l IH]; simpl; [lra|].
  destruct (Qgt_bool v 0) eqn:E; [|exact IH].
  simpl. q_tests. q_max_cases. lra.
Qed.

Lemma max_positive_cons (v : Q) (l : list Q) :
  max_positive (v :: l)
  = if Qgt_bool v 0 then Qmax v (max_positive l) else max_positive l.
Proof. unfold max_positive. simpl. now destruct (Qgt_bool v 0). Qed.

(** The running value of one nutrient is the maximum of the start value
    and of the positive values seen. *)
Lemma keep_greater_fold (l : list Q) (m : Q) :
  (0 <= m)%Q ->
  (fold_left keep_greater l m == Qmax m (max_positive l))%Q.
Proof.
  revert m. induction l as [|v l IH]; intros m Hm.
  - simpl. change (max_positive []) with 0%Q. q_max_cases. lra.
  - cbn [fold_left]. rewrite IH.
    + rewrite max_positive_cons. pose proof (max_positive_nonneg l).
      destruct (Qgt_bool v 0) eqn:Ev; q_tests; q_max_cases; lra.
    + q_max_cases; lra.
Qed.

Lemma fold_keep_greater_fields (rs : list nutrition_record) (a : nutrition_record) :
  let m := fold_left record_keep_greater rs a in
  calories m = fold_left keep_greater (map calories rs) (calories a)
  /\ protein m = fold_left keep_greater (map protein rs) (protein a)
  /\ carbs m = fold_left keep_greater (map carbs rs) (carbs a)
  /\ fat m = fold_left keep_greater (map fat rs) (fat a)
  /\ fiber m = fold_left keep_greater (map fiber rs) (fiber a).
Proof.
  revert a. induction rs as [|r rs IH]; intros a; [cbn; auto|].
  cbn [fold_left map]. apply (IH (record_keep_greater a r)).
Qed.

Lemma keep_greater_from_zero (l : list Q) :
  (fold_left keep_greater l 0 == max_positive l)%Q.
Proof.
  rewrite keep_greater_fold by lra.
  pose proof (max_positive_nonneg l). q_max_cases. lra.
Qed.

(** The merged record is, nutrient by nutrient, the maximum of the positive
    values. *)
Lemma merged_record_is_max (rs : list nutrition_record) :
  record_equiv (fold_left record_keep_greater rs zero_record) (max_record rs).
Proof.
  destruct (fold_keep_greater_fields rs zero_record) as (H1 & H2 & H3 & H4 & H5).
  unfold record_equiv, max_record. cbn [calories protein carbs fat fiber].
  rewrite H1, H2, H3, H4, H5. cbn [zero_record calories protein carbs fat fiber].
  repeat split; apply keep_greater_from_zero.
Qed.

Lemma max_positive_pair (x y : Q) :
  (0 <= x)%Q -> (0 <= y)%Q -> (max_positive [x; y] == Qmax x y)%Q.
Proof.
  intros Hx Hy. rewrite !max_positive_cons. change (max_positive []) with 0%Q.
  destruct (Qgt_bool x 0) eqn:Ex, (Qgt_bool y 0) eqn:Ey; q_tests; q_max_cases;
    lra.
Qed.

Lemma max_positive_single (x : Q) : (0 <= x)%Q -> (max_positive [x] == x)%Q.
Proof.
  intros Hx. rewrite max_positive_cons. change (max_positive []) with 0%Q.
  destruct (Qgt_bool x 0) eqn:Ex; q_tests; q_max_cases; lra.
Qed.

(** C4: the merged dictionary has the five nutrient keys and holds, for
    each nutrient, the maximum of the values of the providers that
    reported a positive one, zero when none did.  For two providers with
    records of non-negative values it is the greater of the two values, for
    one provider it is that provider's record, and for no provider it is
    the all-zero record. *)
Theorem merge_takes_maximum (results : list (string * nutrition_record))
    (a b : string) (A B : nutrition_record) :
  nonneg_record A -> nonneg_record B ->
  (exists m, merge_nutrition_data (results_dict results) = dict_of_record m
             /\ record_equiv m (max_record (map snd results)))
  /\ (exists m, merge_nutrition_data (results_dict [(a, A); (b, B)])
                = dict_of_record m
                /\ record_equiv m (pair_max A B))
  /\ (exists m, merge_nutrition_data (results_dict [(a, A)]) = dict_of_record m
                /\ record_equiv m A)
  /\ merge_nutrition_data (results_dict []) = dict_of_record zero_record.
Proof.
  intros (A1 & A2 & A3 & A4 & A5) (B1 & B2 & B3 & B4 & B5).
  split; [|split; [|split]].
  - eexists. split; [apply merge_nutrition_data_record|].
    apply merged_record_is_max.
  - eexists. split; [apply merge_nutrition_data_record|].
    eapply record_equiv_trans; [apply merged_record_is_max|].
    unfold record_equiv, max_record, pair_max.
    cbn [map snd calories protein carbs fat fiber].
    repeat split; now apply max_positive_pair.
  - eexists. split; [apply merge_nutrition_data_record|].
    eapply record_equiv_trans; [apply merged_record_is_max|].
    unfold record_equiv, max_record.
    cbn [map snd calories protein carbs fat fiber].
    repeat split; now apply max_positive_single.
  - reflexivity.
Qed.

Lemma merge_takes_maximum_witness :
  nonneg_record (mk_nutrition_record 120 4 (7 # 2) 0 1)
  /\ nonneg_record (mk_nutrition_record 90 6 (7 # 2) 2 0)
  /\ exists m,
       merge_nutrition_data
         (results_dict [("usda", mk_nutrition_record 120 4 (7 # 2) 0 1);
                        ("fatsecret", mk_nutrition_record 90 6 (7 # 2) 2 0)])
       = dict_of_record m
       /\ record_equiv m (mk_nutrition_record 120 6 (7 # 2) 2 1).
Proof.
  assert (HA : nonneg_record (mk_nutrition_record 120 4 (7 # 2) 0 1))
    by (unfold nonneg_record; cbn; repeat split; discriminate).
  assert (HB : nonneg_record (mk_nutrition_record 90 6 (7 # 2) 2 0))
    by (unfold nonneg_record; cbn; repeat split; discriminate).
  split; [exact HA|]. split; [exact HB|].
  destruct (merge_takes_maximum [] "usda" "fatsecret" _ _ HA HB)
    as (_ & (m & Hm & Hmax) & _).
  exists m. split; [exact Hm|].
  eapply record_equiv_trans; [exact Hmax|].
  unfold record_equiv, pair_max. cbn. repeat split; reflexivity.
Defined.

(** ** The loops over the providers *)

Lemma insert_as_alter (f : health_entry -> health_entry) (k : string)
    (e : health_entry) (h : gmap string health_entry) :
  h !! k = Some e -> <[k := f e]> h = alter f k h.
Proof.
  intros He. apply map_eq. intros j.
  destruct (decide (k = j)) as [->|Hne].
  - rewrite lookup_insert_eq, lookup_alter_eq, He. reflexivity.
  - rewrite lookup_insert_ne, lookup_alter_ne by exact Hne. reflexivity.
Qed.

(** The attempts at the providers of [rest] do not depend on the entry of
    a provider that is not among them. *)
Lemma attempts_alter_other {A} (usable : A -> bool)
    (outcome : string -> result A) (f : health_entry -> health_entry)
    (k : string) (h : gmap string health_entry) (rest : list (string * string)) :
  k ∉ map fst rest ->
  map (fun p => (p, attempt_of usable (alter f k h) outcome p)) rest
  = map (fun p => (p, attempt_of usable h outcome p)) rest.
Proof.
  intros Hk. apply map_ext_in. intros p Hp. f_equal.
  unfold attempt_of. rewrite lookup_alter_ne; [reflexivity|].
  intros ->. apply Hk, list_elem_of_In. now apply in_map.
Qed.

Lemma providers_present_alter (f : health_entry -> health_entry) (k : string)
    (h : gmap string health_entry) (rest : list (string * string)) :
  Forall (fun p => is_Some (h !! fst p)) rest ->
  Forall (fun p => is_Some (alter f k h !! fst p)) rest.
Proof.
  apply List.Forall_impl. intros p [e He].
  destruct (decide (k = fst p)) as [->|Hne].
  - rewrite lookup_alter_eq, He. cbn. eauto.
  - rewrite lookup_alter_ne by exact Hne. eauto.
Qed.


Lemma tried_cons {A} (pa : string * string * attempt A) l :
  tried_until_success (pa :: l)
  = pa :: (if is_success (snd pa) then [] else tried_until_success l).
Proof. reflexivity. Qed.

Lemma calls_of_cons {A} (pa : string * string * attempt A) l :
  calls_of (pa :: l)
  = if is_called (snd pa) then snd (fst pa) :: calls_of l else calls_of l.
Proof. unfold calls_of. cbn. now destruct (is_called (snd pa)). Qed.

Lemma data_of_cons {A} (pa : string * string * attempt A) l :
  data_of (pa :: l)
  = match snd pa with Data x => x :: data_of l | _ => data_of l end.
Proof. unfold data_of. cbn. now destruct (snd pa). Qed.

Lemma health_after_cons {A} now f (pa : string * string * attempt A) l h :
  health_after now f (pa :: l) h
  = health_after now f l (alter (entry_after now f (snd pa)) (fst (fst pa)) h).
Proof. reflexivity. Qed.

(** An attempt that skips the provider, or finds nothing usable, leaves
    the health dictionary as it is. *)
Lemma alter_idle {A} now f (a : attempt A) (k : string)
    (h : gmap string health_entry) :
  is_success a = false -> a <> Failed ->
  alter (entry_after now f a) k h = h.
Proof.
  intros Hs Hf. apply alter_id. intros e _.
  destruct a; try reflexivity; [congruence|discriminate].
Qed.

Section SearchLoop.

Variable search_method : string -> string -> Z -> result (list recipe).
Variable now : Q.
Variables (query : string) (max_results : Z).

(** The loop gets to the providers in the order of the list, up to the
    first that gives results, and leaves the state that the attempts
    describe. *)
Lemma search_loop_attempts (priority : list (string * string)) :
  forall st : search_state,
  NoDup (map fst priority) ->
  Forall (fun p => is_Some (api_health (self st) !! fst p)) priority ->
  let atts := search_attempts search_method query max_results priority
                (api_health (self st)) in
  search_loop search_method now query max_results priority st
  = Ok (mk_search_state
          (recipes st ++ concat (data_of atts))
          (sources_tried st ++ map provenance_entry atts)
          (mk_server
             (health_after now search_record_failure atts (api_health (self st)))
             (call_log (self st) ++ calls_of atts))).
Proof.
  induction priority as [|[api_name method_name] rest IH]; intros st Hnd Hin.
  - cbn. rewrite !app_nil_r. now destruct st as [? ? []].
  - cbn [map] in Hnd. apply NoDup_cons in Hnd as [Hfresh Hnd].
    apply List.Forall_cons_iff in Hin as [[entry He] Hin].
    cbn [fst] in He, Hfresh.
    intros atts. subst atts. unfold search_attempts.
    cbn [map]. rewrite tried_cons. cbn [snd].
    assert (Ha : attempt_of nonempty (api_health (self st))
                   (fun m => search_method m query max_results)
                   (api_name, method_name)
                 = attempt_on nonempty entry
                     (search_method method_name query max_results)).
    { unfold attempt_of. cbn [fst snd]. now rewrite He. }
    rewrite Ha. clear Ha.
    rewrite calls_of_cons, data_of_cons, health_after_cons.
    cbn [search_loop map fst snd]. rewrite He.
    unfold attempt_on, provenance_entry at 1. cbn [fst snd].
    destruct (available entry) eqn:Hav; cbn [negb].
    + destruct (search_method method_name query max_results) as [api_recipes|x]
        eqn:Hcall.
      * destruct api_recipes as [|r rs]; cbn [nonempty is_success is_called].
        -- rewrite IH by assumption.
           cbn [recipes sources_tried self api_health call_log].
           rewrite alter_idle by first [reflexivity | discriminate].
           rewrite <- !app_assoc. reflexivity.
        -- change (record_success now entry)
             with (entry_after now search_record_failure (Data (r :: rs)) entry).
           rewrite (insert_as_alter _ _ _ _ He).
           cbn. now rewrite app_nil_r.
      * cbn [is_success is_called].
        change (search_record_failure entry)
          with (entry_after now search_record_failure
                  (@Failed (list recipe)) entry).
        rewrite (insert_as_alter _ _ _ _ He).
        rewrite IH; [|exact Hnd|now apply providers_present_alter].
        cbn [recipes sources_tried self api_health call_log].
        unfold search_attempts.
        rewrite attempts_alter_other by exact Hfresh.
        rewrite <- !app_assoc. reflexivity.
    + cbn [is_success is_called].
      rewrite IH by assumption.
      cbn [recipes sources_tried self api_health call_log].
      rewrite alter_idle by first [reflexivity | discriminate].
      rewrite <- !app_assoc.
      now destruct st as [? ? []].
Qed.

End SearchLoop.

Lemma named_data_of_cons {A} (pa : string * string * attempt A) l :
  named_data_of (pa :: l)
  = match snd pa with
    | Data x => (fst (fst pa), x) :: named_data_of l
    | _ => named_data_of l
    end.
Proof. unfold named_data_of. cbn. now destruct (snd pa). Qed.

Section NutritionLoop.

Variable nutrition_method : string -> list string -> result nutrition_record.
Variable now : Q.
Variable ingredient_list : list string.

(** The same for the loop of [get_nutrition_with_fallback], in which a
    raised exception only counts the failure. *)
Lemma nutrition_loop_attempts (apis : list (string * string)) :
  forall st : nutrition_state,
  NoDup (map fst apis) ->
  Forall (fun p => is_Some (api_health (n_self st) !! fst p)) apis ->
  let atts := nutrition_attempts nutrition_method ingredient_list apis
                (api_health (n_self st)) in
  nutrition_loop nutrition_method now ingredient_list apis st
  = Ok (mk_nutrition_state
          (nutrition_results st ++ results_dict (named_data_of atts))
          (n_sources_tried st ++ map provenance_entry atts)
          (mk_server
             (health_after now nutrition_record_failure atts
                (api_health (n_self st)))
             (call_log (n_self st) ++ calls_of atts))).
Proof.
  induction apis as [|[api_name method_name] rest IH]; intros st Hnd Hin.
  - cbn. rewrite !app_nil_r. now destruct st as [? ? []].
  - cbn [map] in Hnd. apply NoDup_cons in Hnd as [Hfresh Hnd].
    apply List.Forall_cons_iff in Hin as [[entry He] Hin].
    cbn [fst] in He, Hfresh.
    intros atts. subst atts. unfold nutrition_attempts.
    cbn [map]. rewrite tried_cons. cbn [snd].
    assert (Ha : attempt_of any_values (api_health (n_self st))
                   (fun m => nutrition_method m ingredient_list)
                   (api_name, method_name)
                 = attempt_on any_values entry
                     (nutrition_method method_name ingredient_list)).
    { unfold attempt_of. cbn [fst snd]. now rewrite He. }
    rewrite Ha. clear Ha.
    rewrite calls_of_cons, named_data_of_cons, health_after_cons.
    cbn [nutrition_loop map fst snd]. rewrite He.
    unfold attempt_on, provenance_entry at 1. cbn [fst snd].
    destruct (available entry) eqn:Hav; cbn [negb].
    + destruct (nutrition_method method_name ingredient_list) as [res|x]
        eqn:Hcall.
      * destruct (any_values res) eqn:Hany; cbn [is_success is_called].
        -- change (record_success now entry)
             with (entry_after now nutrition_record_failure (Data res) entry).
           rewrite (insert_as_alter _ _ _ _ He).
           reflexivity.
        -- rewrite IH by assumption.
           cbn [nutrition_results n_sources_tried n_self api_health call_log].
           rewrite alter_idle by first [reflexivity | discriminate].
           rewrite <- !app_assoc. reflexivity.
      * cbn [is_success is_called].
        change (nutrition_record_failure entry)
          with (entry_after now nutrition_record_failure
                  (@Failed nutrition_record) entry).
        rewrite (insert_as_alter _ _ _ _ He).
        rewrite IH; [|exact Hnd|now apply providers_present_alter].
        cbn [nutrition_results n_sources_tried n_self api_health call_log].
        unfold nutrition_attempts.
        rewrite attempts_alter_other by exact Hfresh.
        rewrite <- !app_assoc. reflexivity.
    + cbn [is_success is_called].
      rewrite IH by assumption.
      cbn [nutrition_results n_sources_tried n_self api_health call_log].
      rewrite alter_idle by first [reflexivity | discriminate].
      rewrite <- !app_assoc.
      now destruct st as [? ? []].
Qed.

End NutritionLoop.

(** ** [search_recipes_with_fallback] *)

Lemma api_priority_nodup : NoDup (map fst api_priority).
Proof. apply (bool_decide_unpack _). now vm_compute. Qed.

(** One invocation, from the attempts at the two providers. *)
Lemma search_invocation sm now query max_results diet (srv : server) :
  Forall (fun p => is_Some (api_health srv !! fst p)) api_priority ->
  let atts := search_attempts sm query max_results api_priority
                (api_health srv) in
  search_recipes_with_fallback sm now query max_results diet srv
  = Ok (list_slice_to
          (map (tag_recipe (provenance_of atts))
             (records_of query max_results atts))
          max_results,
        mk_server (health_after now search_record_failure atts (api_health srv))
          (call_log srv ++ calls_of atts)).
Proof.
  intros Hin atts. unfold search_recipes_with_fallback.
  rewrite (search_loop_attempts sm now query max_results api_priority
             (mk_search_state [] [] srv) api_priority_nodup Hin).
  cbn [recipes sources_tried self api_health call_log app].
  fold atts. unfold provenance_of, records_of.
  destruct (concat (data_of atts)) as [|r rs] eqn:E; cbn [nonempty].
  - cbn [recipes sources_tried self]. reflexivity.
  - rewrite app_nil_r. reflexivity.
Qed.

Lemma Forall_list_slice_to {A} (P : A -> Prop) (l : list A) (n : Z) :
  Forall P l -> Forall P (list_slice_to l n).
Proof.
  intros H. unfold list_slice_to.
  destruct (n <? 0); now apply Forall_take.
Qed.

Lemma tagged_records (tried : list string) (l : list recipe) :
  Forall (fun r => _sources_tried r = Some tried
                   /\ _fallback_used r = Some (1 <? Z.of_nat (length tried)))
    (map (tag_recipe tried) l).
Proof. induction l; constructor; auto. Qed.

(** C1: a search invocation gets to the providers in the fixed order
    themealdb, spoonacular; a provider marked unavailable is not called and
    leaves the entry ["<provider>(unavailable)"]; the loop stops at the
    first provider whose call returns a list that is not empty; every
    returned record carries the whole list of attempts as [_sources_tried]
    and [len(sources_tried) > 1] as [_fallback_used]. *)
Theorem search_tries_providers_in_order sm now query max_results diet
    (srv : server) (e1 e2 : health_entry) :
  api_health srv !! "themealdb" = Some e1 ->
  api_health srv !! "spoonacular" = Some e2 ->
  let attempts :=
    tried_until_success
      [ ("themealdb", "search_recipes_themealdb",
         attempt_on nonempty e1
           (sm "search_recipes_themealdb" query max_results));
        ("spoonacular", "search_recipes_spoonacular",
         attempt_on nonempty e2
           (sm "search_recipes_spoonacular" query max_results)) ] in
  let tried := provenance_of attempts in
  exists returned srv',
    search_recipes_with_fallback sm now query max_results diet srv
    = Ok (returned, srv')
    /\ call_log srv' = call_log srv ++ calls_of attempts
    /\ returned
       = list_slice_to
           (map (tag_recipe tried) (records_of query max_results attempts))
           max_results
    /\ Forall (fun r => _sources_tried r = Some tried
                        /\ _fallback_used r
                           = Some (1 <? Z.of_nat (length tried))) returned
    /\ (forall api m, In (api, m, Unavailable) attempts ->
          In (api +:+ "(unavailable)") tried /\ ~ In m (calls_of attempts))
    /\ (forall api m l, In (api, m, Data l) attempts ->
          l <> [] /\ records_of query max_results attempts = l
          /\ exists before, attempts = before ++ [(api, m, Data l)]
               /\ Forall (fun pa => is_success (snd pa) = false) before).
Proof.
  intros H1 H2 attempts tried.
  assert (Hin : Forall (fun p => is_Some (api_health srv !! fst p)) api_priority).
  { repeat constructor; cbn [fst]; eauto. }
  assert (Hatts : search_attempts sm query max_results api_priority
                    (api_health srv) = attempts).
  { unfold search_attempts, api_priority, attempt_of. cbn [map fst snd].
    now rewrite H1, H2. }
  eexists _, _. split.
  { rewrite (search_invocation sm now query max_results diet srv Hin), Hatts.
    reflexivity. }
  cbn [call_log]. split; [reflexivity|]. split; [reflexivity|].
  split; [apply Forall_list_slice_to, tagged_records|].
  subst tried attempts. unfold attempt_on.
  split.
  - intros api m.
    destruct (available e1), (available e2),
      (sm "search_recipes_themealdb" query max_results) as [[|r1 l1]|],
      (sm "search_recipes_spoonacular" query max_results) as [[|r2 l2]|];
      cbn; intros Hi; intuition (try congruence);
      match goal with H : _ = (_, _, Unavailable) |- _ =>
        inversion H; subst; cbn; auto end.
  - intros api m l.
    destruct (available e1), (available e2),
      (sm "search_recipes_themealdb" query max_results) as [[|r1 l1]|],
      (sm "search_recipes_spoonacular" query max_results) as [[|r2 l2]|];
      cbn; intros Hi;
      repeat match type of Hi with _ \/ _ => destruct Hi as [Hi|Hi] end;
      try contradiction; try discriminate;
      inversion Hi; subst; clear Hi;
      (split; [discriminate|]); (split; [now rewrite ?app_nil_r|]);
      first
        [ exists []; split; [reflexivity|constructor]
        | eexists [_]; split; [reflexivity|repeat constructor] ].
Qed.

Lemma search_tries_providers_in_order_witness :
  exists returned srv',
    search_recipes_with_fallback search_themealdb_down 0 "soup" 10 ""
      initial_server
    = Ok (returned, srv')
    /\ call_log srv'
       = ["search_recipes_themealdb"; "search_recipes_spoonacular"].
Proof.
  destruct (search_tries_providers_in_order search_themealdb_down 0 "soup" 10
              "" initial_server (mk_health true 0 0) (mk_health true 0 0)
              eq_refl eq_refl)
    as (returned & srv' & Hret & Hlog & _).
  exists returned, srv'. split; [exact Hret|exact Hlog].
Defined.

(** ** [get_fallback_recipes] and the exhaustion of the providers *)

Lemma list_slice_to_nonempty {A} (l : list A) (n : Z) :
  l <> [] -> 1 <= n -> list_slice_to l n <> [].
Proof.
  intros Hl Hn. unfold list_slice_to.
  destruct (n <? 0) eqn:E; [lia|].
  destruct l as [|x l]; [congruence|].
  destruct (Z.to_nat n) eqn:En; [lia|]. discriminate.
Qed.

Lemma get_fallback_recipes_nonempty (query : string) (max_results : Z) :
  1 <= max_results -> get_fallback_recipes query max_results <> [].
Proof.
  intros Hn. unfold get_fallback_recipes.
  destruct (map snd (List.filter _ fallback_recipes)) as [|r l] eqn:E.
  - discriminate.
  - now apply list_slice_to_nonempty.
Qed.

Lemma get_fallback_recipes_selected (query : string) (max_results : Z) :
  Forall (fun r => exists keyword, selected query (keyword, r))
    (get_fallback_recipes query max_results).
Proof.
  unfold get_fallback_recipes.
  destruct (map snd (List.filter _ fallback_recipes)) as [|r0 l0] eqn:E.
  - apply map_eq_nil in E.
    repeat constructor. exists "chicken". split; [now left|]. right.
    split; [|reflexivity].
    apply List.Forall_forall. intros it Hit.
    destruct (fallback_matches (lower query) it) eqn:Em; [|reflexivity].
    assert (Hf : In it (List.filter (fallback_matches (lower query))
                          fallback_recipes))
      by (apply filter_In; auto).
    rewrite E in Hf. destruct Hf.
  - rewrite <- E. apply Forall_list_slice_to.
    apply List.Forall_forall. intros r Hr.
    apply in_map_iff in Hr as ([kw r'] & <- & Hi).
    apply filter_In in Hi as [Hi Hm].
    exists kw. split; [exact Hi|now left].
Qed.

(** Queries that differ only in the case of their letters select the same
    records. *)
Lemma get_fallback_recipes_case (q q' : string) (max_results : Z) :
  lower q = lower q' ->
  get_fallback_recipes q max_results = get_fallback_recipes q' max_results.
Proof. unfold get_fallback_recipes. now intros ->. Qed.

(** C3, as stated, fails: with both providers raising and a result cap of
    0, the list returned for the query "chicken" is empty. *)
Lemma search_exhaustion_counterexample :
  (forall m q k, exists x, search_all_down m q k = Raise x)
  /\ exists srv',
       search_recipes_with_fallback search_all_down 0 "chicken" 0 ""
         initial_server
       = Ok ([], srv').
Proof.
  split; [intros; now eexists|].
  eexists. vm_compute. reflexivity.
Qed.

(** C3, amended: when each of the two providers is skipped as unavailable
    or raises, and the result cap is at least 1, the search returns (it
    raises nothing) a list that is not empty; every record of it is a
    record of the built-in table, selected by its keyword or one of its
    ingredients occurring in the lower-cased query, or the first record of
    the table when nothing is selected; and every record has
    [_fallback_used] true and a [_sources_tried] that ends in
    ["fallback"]. *)
Theorem search_exhaustion_falls_back sm now query max_results diet
    (srv : server) (e1 e2 : health_entry) :
  api_health srv !! "themealdb" = Some e1 ->
  api_health srv !! "spoonacular" = Some e2 ->
  (available e1 = false
   \/ exists x, sm "search_recipes_themealdb" query max_results = Raise x) ->
  (available e2 = false
   \/ exists x, sm "search_recipes_spoonacular" query max_results = Raise x) ->
  1 <= max_results ->
  exists returned srv',
    search_recipes_with_fallback sm now query max_results diet srv
    = Ok (returned, srv')
    /\ returned <> []
    /\ Forall (fun r =>
         _fallback_used r = Some true
         /\ (exists t, _sources_tried r = Some (t ++ ["fallback"]))
         /\ exists keyword r0 tried,
              selected query (keyword, r0) /\ r = tag_recipe tried r0)
         returned.
Proof.
  intros H1 H2 Hdown1 Hdown2 Hcap.
  assert (Hin : Forall (fun p => is_Some (api_health srv !! fst p)) api_priority).
  { repeat constructor; cbn [fst]; eauto. }
  eexists _, _. split.
  { apply (search_invocation sm now query max_results diet srv Hin). }
  set (atts := search_attempts sm query max_results api_priority (api_health srv)).
  assert (Hatts : exists a1 a2,
             atts = [ ("themealdb", "search_recipes_themealdb", a1);
                      ("spoonacular", "search_recipes_spoonacular", a2) ]
             /\ is_success a1 = false /\ is_success a2 = false).
  { unfold atts, search_attempts, api_priority, attempt_of, attempt_on.
    cbn [map fst snd]. rewrite H1, H2.
    destruct Hdown1 as [->|[x1 ->]], Hdown2 as [->|[x2 ->]];
      try destruct (available e1); try destruct (available e2);
      cbn; eexists _, _; repeat split; reflexivity. }
  destruct Hatts as (a1 & a2 & -> & Hs1 & Hs2).
  assert (Hnone : concat (data_of [ ("themealdb", "search_recipes_themealdb", a1);
                      ("spoonacular", "search_recipes_spoonacular", a2) ]) = []).
  { destruct a1, a2; try discriminate; reflexivity. }
  unfold records_of, provenance_of. rewrite Hnone. cbn [nonempty].
  split.
  { apply list_slice_to_nonempty; [|exact Hcap].
    intros Hm. apply map_eq_nil in Hm.
    now apply (get_fallback_recipes_nonempty query max_results). }
  apply Forall_list_slice_to.
  apply List.Forall_forall. intros r Hr.
  apply in_map_iff in Hr as (r0 & <- & Hr0).
  split; [reflexivity|]. split.
  { cbn [tag_recipe _sources_tried]. eexists. reflexivity. }
  pose proof (get_fallback_recipes_selected query max_results) as Hsel.
  apply (proj1 (List.Forall_forall _ _)) with (x := r0) in Hsel; [|exact Hr0].
  destruct Hsel as [kw Hkw]. eauto.
Qed.

Lemma search_exhaustion_falls_back_witness :
  exists returned srv',
    search_recipes_with_fallback search_all_down 0 "Pasta salad" 2 ""
      initial_server
    = Ok (returned, srv')
    /\ returned <> [].
Proof.
  destruct (search_exhaustion_falls_back search_all_down 0 "Pasta salad" 2 ""
              initial_server (mk_health true 0 0) (mk_health true 0 0)
              eq_refl eq_refl
              (or_intror (ex_intro _ (ProviderError "network error") eq_refl))
              (or_intror (ex_intro _ (ProviderError "network error") eq_refl))
              ltac:(lia))
    as (returned & srv' & Hret & Hne & _).
  exists returned, srv'. split; [exact Hret|exact Hne].
Defined.

(** ** The health entries after an invocation *)

Lemma tried_until_success_subset {A} (l : list (string * string * attempt A))
    (pa : string * string * attempt A) :
  In pa (tried_until_success l) -> In pa l.
Proof.
  induction l as [|x l IH]; [easy|].
  cbn. destruct (is_success (snd x)); cbn; intuition.
Qed.

(** The entry of a provider that no attempt names is left as it is. *)
Lemma health_after_other {A} now f (atts : list (string * string * attempt A))
    (h : gmap string health_entry) (k : string) :
  ~ In k (map (fun pa => fst (fst pa)) atts) ->
  health_after now f atts h !! k = h !! k.
Proof.
  revert h. induction atts as [|pa atts IH]; intros h Hk; [reflexivity|].
  rewrite health_after_cons, IH.
  - apply lookup_alter_ne. intros Heq. apply Hk. now left.
  - intros Hin. apply Hk. now right.
Qed.

(** The entry of a provider of the priority list, after the loop: either
    the loop did not get to it and it is as before, or it is what the
    attempt at this provider makes of it. *)
Lemma health_after_entry {A} (usable : A -> bool) now f
    (outcome : string -> result A) (priority : list (string * string)) :
  forall (h : gmap string health_entry) (api m : string) (e : health_entry),
  NoDup (map fst priority) -> In (api, m) priority -> h !! api = Some e ->
  let atts :=
    tried_until_success
      (map (fun p => (p, attempt_of usable h outcome p)) priority) in
  exists e', health_after now f atts h !! api = Some e'
    /\ (e' = e
        \/ e' = entry_after now f (attempt_on usable e (outcome m)) e).
Proof.
  induction priority as [|[api0 m0] rest IH]; intros h api m e Hnd Hin He atts;
    [destruct Hin|].
  cbn [map] in Hnd. apply NoDup_cons in Hnd as [Hfresh Hnd]. cbn [fst] in Hfresh.
  subst atts. cbn [map]. rewrite tried_cons, health_after_cons. cbn [fst snd].
  destruct Hin as [Heq|Hin].
  - inversion Heq; subst api0 m0. clear Heq.
    rewrite health_after_other.
    + rewrite lookup_alter_eq, He. cbn. eexists. split; [reflexivity|].
      right. unfold attempt_of. cbn [fst snd]. now rewrite He.
    + intros Hk. apply Hfresh, list_elem_of_In.
      destruct (is_success _); [destruct Hk|].
      apply in_map_iff in Hk as (pa & Hpa & Hk).
      apply tried_until_success_subset in Hk.
      apply in_map_iff in Hk as (p & <- & Hp). cbn in Hpa. subst api.
      now apply in_map.
  - assert (Hne : api0 <> api).
    { intros ->. apply Hfresh, list_elem_of_In.
      now apply (in_map fst _ (api, m)). }
    destruct (is_success _).
    + cbn. rewrite lookup_alter_ne by exact Hne. eauto.
    + rewrite <- (attempts_alter_other usable outcome
                    (entry_after now f
                       (attempt_of usable h outcome (api0, m0))) api0 h rest)
        by exact Hfresh.
      apply (IH _ api m e Hnd Hin).
      now rewrite lookup_alter_ne.
Qed.

(** ** [get_nutrition_with_fallback] *)

Lemma nutrition_apis_nodup : NoDup (map fst nutrition_apis).
Proof. apply (bool_decide_unpack _). now vm_compute. Qed.

(** One invocation leaves the server state that the attempts describe. *)
Lemma nutrition_invocation nm now ingredient_list (srv : server) :
  Forall (fun p => is_Some (api_health srv !! fst p)) nutrition_apis ->
  let atts := nutrition_attempts nm ingredient_list nutrition_apis
                (api_health srv) in
  exists out,
    get_nutrition_with_fallback nm now ingredient_list srv
    = Ok (out,
          mk_server
            (health_after now nutrition_record_failure atts (api_health srv))
            (call_log srv ++ calls_of atts)).
Proof.
  intros Hin atts. unfold get_nutrition_with_fallback.
  rewrite (nutrition_loop_attempts nm now ingredient_list nutrition_apis
             (mk_nutrition_state [] [] srv) nutrition_apis_nodup Hin).
  cbn [nutrition_results n_sources_tried n_self api_health call_log app].
  fold atts.
  destruct (negb (any_dict_values _)); eexists; reflexivity.
Qed.

(** What the attempt at a provider does to its entry when the entry is
    not left as it was. *)
Lemma entry_after_changed {A} (usable : A -> bool) now f (e e' : health_entry)
    (outcome : result A) :
  e' = entry_after now f (attempt_on usable e outcome) e -> e' <> e ->
  available e = true
  /\ ((exists x, outcome = Raise x /\ e' = f e)
      \/ (exists d, outcome = Ok d /\ usable d = true
                    /\ e' = record_success now e)).
Proof.
  unfold attempt_on. intros -> Hne.
  destruct (available e); [|now contradiction Hne].
  split; [reflexivity|].
  destruct outcome as [d|x]; [|left; eauto].
  destruct (usable d) eqn:Hu; [right; eauto|now contradiction Hne].
Qed.

Lemma entry_after_no_data {A} (usable : A -> bool) now f (e : health_entry)
    (d : A) :
  usable d = false -> entry_after now f (attempt_on usable e (Ok d)) e = e.
Proof.
  intros Hu. unfold attempt_on. rewrite Hu. now destruct (available e).
Qed.

(** C10: a provider whose call returns without usable data (an empty list
    for the search, a record of zeros for the nutrition lookup) has the
    same health entry after the invocation as before it.  An entry that
    the invocation changes belongs to a provider that was available and
    whose call either raised, which took the failure branch, or returned
    usable data, which took the success branch. *)
Theorem no_usable_data_keeps_health_entry sm nm now query max_results diet
    ingredient_list (srv : server) (api m : string) (e : health_entry) :
  Forall (fun p => is_Some (api_health srv !! fst p))
    (api_priority ++ nutrition_apis) ->
  api_health srv !! api = Some e ->
  (In (api, m) api_priority ->
   exists returned srv' e',
     search_recipes_with_fallback sm now query max_results diet srv
     = Ok (returned, srv')
     /\ api_health srv' !! api = Some e'
     /\ (sm m query max_results = Ok [] -> e' = e)
     /\ (e' <> e ->
         available e = true
         /\ ((exists x, sm m query max_results = Raise x
                        /\ e' = search_record_failure e)
             \/ (exists l, sm m query max_results = Ok l /\ l <> []
                           /\ e' = record_success now e))))
  /\ (In (api, m) nutrition_apis ->
      exists out srv' e',
        get_nutrition_with_fallback nm now ingredient_list srv = Ok (out, srv')
        /\ api_health srv' !! api = Some e'
        /\ (forall r, nm m ingredient_list = Ok r -> any_values r = false ->
                      e' = e)
        /\ (e' <> e ->
            available e = true
            /\ ((exists x, nm m ingredient_list = Raise x
                           /\ e' = nutrition_record_failure e)
                \/ (exists r, nm m ingredient_list = Ok r
                              /\ any_values r = true
                              /\ e' = record_success now e)))).
Proof.
  intros Hall He. apply Forall_app in Hall as [Hs Hn].
  split; intros Hin.
  - destruct (health_after_entry nonempty now search_record_failure
                (fun m => sm m query max_results) api_priority
                (api_health srv) api m e api_priority_nodup Hin He)
      as (e' & He' & Hcases).
    eexists _, _, e'. split; [apply (search_invocation _ _ _ _ _ _ Hs)|].
    cbn [api_health]. split; [exact He'|]. split.
    + intros Hcall. destruct Hcases as [->| ->]; [reflexivity|].
      rewrite Hcall. now apply entry_after_no_data.
    + intros Hne. destruct Hcases as [->|Hc]; [now contradiction Hne|].
      destruct (entry_after_changed _ _ _ _ _ _ Hc Hne)
        as (Hav & [(x & Hx & Hf)|(l & Hl & Hu & Hsucc)]).
      * split; [exact Hav|]. left. eauto.
      * split; [exact Hav|]. right. exists l.
        repeat split; auto. now destruct l.
  - destruct (health_after_entry any_values now nutrition_record_failure
                (fun m => nm m ingredient_list) nutrition_apis
                (api_health srv) api m e nutrition_apis_nodup Hin He)
      as (e' & He' & Hcases).
    destruct (nutrition_invocation nm now ingredient_list srv Hn) as (out & Hout).
    eexists out, _, e'. split; [exact Hout|].
    cbn [api_health]. split; [exact He'|]. split.
    + intros r Hcall Hzero. destruct Hcases as [->| ->]; [reflexivity|].
      rewrite Hcall. now apply entry_after_no_data.
    + intros Hne. destruct Hcases as [->|Hc]; [now contradiction Hne|].
      destruct (entry_after_changed _ _ _ _ _ _ Hc Hne)
        as (Hav & [(x & Hx & Hf)|(r & Hr & Hu & Hsucc)]).
      * split; [exact Hav|]. left. eauto.
      * split; [exact Hav|]. right. eauto.
Qed.

Lemma no_usable_data_keeps_health_entry_witness :
  exists returned srv',
    search_recipes_with_fallback search_no_results 7 "borscht" 5 ""
      initial_server
    = Ok (returned, srv')
    /\ api_health srv' !! "themealdb" = Some (mk_health true 0 0).
Proof.
  assert (Hall : Forall (fun p => is_Some (api_health initial_server !! fst p))
                   (api_priority ++ nutrition_apis))
    by (repeat constructor; eexists; reflexivity).
  destruct (no_usable_data_keeps_health_entry search_no_results
              nutrition_no_data 7 "borscht" 5 "" ["beetroot"] initial_server
              "themealdb" "search_recipes_themealdb" (mk_health true 0 0)
              Hall eq_refl) as [Hsearch _].
  destruct (Hsearch (or_introl eq_refl))
    as (returned & srv' & e' & Hret & He' & Hsame & _).
  exists returned, srv'. split; [exact Hret|].
  rewrite He'. f_equal. apply Hsame. reflexivity.
Defined.

(** ** The providers of the health dictionary *)

Lemma health_after_present {A} now f (atts : list (string * string * attempt A))
    (h : gmap string health_entry) (k : string) :
  is_Some (h !! k) -> is_Some (health_after now f atts h !! k).
Proof.
  revert h. induction atts as [|pa atts IH]; intros h Hk; [exact Hk|].
  rewrite health_after_cons. apply IH.
  destruct Hk as [e He].
  destruct (decide (fst (fst pa) = k)) as [->|Hne].
  - rewrite lookup_alter_eq, He. cbn. eauto.
  - rewrite lookup_alter_ne by exact Hne. eauto.
Qed.

(** The dictionary that [__init__] builds has the four providers, and an
    invocation of either orchestrator returns and keeps them: the two
    methods never meet a missing key. *)
Lemma providers_stay_present sm nm now query max_results diet ingredient_list
    (srv : server) :
  let present (s : server) :=
    Forall (fun p => is_Some (api_health s !! fst p))
      (api_priority ++ nutrition_apis) in
  (forall t, present (mk_server (api_health_init t) []))
  /\ (present srv ->
      (exists returned srv',
         search_recipes_with_fallback sm now query max_results diet srv
         = Ok (returned, srv') /\ present srv')
      /\ (exists out srv',
            get_nutrition_with_fallback nm now ingredient_list srv
            = Ok (out, srv') /\ present srv')).
Proof.
  intros present. split.
  - intros t. repeat constructor; eexists; reflexivity.
  - intros Hall. pose proof Hall as Hboth.
    apply Forall_app in Hboth as [Hs Hn]. split.
    + eexists _, _. split; [apply (search_invocation _ _ _ _ _ _ Hs)|].
      unfold present. cbn [api_health].
      eapply List.Forall_impl; [|exact Hall].
      intros p Hp. now apply health_after_present.
    + destruct (nutrition_invocation nm now ingredient_list srv Hn)
        as (out & Hout).
      eexists out, _. split; [exact Hout|].
      unfold present. cbn [api_health].
      eapply List.Forall_impl; [|exact Hall].
      intros p Hp. now apply health_after_present.
Qed.

(** ** The failure counter and the availability flag *)

(** The entry of a provider that is marked unavailable is the same after
    the loop, whether the provider is on the priority list or not. *)
Lemma health_after_unavailable {A} (usable : A -> bool) now f
    (outcome : string -> result A) (priority : list (string * string))
    (h : gmap string health_entry) (api : string) (e : health_entry) :
  NoDup (map fst priority) -> h !! api = Some e -> available e = false ->
  health_after now f
    (tried_until_success
       (map (fun p => (p, attempt_of usable h outcome p)) priority)) h !! api
  = Some e.
Proof.
  intros Hnd He Hav.
  destruct (in_dec string_dec api (map fst priority)) as [Hin|Hout].
  - apply in_map_iff in Hin as ([api' m] & Heq & Hin). cbn in Heq. subst api'.
    destruct (health_after_entry usable now f outcome priority h api m e
                Hnd Hin He) as (e' & He' & [->| ->]); [exact He'|].
    rewrite He'. unfold attempt_on. now rewrite Hav.
  - rewrite health_after_other; [exact He|].
    intros Hin. apply Hout.
    apply in_map_iff in Hin as (pa & <- & Hpa).
    apply tried_until_success_subset in Hpa.
    apply in_map_iff in Hpa as (p & <- & Hp). now apply in_map.
Qed.

(** No invocation, of the search or of the nutrition lookup, changes the
    entry of a provider that is marked unavailable: once the flag is
    false it stays false. *)
Lemma unavailable_provider_stays_unavailable sm nm now query max_results diet
    ingredient_list (srv : server) (api : string) (e : health_entry) :
  Forall (fun p => is_Some (api_health srv !! fst p))
    (api_priority ++ nutrition_apis) ->
  api_health srv !! api = Some e -> available e = false ->
  (exists returned srv',
     search_recipes_with_fallback sm now query max_results diet srv
     = Ok (returned, srv')
     /\ api_health srv' !! api = Some e)
  /\ (exists out srv',
        get_nutrition_with_fallback nm now ingredient_list srv = Ok (out, srv')
        /\ api_health srv' !! api = Some e).
Proof.
  intros Hall He Hav. apply Forall_app in Hall as [Hs Hn]. split.
  - eexists _, _. split; [apply (search_invocation _ _ _ _ _ _ Hs)|].
    cbn [api_health].
    now apply health_after_unavailable; [apply api_priority_nodup| |].
  - destruct (nutrition_invocation nm now ingredient_list srv Hn) as (out & Hout).
    eexists out, _. split; [exact Hout|]. cbn [api_health].
    now apply health_after_unavailable; [apply nutrition_apis_nodup| |].
Qed.

(** The third failure in a row of a search provider marks it
    unavailable. *)
Lemma search_third_failure_marks_unavailable (e : health_entry) :
  2 <= failures e -> available (search_record_failure e) = false.
Proof.
  intros H. unfold search_record_failure. cbn.
  destruct (3 <=? failures e + 1) eqn:E; [reflexivity|lia].
Qed.

(** One nutrition invocation in which both providers are called and
    raise: each failure counter goes up by one and both providers stay
    available, whatever the counters are. *)
Lemma nutrition_invocation_all_down now ingredient_list (srv : server)
    (t1 t2 : Q) (k : Z) :
  api_health srv !! "usda" = Some (mk_health true t1 k) ->
  api_health srv !! "fatsecret" = Some (mk_health true t2 k) ->
  exists out srv',
    get_nutrition_with_fallback nutrition_all_down now ingredient_list srv
    = Ok (out, srv')
    /\ api_health srv' !! "usda" = Some (mk_health true t1 (k + 1))
    /\ api_health srv' !! "fatsecret" = Some (mk_health true t2 (k + 1)).
Proof.
  intros H1 H2.
  assert (Hin : Forall (fun p => is_Some (api_health srv !! fst p))
                  nutrition_apis)
    by (repeat constructor; cbn [fst]; eauto).
  destruct (nutrition_invocation nutrition_all_down now ingredient_list srv Hin)
    as (out & Hout).
  eexists out, _. split; [exact Hout|].
  unfold nutrition_attempts, nutrition_apis, attempt_of, attempt_on.
  cbn [map fst snd]. rewrite H1, H2. cbn [api_health available nutrition_all_down].
  cbn [tried_until_success is_success snd health_after fold_left fst entry_after].
  split.
  - rewrite lookup_alter_ne by discriminate.
    now rewrite lookup_alter_eq, H1.
  - rewrite lookup_alter_eq, lookup_alter_ne by discriminate.
    now rewrite H2.
Qed.

Lemma nutrition_invocations_all_down now ingredient_list (n : nat) :
  forall (srv : server) (t1 t2 : Q) (k : Z),
  api_health srv !! "usda" = Some (mk_health true t1 k) ->
  api_health srv !! "fatsecret" = Some (mk_health true t2 k) ->
  exists srv',
    nutrition_invocations nutrition_all_down now ingredient_list n srv = Ok srv'
    /\ api_health srv' !! "usda" = Some (mk_health true t1 (k + Z.of_nat n))
    /\ api_health srv' !! "fatsecret"
       = Some (mk_health true t2 (k + Z.of_nat n)).
Proof.
  induction n as [|n IH]; intros srv t1 t2 k H1 H2.
  - exists srv. rewrite Z.add_0_r. auto.
  - destruct (nutrition_invocation_all_down now ingredient_list srv t1 t2 k H1 H2)
      as (out & srv1 & Hcall & G1 & G2).
    destruct (IH srv1 t1 t2 (k + 1) G1 G2) as (srv' & Hrun & F1 & F2).
    exists srv'. cbn [nutrition_invocations]. rewrite Hcall.
    split; [exact Hrun|].
    replace (k + Z.of_nat (S n)) with (k + 1 + Z.of_nat n) by lia. auto.
Qed.

(** C2, the defect: however many times in a row the calls of the nutrition
    providers raise, the providers stay available, with the failure count
    at the number of invocations; three failing search invocations do mark
    TheMealDB unavailable. *)
Theorem nutrition_failures_never_mark_unavailable (n : nat) now
    (ingredient_list : list string) :
  (exists srv',
     nutrition_invocations nutrition_all_down now ingredient_list n
       initial_server = Ok srv'
     /\ api_health srv' !! "usda" = Some (mk_health true 0 (Z.of_nat n))
     /\ api_health srv' !! "fatsecret" = Some (mk_health true 0 (Z.of_nat n)))
  /\ (exists srv',
        search_invocations search_all_down now "soup" 10 3 initial_server
        = Ok srv'
        /\ api_health srv' !! "themealdb" = Some (mk_health false 0 3)
        /\ api_health srv' !! "spoonacular" = Some (mk_health false 0 3)).
Proof.
  split.
  - apply (nutrition_invocations_all_down now ingredient_list n initial_server
             0%Q 0%Q 0); reflexivity.
  - eexists. split; [reflexivity|]. split; reflexivity.
Qed.

(** C6, the defect: the third failure in a row of a nutrition provider
    takes the count to 3 and leaves the provider available, where the
    third failure of a search provider makes it unavailable.  A success
    sets the count to 0 and the time of the last success, and does not
    write the availability flag; it is recorded only for a provider that
    the loop found available. *)
Theorem nutrition_failure_keeps_available now (ingredient_list : list string)
    (e : health_entry) :
  (exists out srv',
     get_nutrition_with_fallback nutrition_all_down now ingredient_list
       server_two_failures = Ok (out, srv')
     /\ api_health srv' !! "usda" = Some (mk_health true 0 3))
  /\ (exists returned srv',
        search_recipes_with_fallback search_all_down now "soup" 10 ""
          server_two_failures = Ok (returned, srv')
        /\ api_health srv' !! "themealdb" = Some (mk_health false 0 3))
  /\ record_success now e = mk_health (available e) now 0
  /\ search_record_failure e
     = mk_health (if 3 <=? failures e + 1 then false else available e)
         (last_success e) (failures e + 1)
  /\ nutrition_record_failure e
     = mk_health (available e) (last_success e) (failures e + 1).
Proof.
  split; [|split; [|split; [|split]]].
  - destruct (nutrition_invocation_all_down now ingredient_list
                server_two_failures 0 0 2 eq_refl eq_refl)
      as (out & srv' & Hcall & H1 & _).
    eauto.
  - eexists _, _. split; reflexivity.
  - reflexivity.
  - unfold search_record_failure. cbn. now destruct (3 <=? failures e + 1).
  - reflexivity.
Qed.

(** * Further properties of the code *)

(** ** [chat_stream]: the chunks of a reply *)

Lemma substring_nil (i m : nat) : substring i m "" = "".
Proof. destruct i, m; reflexivity. Qed.

Lemma substring_zero (i : nat) (s : string) : substring i 0 s = "".
Proof.
  revert i. induction s as [|c s IH]; intros [|i]; try reflexivity. apply IH.
Qed.

Lemma substring_split (s : string) :
  forall i a b : nat,
  substring i (a + b) s = substring i a s +:+ substring (i + a) b s.
Proof.
  induction s as [|c s IH]; intros i a b.
  - now rewrite !substring_nil.
  - destruct i as [|i].
    + destruct a as [|a]; [reflexivity|].
      cbn [substring Nat.add]. rewrite (IH 0%nat a b). reflexivity.
    + cbn. apply IH.
Qed.

Lemma substring_length (s : string) :
  forall i m : nat,
  String.length (substring i m s) = Nat.min m (String.length s - i).
Proof.
  induction s as [|c s IH]; intros i m.
  - rewrite substring_nil. cbn. now rewrite Nat.min_0_r.
  - destruct i as [|i].
    + destruct m as [|m]; [reflexivity|].
      cbn. rewrite (IH 0%nat). now rewrite Nat.sub_0_r.
    + cbn. apply IH.
Qed.

(** A slice that reaches the end of the string is the rest of it. *)
Lemma substring_to_end (s : string) :
  forall i m : nat,
  (String.length s <= i + m)%nat ->
  substring i m s = substring i (String.length s - i) s.
Proof.
  induction s as [|c s IH]; intros i m H.
  - now rewrite !substring_nil.
  - destruct i as [|i].
    + destruct m as [|m]; [cbn in H; lia|].
      cbn in *. f_equal. rewrite (IH 0%nat m) by lia.
      now rewrite Nat.sub_0_r.
    + cbn in *. apply IH. lia.
Qed.

Lemma substring_whole (s : string) : substring 0 (String.length s) s = s.
Proof. induction s as [|c s IH]; cbn; [reflexivity|now rewrite IH]. Qed.

Lemma append_empty_r (s : string) : s +:+ "" = s.
Proof.
  induction s as [|c s IH]; [reflexivity|].
  change (String c (s +:+ "") = String c s). now f_equal.
Qed.

Lemma concat_cons (x : string) (l : list string) :
  String.concat "" (x :: l) = x +:+ String.concat "" l.
Proof.
  destruct l; simpl; [symmetry; apply append_empty_r|reflexivity].
Qed.

Lemma range_from_bound (fuel start stop step : nat) :
  Forall (fun i => (start <= i < stop)%nat) (range_from fuel start stop step).
Proof.
  revert start. induction fuel as [|fuel IH]; intros start; cbn [range_from];
    [constructor|].
  destruct (start <? stop)%nat eqn:E; [|constructor].
  apply Nat.ltb_lt in E. constructor; [lia|].
  eapply List.Forall_impl; [|apply IH]. cbn. intros i Hi. lia.
Qed.

(** The slices taken from [start] on make up the rest of the string. *)
Lemma chunks_from (size : nat) (s : string) :
  (0 < size)%nat ->
  forall fuel start : nat,
  (String.length s - start <= fuel)%nat ->
  String.concat ""
    (map (fun i => substring i size s)
       (range_from fuel start (String.length s) size))
  = substring start (String.length s - start) s.
Proof.
  intros Hsize. induction fuel as [|fuel IH]; intros start Hfuel.
  - cbn. replace (String.length s - start)%nat with 0%nat by lia.
    now rewrite substring_zero.
  - cbn [range_from]. destruct (start <? String.length s)%nat eqn:E.
    + apply Nat.ltb_lt in E. cbn [map].
      rewrite concat_cons, IH by lia.
      destruct (le_lt_dec (start + size) (String.length s)) as [Hle|Hgt].
      * replace (String.length s - start)%nat
          with (size + (String.length s - (start + size)))%nat by lia.
        now rewrite substring_split.
      * replace (String.length s - (start + size))%nat with 0%nat by lia.
        rewrite substring_zero, (substring_to_end s start size) by lia.
        apply append_empty_r.
    + apply Nat.ltb_ge in E.
      replace (String.length s - start)%nat with 0%nat by lia.
      now rewrite substring_zero.
Qed.

Lemma range_from_length (size stop : nat) :
  (0 < size)%nat ->
  forall fuel start : nat,
  (stop - start <= fuel)%nat ->
  length (range_from fuel start stop size)
  = ((stop - start + size - 1) / size)%nat.
Proof.
  intros Hsize. induction fuel as [|fuel IH]; intros start Hfuel.
  - cbn. replace (stop - start)%nat with 0%nat by lia.
    symmetry. apply Nat.div_small. lia.
  - cbn [range_from]. destruct (start <? stop)%nat eqn:E.
    + apply Nat.ltb_lt in E. cbn [length]. rewrite IH by lia.
      replace (stop - start + size - 1)%nat
        with ((stop - start - 1) + 1 * size)%nat by lia.
      rewrite Nat.div_add by lia.
      destruct (le_lt_dec size (stop - start)) as [Hle|Hgt].
      * replace (stop - (start + size) + size - 1)%nat
          with (stop - start - 1)%nat by lia. lia.
      * rewrite (Nat.div_small (stop - start - 1)) by lia.
        rewrite Nat.div_small by lia. lia.
    + apply Nat.ltb_ge in E.
      replace (stop - start)%nat with 0%nat by lia.
      symmetry. apply Nat.div_small. lia.
Qed.

(** The chunks of a reply, joined, are the reply: nothing is lost,
    repeated or reordered. *)
Theorem stream_chunks_rebuild_reply (reply : string) :
  String.concat "" (reply_chunks chunk_size reply) = reply
  /\ generate_stream (inl reply)
     = map data_event (reply_chunks chunk_size reply) ++ [end_event].
Proof.
  split; [|reflexivity].
  unfold reply_chunks, py_range.
  rewrite chunks_from; [|unfold chunk_size; lia|lia].
  rewrite Nat.sub_0_r. apply substring_whole.
Qed.

Lemma range_from_nth (size stop : nat) :
  forall (fuel start k i : nat),
  nth_error (range_from fuel start stop size) k = Some i ->
  i = (start + k * size)%nat.
Proof.
  induction fuel as [|fuel IH]; intros start k i; cbn [range_from].
  - now destruct k.
  - destruct (start <? stop)%nat; [|now destruct k].
    destruct k as [|k]; cbn [nth_error].
    + intros [= <-]. lia.
    + intros H. apply IH in H. lia.
Qed.

(** Every chunk has between 1 and 200 characters, every chunk but the last
    has 200, and a reply of [n] characters gives [ceil(n / 200)] chunks:
    none for an empty reply. *)
Theorem stream_chunk_sizes (reply : string) :
  Forall (fun chunk => (1 <= String.length chunk <= 200)%nat)
    (reply_chunks chunk_size reply)
  /\ length (reply_chunks chunk_size reply)
     = ((String.length reply + 199) / 200)%nat
  /\ (forall k chunk,
        nth_error (reply_chunks chunk_size reply) k = Some chunk ->
        (S k < length (reply_chunks chunk_size reply))%nat ->
        String.length chunk = 200%nat).
Proof.
  unfold reply_chunks, py_range.
  set (n := String.length reply).
  pose proof (range_from_bound n 0 n chunk_size) as Hb.
  split; [|split].
  - apply List.Forall_forall. intros chunk Hin.
    apply in_map_iff in Hin as (i & <- & Hi).
    apply (proj1 (List.Forall_forall _ _) Hb) in Hi.
    rewrite substring_length. fold n. unfold chunk_size. lia.
  - rewrite length_map, range_from_length by (unfold chunk_size; lia).
    unfold chunk_size. f_equal. lia.
  - intros k chunk Hk Hlast.
    rewrite length_map in Hlast.
    rewrite nth_error_map in Hk.
    destruct (nth_error (range_from n 0 n chunk_size) k) as [i|] eqn:Ei;
      [|discriminate].
    injection Hk as <-.
    destruct (nth_error (range_from n 0 n chunk_size) (S k)) as [j|] eqn:Ej.
    + apply range_from_nth in Ei. pose proof Ej as Hj.
      apply range_from_nth in Hj. apply nth_error_In in Ej.
      apply (proj1 (List.Forall_forall _ _) Hb) in Ej.
      rewrite substring_length. fold n. unfold chunk_size in *. lia.
    + apply nth_error_None in Ej. lia.
Qed.




(** ** [_should_search]: the routing *)

Lemma str_in_unfold (w s : string) :
  str_in w s
  = String.prefix w s
    || match s with EmptyString => false | String _ s' => str_in w s' end.
Proof. now destruct s. Qed.

Lemma prefix_split (w s : string) :
  String.prefix w s = true <-> exists t, s = w +:+ t.
Proof.
  revert s. induction w as [|c w IH]; intros s.
  - split; [intros _; now exists s|intros _; now destruct s].
  - destruct s as [|d s]; cbn [String.prefix].
    + split; [discriminate|intros [t Ht]; discriminate].
    + destruct (Ascii.ascii_dec c d) as [->|Hne].
      * rewrite IH. split; intros [t Ht]; exists t.
        -- now rewrite Ht.
        -- now injection Ht.
      * split; [discriminate|intros [t Ht]]. injection Ht as ? ?. congruence.
Qed.

(** The test [w in s] holds exactly when [s] is some text, then [w], then
    some text. *)
Lemma str_in_split (w s : string) :
  str_in w s = true <-> exists before after, s = before +:+ w +:+ after.
Proof.
  split.
  - induction s as [|c s IH]; rewrite str_in_unfold, orb_true_iff.
    + intros [H|H]; [|discriminate].
      apply prefix_split in H as [t Ht]. now exists "", t.
    + intros [H|H].
      * apply prefix_split in H as [t Ht]. now exists "", t.
      * destruct (IH H) as (b & a & ->). now exists (String c b), a.
  - intros (b & a & ->). induction b as [|c b IH].
    + rewrite str_in_unfold, orb_true_iff. left.
      apply prefix_split. now exists a.
    + rewrite str_in_unfold, orb_true_iff. right. exact IH.
Qed.

Lemma lower_app (a b : string) : lower (a +:+ b) = lower a +:+ lower b.
Proof.
  induction a as [|c a IH]; [reflexivity|].
  change (String (lower_char c) (lower (a +:+ b))
          = String (lower_char c) (lower a +:+ lower b)).
  now f_equal.
Qed.

Lemma append_assoc (a b c : string) : (a +:+ b) +:+ c = a +:+ b +:+ c.
Proof.
  induction a as [|x a IH]; [reflexivity|].
  change (String x ((a +:+ b) +:+ c) = String x (a +:+ b +:+ c)). now f_equal.
Qed.

Lemma any_in_split (words : list string) (s : string) :
  any_in words s = true
  <-> exists w before after, In w words /\ s = before +:+ w +:+ after.
Proof.
  unfold any_in. rewrite existsb_exists. split.
  - intros (w & Hw & Hin). apply str_in_split in Hin as (b & a & ->). eauto.
  - intros (w & b & a & Hw & ->). exists w. split; [exact Hw|].
    apply str_in_split. eauto.
Qed.

(** The route is "search" exactly when the lower-cased query contains one
    of the trigger words as a run of consecutive characters, anywhere (in
    the middle of a word as well); the stored route, the stored flag and
    [_router] agree, whatever the state held before; an absent query
    routes to "generate". *)
Theorem should_search_contains_trigger (st : graph_state) :
  let st' := _should_search st in
  (state_needs_search st' = true
   <-> exists w before after,
         In w trigger_words
         /\ lower (default "" (state_query st)) = before +:+ w +:+ after)
  /\ _router st' = state_route_taken st'
  /\ (state_route_taken st' = "search" <-> state_needs_search st' = true)
  /\ state_query st' = state_query st
  /\ (state_query st = None -> state_route_taken st' = "generate").
Proof.
  unfold _should_search, _router.
  cbn [state_needs_search state_route_taken state_query].
  split; [apply any_in_split|]. split; [reflexivity|]. split.
  - destruct (any_in trigger_words _); split; congruence.
  - split; [reflexivity|]. now intros ->.
Qed.

(** Text added before or after a query that routes to "search", and a
    change of the case of its letters, leave the route at "search". *)
Theorem should_search_monotone (q q' before after : string) (b b' : bool)
    (r r' : string) :
  state_needs_search (_should_search (mk_graph_state (Some q) b r)) = true ->
  lower q' = lower q ->
  _router (_should_search
             (mk_graph_state (Some (before +:+ q' +:+ after)) b' r'))
  = "search".
Proof.
  unfold _should_search, _router.
  cbn [state_needs_search state_route_taken state_query from_option id].
  intros H Hcase.
  apply any_in_split in H as (w & x & y & Hw & Hq).
  assert (Hany : any_in trigger_words (lower (before +:+ q' +:+ after)) = true).
  { apply any_in_split. exists w, (lower before +:+ x), (y +:+ lower after).
    split; [exact Hw|].
    rewrite !lower_app, Hcase, Hq, !append_assoc. reflexivity. }
  now rewrite Hany.
Qed.

Lemma should_search_monotone_witness :
  _router (_should_search
             (mk_graph_state (Some ("Any " +:+ "NEW" +:+ "S on kale?"))
                false ""))
  = "search".
Proof.
  apply (should_search_monotone "new" "NEW" "Any " "S on kale?" false false
           "" ""); reflexivity.
Defined.

Lemma should_search_contains_trigger_witness :
  state_route_taken (_should_search (mk_graph_state None true "search"))
  = "generate".
Proof.
  destruct (should_search_contains_trigger (mk_graph_state None true "search"))
    as (_ & _ & _ & _ & H).
  apply H. reflexivity.
Defined.

(** ** [_generate]: the length of the answer *)

Lemma response_text_content (resp : llm_response) (text : string) :
  content resp = Some text -> text <> "" -> response_text resp = text.
Proof.
  unfold response_text. intros -> Hne. destruct text; [contradiction|reflexivity].
Qed.

Lemma response_text_printed (resp : llm_response) :
  content resp = None \/ content resp = Some "" ->
  response_text resp = printed resp.
Proof. unfold response_text. now intros [-> | ->]. Qed.

Lemma output_guard_fits (max_chars : Z) (answer : string) :
  len answer <= max_chars -> output_guard max_chars answer = answer.
Proof.
  intros H. unfold output_guard.
  destruct (max_chars <? len answer) eqn:E; [lia|reflexivity].
Qed.

Lemma output_guard_length (max_chars : Z) (answer : string) :
  0 <= max_chars -> len (output_guard max_chars answer) <= max_chars + 14.
Proof.
  intros Hb. unfold output_guard.
  destruct (max_chars <? len answer) eqn:E; [|lia].
  unfold str_slice_to. destruct (max_chars <? 0) eqn:E0; [lia|].
  unfold len in *. rewrite append_length.
  pose proof (rstrip_length (substring 0 (Z.to_nat max_chars) answer)) as H.
  rewrite substring_0_length in H.
  change (String.length trimmed_suffix) with 14%nat. lia.
Qed.

(** With a budget that is not negative, no answer has more than [budget]
    characters before the 14 of the suffix, whatever the response.  The
    text that is stripped and cut is the [content] of the response when it
    is a string that is not empty, and the printed response object when
    the content is absent or empty; a text that fits the budget once
    stripped is returned stripped and without the suffix. *)
Theorem generate_length_bound (env : option Z) (resp : llm_response) :
  0 <= max_chars_of_env env ->
  let answer := _generate env (response_text resp) in
  len answer <= max_chars_of_env env + 14
  /\ (forall text,
        content resp = Some text -> text <> "" ->
        len (strip text) <= max_chars_of_env env -> answer = strip text)
  /\ (content resp = None \/ content resp = Some "" ->
      len (strip (printed resp)) <= max_chars_of_env env ->
      answer = strip (printed resp)).
Proof.
  intros Hb. cbv zeta. unfold _generate. cbv zeta. split; [|split].
  - now apply output_guard_length.
  - intros text Hc Hne Hfit. rewrite (response_text_content resp text Hc Hne).
    now apply output_guard_fits.
  - intros Hc Hfit. rewrite (response_text_printed resp Hc).
    now apply output_guard_fits.
Qed.

Lemma generate_length_bound_witness :
  _generate None (response_text empty_reply) = printed empty_reply.
Proof.
  apply (generate_length_bound None empty_reply).
  - vm_compute. discriminate.
  - right. reflexivity.
  - vm_compute. discriminate.
Defined.

(** With a negative budget every answer is cut, a short one as well: it
    is a prefix of the stripped text that leaves out at least its last
    [-budget] characters, followed by the suffix.  The text is the
    [content] of the response when it is a string that is not empty, and
    the printed response object otherwise. *)
Theorem generate_negative_budget (env : option Z) (resp : llm_response) :
  max_chars_of_env env < 0 ->
  exists text kept,
    _generate env (response_text resp) = kept +:+ trimmed_suffix
    /\ String.prefix kept (strip text) = true
    /\ len kept <= Z.max 0 (len (strip text) + max_chars_of_env env)
    /\ match content resp with
       | Some t => text = if String.eqb t "" then printed resp else t
       | None => text = printed resp
       end.
Proof.
  intros Hb. exists (response_text resp).
  unfold _generate, output_guard. cbv zeta.
  set (text := response_text resp).
  assert (E : (max_chars_of_env env <? len (strip text)) = true)
    by (apply Z.ltb_lt; unfold len; lia).
  rewrite E. unfold str_slice_to.
  assert (E0 : (max_chars_of_env env <? 0) = true) by (now apply Z.ltb_lt).
  rewrite E0.
  eexists. split; [reflexivity|]. split; [|split].
  - eapply prefix_trans; [apply rstrip_prefix|apply substring_0_prefix].
  - pose proof (rstrip_length
                  (substring 0
                     (Z.to_nat (len (strip text) + max_chars_of_env env))
                     (strip text))) as H.
    rewrite substring_0_length in H. unfold len in *. lia.
  - unfold text, response_text. destruct (content resp) as [[|c s]|]; reflexivity.
Qed.

Lemma generate_negative_budget_witness :
  exists text kept,
    _generate (Some (-3)) (response_text empty_reply)
    = kept +:+ trimmed_suffix
    /\ String.prefix kept (strip text) = true
    /\ len kept <= Z.max 0 (len (strip text) + max_chars_of_env (Some (-3)))
    /\ text = printed empty_reply.
Proof.
  apply (generate_negative_budget (Some (-3)) empty_reply). reflexivity.
Defined.

(** ** [merge_nutrition_data] on arbitrary dictionaries *)

Lemma merge_item_entries (reported : string * pyval -> Prop)
    (m : gmap string Q) (item : string * pyval) :
  merged_entries reported m -> reported item ->
  merged_entries reported (merge_item m item).
Proof.
  intros Hm Hitem. destruct item as [k [value| |]]; unfold merge_item;
    cbn [fst snd]; try exact Hm.
  destruct (Qgt_bool value (default 0%Q (m !! k))) eqn:E; [|exact Hm].
  apply Qgt_bool_true in E.
  intros k' v'. destruct (decide (k = k')) as [<-|Hne].
  - rewrite lookup_insert_eq. intros [= <-]. right. split; [|exact Hitem].
    destruct (m !! k) as [old|] eqn:Eold; cbn in E; [|exact E].
    destruct (Hm k old Eold) as [[-> _]|[Hpos _]]; lra.
  - rewrite lookup_insert_ne by exact Hne. apply Hm.
Qed.

Lemma merge_items_entries (reported : string * pyval -> Prop)
    (data : list (string * pyval)) :
  forall m : gmap string Q,
  merged_entries reported m -> Forall reported data ->
  merged_entries reported (fold_left merge_item data m).
Proof.
  induction data as [|item data IH]; intros m Hm Hdata; [exact Hm|].
  apply List.Forall_cons_iff in Hdata as [Hitem Hdata].
  cbn [fold_left]. apply IH; [|exact Hdata]. now apply merge_item_entries.
Qed.

Lemma merge_item_present (m : gmap string Q) (item : string * pyval) (k : string) :
  is_Some (m !! k) -> is_Some (merge_item m item !! k).
Proof.
  intros Hk. destruct item as [k' [value| |]]; unfold merge_item;
    cbn [fst snd]; try exact Hk.
  destruct (Qgt_bool _ _); [|exact Hk].
  destruct (decide (k' = k)) as [->|Hne].
  - rewrite lookup_insert_eq. eauto.
  - now rewrite lookup_insert_ne.
Qed.

Lemma merge_items_present (data : list (string * pyval)) (k : string) :
  forall m : gmap string Q,
  is_Some (m !! k) -> is_Some (fold_left merge_item data m !! k).
Proof.
  induction data as [|item data IH]; intros m Hk; [exact Hk|].
  cbn [fold_left]. apply IH. now apply merge_item_present.
Qed.

Lemma merge_nutrition_data_fold
    (nutrition_results : list (string * list (string * pyval))) :
  merge_nutrition_data nutrition_results
  = fold_left (fun merged sd => fold_left merge_item (snd sd) merged)
      nutrition_results zero_dict.
Proof. now destruct nutrition_results. Qed.

Lemma merge_fold_entries (reported : string * pyval -> Prop)
    (l : list (string * list (string * pyval))) :
  forall m : gmap string Q,
  merged_entries reported m ->
  (forall sd, In sd l -> Forall reported (snd sd)) ->
  merged_entries reported
    (fold_left (fun merged sd => fold_left merge_item (snd sd) merged) l m).
Proof.
  induction l as [|sd l IH]; intros m Hm Hsub; [exact Hm|].
  cbn [fold_left]. apply IH.
  - apply merge_items_entries; [exact Hm|]. apply Hsub. now left.
  - intros sd' Hsd'. apply Hsub. now right.
Qed.

Lemma merge_fold_present (l : list (string * list (string * pyval)))
    (k : string) :
  forall m : gmap string Q,
  is_Some (m !! k) ->
  is_Some (fold_left (fun merged sd => fold_left merge_item (snd sd) merged)
             l m !! k).
Proof.
  induction l as [|sd l IH]; intros m Hk; [exact Hk|].
  cbn [fold_left]. apply IH. now apply merge_items_present.
Qed.

Lemma zero_dict_entries (reported : string * pyval -> Prop) :
  merged_entries reported zero_dict.
Proof.
  intros k v Hk. left.
  assert (Hin : In (k, v) (record_items zero_record))
    by apply list_elem_of_In, (elem_of_list_to_map_2 _ _ _ Hk).
  cbn in Hin.
  repeat (destruct Hin as [Hin|Hin];
          [injection Hin as <- <-; split; [reflexivity|cbn; tauto]|]).
  destruct Hin.
Qed.

(** Whatever the providers' dictionaries hold (any keys; numbers of any
    sign, text, lists), the merged dictionary has the five nutrient keys
    and no negative number; each of its entries is an initial zero or a
    positive number that some provider reported under that key. *)
Theorem merge_never_negative
    (nutrition_results : list (string * list (string * pyval))) :
  let merged := merge_nutrition_data nutrition_results in
  (forall k, In k ["calories"; "protein"; "carbs"; "fat"; "fiber"] ->
             is_Some (merged !! k))
  /\ (forall k v, merged !! k = Some v -> (0 <= v)%Q)
  /\ (forall k v, merged !! k = Some v -> ~ (v == 0)%Q ->
        (0 < v)%Q
        /\ exists source data,
             In (source, data) nutrition_results /\ In (k, VNum v) data).
Proof.
  set (reported := fun item : string * pyval =>
         exists source data,
           In (source, data) nutrition_results /\ In item data).
  cbv zeta. rewrite merge_nutrition_data_fold.
  assert (Hent : merged_entries reported
                   (fold_left (fun merged sd =>
                                 fold_left merge_item (snd sd) merged)
                      nutrition_results zero_dict)).
  { apply merge_fold_entries; [apply zero_dict_entries|].
    intros [source data] Hsd. apply List.Forall_forall. intros item Hitem.
    now exists source, data. }
  split; [|split].
  - intros k Hk. apply merge_fold_present. cbn in Hk.
    repeat (destruct Hk as [<-|Hk]; [eexists; reflexivity|]). destruct Hk.
  - intros k v Hk. destruct (Hent k v Hk) as [[-> _]|[Hpos _]]; lra.
  - intros k v Hk Hnz. destruct (Hent k v Hk) as [[-> _]|[Hpos Hrep]].
    + now contradiction Hnz.
    + split; [exact Hpos|exact Hrep].
Qed.

Lemma merge_never_negative_witness :
  merge_nutrition_data
    [("usda", [("calories", VNum (-40)); ("sodium", VNum 3);
               ("note", VStr "per 100 g")])] !! "calories"
  = Some 0%Q
  /\ (0 <= 0)%Q.
Proof.
  split; [reflexivity|].
  exact (proj1 (proj2 (merge_never_negative
                         [("usda", [("calories", VNum (-40));
                                    ("sodium", VNum 3);
                                    ("note", VStr "per 100 g")])]))
           "calories" 0%Q eq_refl).
Defined.

Lemma max_positive_perm (l l' : list Q) :
  Permutation l l' -> (max_positive l == max_positive l')%Q.
Proof.
  induction 1 as [|x l l' Hp IH|x y l|l l' l'' _ IH1 _ IH2].
  - reflexivity.
  - rewrite !max_positive_cons.
    destruct (Qgt_bool x 0); [|exact IH].
    q_max_cases; lra.
  - rewrite !max_positive_cons.
    destruct (Qgt_bool x 0), (Qgt_bool y 0); try reflexivity.
    q_max_cases; lra.
  - now rewrite IH1.
Qed.

(** The order in which the providers' records are merged does not matter:
    two orders of the same records give equal numbers for every
    nutrient. *)
Theorem merge_order_independent
    (results results' : list (string * nutrition_record)) :
  Permutation results results' ->
  exists m m',
    merge_nutrition_data (results_dict results) = dict_of_record m
    /\ merge_nutrition_data (results_dict results') = dict_of_record m'
    /\ record_equiv m m'.
Proof.
  intros Hp. eexists _, _.
  split; [apply merge_nutrition_data_record|].
  split; [apply merge_nutrition_data_record|].
  eapply record_equiv_trans; [apply merged_record_is_max|].
  assert (Hsym : forall a b, record_equiv a b -> record_equiv b a).
  { unfold record_equiv. intros a b (H1 & H2 & H3 & H4 & H5).
    repeat split; now symmetry. }
  eapply record_equiv_trans; [|apply Hsym, merged_record_is_max].
  unfold record_equiv, max_record. cbn [calories protein carbs fat fiber].
  repeat split; apply max_positive_perm, Permutation_map, Permutation_map, Hp.
Qed.

Lemma merge_order_independent_witness :
  exists m m',
    merge_nutrition_data
      (results_dict [("usda", mk_nutrition_record 120 4 0 0 1);
                     ("fatsecret", mk_nutrition_record 90 6 0 2 0)])
    = dict_of_record m
    /\ merge_nutrition_data
         (results_dict [("fatsecret", mk_nutrition_record 90 6 0 2 0);
                        ("usda", mk_nutrition_record 120 4 0 0 1)])
       = dict_of_record m'
    /\ record_equiv m m'.
Proof.
  apply merge_order_independent. apply perm_swap.
Defined.

(** ** [estimate_nutrition]: bounds and sums *)

Lemma record_equiv_sym (a b : nutrition_record) :
  record_equiv a b -> record_equiv b a.
Proof.
  unfold record_equiv. intros (H1 & H2 & H3 & H4 & H5).
  repeat split; now symmetry.
Qed.

Lemma estimate_by_priority_app (order : list bucket) (l1 l2 : list string) :
  record_equiv (estimate_by_priority order (l1 ++ l2))
    (record_add (estimate_by_priority order l1)
       (estimate_by_priority order l2)).
Proof.
  induction l1 as [|i l1 IH]; cbn [app estimate_by_priority].
  - unfold record_equiv. cbn. repeat split; lra.
  - unfold record_equiv in *. destruct IH as (H1 & H2 & H3 & H4 & H5).
    cbn [record_add calories protein carbs fat fiber] in *.
    repeat split; lra.
Qed.

Lemma estimate_as_sum (l : list string) :
  record_equiv (estimate_nutrition l) (estimate_by_priority source_priority l).
Proof.
  unfold estimate_nutrition.
  eapply record_equiv_trans;
    [apply (estimate_fold_equiv _ _ zero_record), record_equiv_refl|].
  unfold record_equiv. cbn. repeat split; lra.
Qed.

Lemma estimate_app_equiv (l1 l2 : list string) :
  record_equiv (estimate_nutrition (l1 ++ l2))
    (record_add (estimate_nutrition l1) (estimate_nutrition l2)).
Proof.
  eapply record_equiv_trans; [apply estimate_as_sum|].
  eapply record_equiv_trans; [apply estimate_by_priority_app|].
  pose proof (estimate_as_sum l1) as (A1 & A2 & A3 & A4 & A5).
  pose proof (estimate_as_sum l2) as (B1 & B2 & B3 & B4 & B5).
  unfold record_equiv. cbn [record_add calories protein carbs fat fiber].
  repeat split; lra.
Qed.

(** The estimate of two lists put together is the sum of their estimates,
    nutrient by nutrient: each ingredient counts by itself, whatever comes
    before or after it. *)
Theorem estimate_nutrition_app (l1 l2 : list string) :
  record_equiv (estimate_nutrition (l1 ++ l2))
    (record_add (estimate_nutrition l1) (estimate_nutrition l2)).
Proof. exact (estimate_app_equiv l1 l2). Qed.

Lemma bucket_contribution_bounds (b : option bucket) :
  let c := bucket_contribution b in
  (25 <= calories c <= 150 /\ 0 <= protein c <= 15 /\ 0 <= carbs c <= 30
   /\ 0 <= fat c <= 12 /\ 0 <= fiber c <= 8)%Q.
Proof. destruct b as [[| | | |]|]; cbn; repeat split; lra. Qed.

Lemma estimate_by_priority_bounds (order : list bucket) (l : list string) :
  let e := estimate_by_priority order l in
  let n := inject_Z (Z.of_nat (length l)) in
  (25 * n <= calories e <= 150 * n /\ 0 <= protein e <= 15 * n
   /\ 0 <= carbs e <= 30 * n /\ 0 <= fat e <= 12 * n
   /\ 0 <= fiber e <= 8 * n)%Q.
Proof.
  induction l as [|i l IH].
  - cbv zeta.
    cbn [estimate_by_priority length zero_record calories protein carbs fat
         fiber].
    change (inject_Z (Z.of_nat 0)) with 0%Q. repeat split; lra.
  - cbv zeta in *. cbn [estimate_by_priority length].
    rewrite Nat2Z.inj_succ, <- Z.add_1_r, inject_Z_plus.
    pose proof (bucket_contribution_bounds (first_bucket order i)) as Hb.
    cbv zeta in Hb. cbn [record_add calories protein carbs fat fiber].
    change (inject_Z 1) with 1%Q. lra.
Qed.

(** For [n] ingredients the estimate has between [25 n] and [150 n] kcal,
    and no nutrient is negative: protein is at most [15 n] g,
    carbohydrates [30 n], fat [12 n], fibre [8 n].  One ingredient more
    adds at least 25 kcal. *)
Theorem estimate_nutrition_bounds (l : list string) (extra : string) :
  let e := estimate_nutrition l in
  let n := inject_Z (Z.of_nat (length l)) in
  (25 * n <= calories e <= 150 * n /\ 0 <= protein e <= 15 * n
   /\ 0 <= carbs e <= 30 * n /\ 0 <= fat e <= 12 * n
   /\ 0 <= fiber e <= 8 * n
   /\ calories e + 25 <= calories (estimate_nutrition (l ++ [extra])))%Q.
Proof.
  cbv zeta.
  pose proof (estimate_as_sum l) as (A1 & A2 & A3 & A4 & A5).
  pose proof (estimate_by_priority_bounds source_priority l) as Hb.
  cbv zeta in Hb.
  pose proof (estimate_app_equiv l [extra]) as (C1 & _).
  pose proof (estimate_as_sum [extra]) as (D1 & _).
  pose proof (bucket_contribution_bounds
                (first_bucket source_priority extra)) as Hx.
  cbv zeta in Hx.
  cbn [estimate_by_priority record_add calories protein carbs fat fiber
       zero_record] in *.
  repeat split; lra.
Qed.

(** ** [get_nutrition_with_fallback]: where the numbers come from *)

Lemma any_dict_values_record (r : nutrition_record) :
  any_dict_values (dict_of_record r) = any_values r.
Proof.
  unfold any_dict_values, any_values.
  change (map_to_list (dict_of_record r))
    with [("carbs", carbs r); ("calories", calories r); ("fiber", fiber r);
          ("fat", fat r); ("protein", protein r)].
  cbn [existsb map snd py_items record_items fst].
  destruct (truthy (VNum (calories r))), (truthy (VNum (protein r))),
    (truthy (VNum (carbs r))), (truthy (VNum (fat r))),
    (truthy (VNum (fiber r))); reflexivity.
Qed.

(** The loop stops at the first usable record: it gathers at most one. *)
Lemma named_data_single {A} (l : list (string * string * attempt A)) :
  named_data_of (tried_until_success l) = []
  \/ exists api m x,
       In (api, m, Data x) l
       /\ named_data_of (tried_until_success l) = [(api, x)].
Proof.
  induction l as [|[[api m] a] l IH]; [now left|].
  rewrite tried_cons, named_data_of_cons. cbn [fst snd].
  destruct a as [| | |x]; cbn [is_success].
  1-3: destruct IH as [IH|(api' & m' & x & Hin & IH)];
       [now left|right; exists api', m', x; split; [now right|exact IH]].
  right. exists api, m, x. split; [now left|reflexivity].
Qed.

Lemma attempt_of_data {A} (usable : A -> bool) (h : gmap string health_entry)
    (outcome : string -> result A) (p : string * string) (x : A) :
  attempt_of usable h outcome p = Data x ->
  outcome (snd p) = Ok x /\ usable x = true.
Proof.
  unfold attempt_of, attempt_on.
  destruct (h !! fst p) as [e|]; [|discriminate].
  destruct (available e); [|discriminate].
  destruct (outcome (snd p)) as [y|]; [|discriminate].
  destruct (usable y) eqn:E; [|discriminate].
  now intros [= <-].
Qed.

(** One invocation, with the dictionary it returns. *)
Lemma nutrition_invocation_out nm now ingredient_list (srv : server) :
  Forall (fun p => is_Some (api_health srv !! fst p)) nutrition_apis ->
  let atts := nutrition_attempts nm ingredient_list nutrition_apis
                (api_health srv) in
  let merged :=
    fold_left record_keep_greater (map snd (named_data_of atts)) zero_record in
  get_nutrition_with_fallback nm now ingredient_list srv
  = Ok (if any_values merged
        then mk_nutrition_out (dict_of_record merged)
               (map provenance_entry atts) "$0"
        else mk_nutrition_out
               (dict_of_record (estimate_nutrition ingredient_list))
               (map provenance_entry atts ++ ["estimated"]) "$0",
        mk_server
          (health_after now nutrition_record_failure atts (api_health srv))
          (call_log srv ++ calls_of atts)).
Proof.
  intros Hin atts merged. unfold get_nutrition_with_fallback.
  rewrite (nutrition_loop_attempts nm now ingredient_list nutrition_apis
             (mk_nutrition_state [] [] srv) nutrition_apis_nodup Hin).
  cbn [nutrition_results n_sources_tried n_self api_health call_log app].
  fold atts. rewrite merge_nutrition_data_record, any_dict_values_record.
  fold merged. now destruct (any_values merged).
Qed.

(** The numbers returned are those of one provider, the first available
    one whose call returned a record with a value that is not zero, with
    its values that are not positive replaced by zero; or, when there is no
    such provider or its record has no positive value, the keyword
    estimate, and then the list of sources ends with "estimated". *)
Theorem nutrition_values_origin nm now ingredient_list (srv : server) :
  Forall (fun p => is_Some (api_health srv !! fst p)) nutrition_apis ->
  let atts := nutrition_attempts nm ingredient_list nutrition_apis
                (api_health srv) in
  exists out srv',
    get_nutrition_with_fallback nm now ingredient_list srv = Ok (out, srv')
    /\ ((exists api m r,
           In (api, m) nutrition_apis
           /\ nm m ingredient_list = Ok r /\ any_values r = true
           /\ any_values (positive_part r) = true
           /\ values out = dict_of_record (positive_part r)
           /\ nutrition_sources_tried out = map provenance_entry atts)
        \/ (values out = dict_of_record (estimate_nutrition ingredient_list)
            /\ nutrition_sources_tried out
               = map provenance_entry atts ++ ["estimated"])).
Proof.
  intros Hin atts. eexists _, _.
  split; [apply (nutrition_invocation_out nm now ingredient_list srv Hin)|].
  subst atts. unfold nutrition_attempts.
  destruct (named_data_single
              (map (fun p => (p, attempt_of any_values (api_health srv)
                                   (fun m => nm m ingredient_list) p))
                 nutrition_apis))
    as [Hnone|(api & m & r & Hr & Hone)].
  - rewrite Hnone. cbn [map fold_left]. right.
    change (any_values zero_record) with false. cbn. split; reflexivity.
  - rewrite Hone. cbn [map fold_left snd].
    fold (positive_part r).
    destruct (any_values (positive_part r)) eqn:Epos.
    + left. exists api, m, r.
      apply in_map_iff in Hr as ([api' m'] & Heq & Hp).
      injection Heq as -> -> Ha.
      apply attempt_of_data in Ha as [Hcall Huse]. cbn [snd] in Hcall.
      repeat split; auto.
    + right. split; reflexivity.
Qed.

Lemma nutrition_values_origin_witness :
  exists out srv',
    get_nutrition_with_fallback nutrition_usda_negative 9 ["tofu"]
      initial_server = Ok (out, srv')
    /\ values out !! "calories" = Some 0%Q
    /\ values out !! "protein" = Some 12%Q.
Proof.
  assert (Hin : Forall (fun p => is_Some (api_health initial_server !! fst p))
                  nutrition_apis)
    by (repeat constructor; eexists; reflexivity).
  destruct (nutrition_values_origin nutrition_usda_negative 9 ["tofu"]
              initial_server Hin) as (out & srv' & Hget & _).
  exists out, srv'. split; [exact Hget|].
  vm_compute in Hget. injection Hget as <- _. split; reflexivity.
Defined.

Lemma any_values_nonzero (r : nutrition_record) :
  any_values r = true ->
  exists k v, dict_of_record r !! k = Some v /\ ~ (v == 0)%Q.
Proof.
  unfold any_values. cbn [existsb map snd py_items record_items fst truthy].
  rewrite !orb_true_iff, !negb_true_iff.
  intros [H|[H|[H|[H|[H|H]]]]]; try discriminate.
  1: exists "calories", (calories r).
  2: exists "protein", (protein r).
  3: exists "carbs", (carbs r).
  4: exists "fat", (fat r).
  5: exists "fiber", (fiber r).
  all: split; [reflexivity|]; intros Hz; apply Qeq_bool_iff in Hz; congruence.
Qed.

(** With at least one ingredient the returned dictionary is never all
    zeros: either a provider gave a positive value, or the estimate counts
    at least 25 kcal for each ingredient. *)
Theorem nutrition_never_all_zero nm now ingredient_list (srv : server) :
  Forall (fun p => is_Some (api_health srv !! fst p)) nutrition_apis ->
  ingredient_list <> [] ->
  exists out srv',
    get_nutrition_with_fallback nm now ingredient_list srv = Ok (out, srv')
    /\ exists k v, values out !! k = Some v /\ ~ (v == 0)%Q.
Proof.
  intros Hin Hne. eexists _, _.
  split; [apply (nutrition_invocation_out nm now ingredient_list srv Hin)|].
  cbv zeta.
  destruct (any_values (fold_left record_keep_greater _ zero_record)) eqn:E;
    cbn [values].
  - now apply any_values_nonzero.
  - exists "calories", (calories (estimate_nutrition ingredient_list)).
    split; [reflexivity|].
    pose proof (estimate_as_sum ingredient_list) as (A1 & _).
    pose proof (estimate_by_priority_bounds source_priority ingredient_list)
      as (Hb & _).
    destruct ingredient_list as [|i l]; [congruence|].
    cbn [length] in Hb. rewrite Nat2Z.inj_succ, <- Z.add_1_r, inject_Z_plus in Hb.
    change (inject_Z 1) with 1%Q in Hb.
    assert (0 <= inject_Z (Z.of_nat (length l)))%Q.
    { change 0%Q with (inject_Z 0). rewrite <- Zle_Qle. lia. }
    lra.
Qed.

Lemma nutrition_never_all_zero_witness :
  exists out srv',
    get_nutrition_with_fallback nutrition_all_down 9 ["tofu"] initial_server
    = Ok (out, srv')
    /\ exists k v, values out !! k = Some v /\ ~ (v == 0)%Q.
Proof.
  apply nutrition_never_all_zero.
  - repeat constructor; eexists; reflexivity.
  - discriminate.
Defined.

(** ** [search_recipes_with_fallback]: the cap and the breaker *)

Lemma list_slice_to_length {A} (l : list A) (n : Z) :
  0 <= n -> Z.of_nat (length (list_slice_to l n)) <= n.
Proof.
  intros Hn. unfold list_slice_to. destruct (n <? 0) eqn:E; [lia|].
  rewrite length_firstn. lia.
Qed.

Lemma list_slice_to_negative {A} (l : list A) (n : Z) :
  n < 0 ->
  Z.of_nat (length (list_slice_to l n)) = Z.max 0 (Z.of_nat (length l) + n).
Proof.
  intros Hn. unfold list_slice_to.
  assert (E : (n <? 0) = true) by now apply Z.ltb_lt. rewrite E.
  rewrite length_firstn. lia.
Qed.

Lemma list_slice_to_count {A} (l : list A) (n : Z) :
  0 <= n ->
  Z.of_nat (length (list_slice_to l n)) = Z.min n (Z.of_nat (length l)).
Proof.
  intros Hn. unfold list_slice_to. destruct (n <? 0) eqn:E; [lia|].
  rewrite length_firstn. lia.
Qed.

Lemma list_slice_to_map {A B} (f : A -> B) (l : list A) (n : Z) :
  list_slice_to (map f l) n = map f (list_slice_to l n).
Proof.
  unfold list_slice_to. rewrite length_map.
  destruct (n <? 0); apply firstn_map.
Qed.

(** The records that a search returns are the Python slice
    [[:max_results]] of the records it gathered, tagged: the gathered
    records ([records_of]) are the whole list of the first provider that
    gave one, or the built-in records when none did.  So a search returns
    [min(max_results, n)] of [n] gathered records when the cap is not
    negative, and with a negative cap it drops that many records from the
    end of the list. *)
Theorem search_respects_cap sm now query max_results diet (srv : server) :
  Forall (fun p => is_Some (api_health srv !! fst p)) api_priority ->
  let atts := search_attempts sm query max_results api_priority
                (api_health srv) in
  let found := records_of query max_results atts in
  exists returned srv',
    search_recipes_with_fallback sm now query max_results diet srv
    = Ok (returned, srv')
    /\ returned
       = map (tag_recipe (provenance_of atts))
           (list_slice_to found max_results)
    /\ (0 <= max_results ->
        Z.of_nat (length returned)
        = Z.min max_results (Z.of_nat (length found)))
    /\ (max_results < 0 ->
        Z.of_nat (length returned)
        = Z.max 0 (Z.of_nat (length found) + max_results)).
Proof.
  intros Hin atts found. eexists _, _.
  split; [apply (search_invocation sm now query max_results diet srv Hin)|].
  fold atts. fold found. rewrite list_slice_to_map, !length_map.
  split; [reflexivity|]. split; [apply list_slice_to_count|].
  apply list_slice_to_negative.
Qed.

Lemma search_respects_cap_witness :
  exists returned srv',
    search_recipes_with_fallback search_three_results 0 "noodles" (-1) ""
      initial_server
    = Ok (returned, srv')
    /\ map title returned = ["Dal"; "Pho"].
Proof.
  destruct (search_respects_cap search_three_results 0 "noodles" (-1) ""
              initial_server) as (returned & srv' & Hrun & Hret & _ & Hneg);
    [repeat constructor; eexists; reflexivity|].
  exists returned, srv'. split; [exact Hrun|].
  rewrite Hret. reflexivity.
Defined.

(** One search invocation on a server whose two search providers have
    failed [k] times in a row and keep raising. *)
Lemma search_invocation_all_down now query max_results (srv : server) (k : nat) :
  api_health srv !! "themealdb"
  = Some (mk_health (k <? 3)%nat 0 (Z.of_nat (Nat.min k 3))) ->
  api_health srv !! "spoonacular"
  = Some (mk_health (k <? 3)%nat 0 (Z.of_nat (Nat.min k 3))) ->
  exists returned srv',
    search_recipes_with_fallback search_all_down now query max_results ""
      srv = Ok (returned, srv')
    /\ api_health srv' !! "themealdb"
       = Some (mk_health (S k <? 3)%nat 0 (Z.of_nat (Nat.min (S k) 3)))
    /\ api_health srv' !! "spoonacular"
       = Some (mk_health (S k <? 3)%nat 0 (Z.of_nat (Nat.min (S k) 3)))
    /\ call_log srv'
       = call_log srv
         ++ (if (k <? 3)%nat
             then ["search_recipes_themealdb"; "search_recipes_spoonacular"]
             else []).
Proof.
  intros H1 H2.
  assert (Hin : Forall (fun p => is_Some (api_health srv !! fst p)) api_priority)
    by (repeat constructor; cbn [fst]; eauto).
  eexists _, _.
  split; [apply (search_invocation search_all_down now query max_results ""
                   srv Hin)|].
  unfold search_attempts, api_priority, attempt_of, attempt_on.
  cbn [map fst snd]. rewrite H1, H2. cbn [api_health call_log available].
  destruct (k <? 3)%nat eqn:Ek.
  - apply Nat.ltb_lt in Ek.
    cbn [search_all_down tried_until_success is_success snd health_after
         fold_left fst entry_after calls_of List.filter is_called map].
    repeat split.
    + rewrite lookup_alter_ne by discriminate.
      rewrite lookup_alter_eq, H1. cbn [fmap option_fmap option_map].
      destruct k as [|[|[|k]]]; try lia; reflexivity.
    + rewrite lookup_alter_eq, lookup_alter_ne by discriminate.
      rewrite H2. cbn [fmap option_fmap option_map].
      destruct k as [|[|[|k]]]; try lia; reflexivity.
  - apply Nat.ltb_ge in Ek.
    cbn [tried_until_success is_success snd health_after
         fold_left fst entry_after calls_of List.filter is_called map].
    assert (E3 : (S k <? 3)%nat = false) by (apply Nat.ltb_ge; lia).
    rewrite E3.
    replace (Nat.min (S k) 3) with 3%nat by lia.
    replace (Nat.min k 3) with 3%nat in * by lia.
    repeat split.
    + rewrite lookup_alter_ne by discriminate.
      now rewrite lookup_alter_eq, H1.
    + rewrite lookup_alter_eq, lookup_alter_ne by discriminate.
      now rewrite H2.
Qed.

Lemma search_invocations_all_down now query max_results (n : nat) :
  forall (srv : server) (k : nat),
  api_health srv !! "themealdb"
  = Some (mk_health (k <? 3)%nat 0 (Z.of_nat (Nat.min k 3))) ->
  api_health srv !! "spoonacular"
  = Some (mk_health (k <? 3)%nat 0 (Z.of_nat (Nat.min k 3))) ->
  call_log srv
  = concat (repeat ["search_recipes_themealdb"; "search_recipes_spoonacular"]
              (Nat.min k 3)) ->
  exists srv',
    search_invocations search_all_down now query max_results n srv = Ok srv'
    /\ api_health srv' !! "themealdb"
       = Some (mk_health (k + n <? 3)%nat 0 (Z.of_nat (Nat.min (k + n) 3)))
    /\ api_health srv' !! "spoonacular"
       = Some (mk_health (k + n <? 3)%nat 0 (Z.of_nat (Nat.min (k + n) 3)))
    /\ call_log srv'
       = concat (repeat ["search_recipes_themealdb";
                         "search_recipes_spoonacular"] (Nat.min (k + n) 3)).
Proof.
  induction n as [|n IH]; intros srv k H1 H2 Hlog.
  - exists srv. rewrite Nat.add_0_r. auto.
  - destruct (search_invocation_all_down now query max_results srv k H1 H2)
      as (returned & srv1 & Hcall & G1 & G2 & Glog).
    assert (Hlog1 : call_log srv1
                    = concat (repeat ["search_recipes_themealdb";
                                      "search_recipes_spoonacular"]
                                (Nat.min (S k) 3))).
    { rewrite Glog, Hlog. destruct k as [|[|[|k]]]; try reflexivity.
      replace (Nat.min (S (S (S (S k)))) 3) with 3%nat by lia.
      replace (Nat.min (S (S (S k))) 3) with 3%nat by lia.
      now rewrite app_nil_r. }
    destruct (IH srv1 (S k) G1 G2 Hlog1) as (srv' & Hrun & F1 & F2 & Flog).
    exists srv'. cbn [search_invocations]. rewrite Hcall.
    replace (k + S n)%nat with (S k + n)%nat by lia. auto.
Qed.

(** The circuit breaker of the search: over [n] searches in a row during
    which both providers raise whenever they are called, each provider is
    called in the first three searches only; its failure count stops at 3
    and it is unavailable from the third search on. *)
Theorem search_breaker_stops_calls now query max_results (n : nat) :
  exists srv',
    search_invocations search_all_down now query max_results n initial_server
    = Ok srv'
    /\ api_health srv' !! "themealdb"
       = Some (mk_health (n <? 3)%nat 0 (Z.of_nat (Nat.min n 3)))
    /\ api_health srv' !! "spoonacular"
       = Some (mk_health (n <? 3)%nat 0 (Z.of_nat (Nat.min n 3)))
    /\ call_log srv'
       = concat (repeat ["search_recipes_themealdb";
                         "search_recipes_spoonacular"] (Nat.min n 3)).
Proof.
  apply (search_invocations_all_down now query max_results n initial_server 0);
    reflexivity.
Qed.

Lemma unavailable_provider_stays_unavailable_witness :
  exists returned srv',
    search_recipes_with_fallback search_no_results 4 "stew" 5 ""
      server_spoonacular_off = Ok (returned, srv')
    /\ api_health srv' !! "spoonacular" = Some (mk_health false 0 3).
Proof.
  assert (Hall : Forall (fun p => is_Some (api_health server_spoonacular_off
                                             !! fst p))
                   (api_priority ++ nutrition_apis))
    by (repeat constructor; eexists; reflexivity).
  exact (proj1 (unavailable_provider_stays_unavailable search_no_results
                  nutrition_no_data 4 "stew" 5 "" ["beef"]
                  server_spoonacular_off "spoonacular" (mk_health false 0 3)
                  Hall eq_refl eq_refl)).
Defined.

Lemma providers_stay_present_witness :
  exists returned srv',
    search_recipes_with_fallback search_all_down 4 "stew" 5 "" initial_server
    = Ok (returned, srv')
    /\ Forall (fun p => is_Some (api_health srv' !! fst p))
         (api_priority ++ nutrition_apis).
Proof.
  destruct (providers_stay_present search_all_down nutrition_all_down 4 "stew"
              5 "" ["beef"] initial_server) as [Hinit Hstep].
  exact (proj1 (Hstep (Hinit (fun _ => 0%Q)))).
Defined.

(** ** [analyze_nutrition]: when it raises and when it calls providers *)

Lemma analyze_nutrient_nonzero (s : Q) (a : analysis) (n : nutrient) :
  ~ (s == 0)%Q -> exists a', analyze_nutrient s a n = Ok a'.
Proof.
  intros Hs. unfold analyze_nutrient, py_div.
  destruct (Qeq_bool s 0) eqn:E; [apply Qeq_bool_iff in E; contradiction|].
  repeat match goal with |- context [if ?b then _ else _] => destruct b end;
    eauto.
Qed.

Lemma analyze_nutrients_nonzero (s : Q) (l : list nutrient) :
  ~ (s == 0)%Q -> forall a, exists a', analyze_nutrients s l a = Ok a'.
Proof.
  intros Hs. induction l as [|n l IH]; intros a; cbn [analyze_nutrients]; eauto.
  destruct (analyze_nutrient_nonzero s a n Hs) as [a1 ->]. apply IH.
Qed.

Lemma analyze_nutrient_other (s : Q) (a : analysis) (n : nutrient) :
  names_macro n = false -> analyze_nutrient s a n = Ok a.
Proof.
  unfold names_macro, analyze_nutrient. rewrite !orb_false_iff.
  now intros [[[-> ->] ->] ->].
Qed.

Lemma analyze_nutrient_zero (a : analysis) (n : nutrient) (s : Q) :
  (s == 0)%Q -> names_macro n = true ->
  analyze_nutrient s a n = Raise ZeroDivisionError.
Proof.
  intros Hs. apply Qeq_bool_iff in Hs.
  unfold names_macro, analyze_nutrient, py_div. rewrite Hs.
  destruct (str_in "Calories" (name n)); [reflexivity|].
  destruct (str_in "Protein" (name n)); [reflexivity|].
  destruct (str_in "Carbohydrates" (name n)); [reflexivity|].
  destruct (str_in "Fat" (name n)); [reflexivity|discriminate].
Qed.

Lemma analyze_nutrients_zero (s : Q) (l : list nutrient) :
  (s == 0)%Q -> forall a,
  analyze_nutrients s l a
  = if existsb names_macro l then Raise ZeroDivisionError else Ok a.
Proof.
  intros Hs. induction l as [|n l IH]; intros a; [reflexivity|].
  cbn [analyze_nutrients existsb].
  destruct (names_macro n) eqn:E.
  - now rewrite analyze_nutrient_zero.
  - rewrite analyze_nutrient_other by exact E. apply IH.
Qed.

(** The rest of the method, once the loop over the embedded list has
    returned, raises nothing. *)
Lemma analyze_after_loop nm now (recipe_data : recipe) (s : Q) (a : analysis)
    (srv : server) :
  Forall (fun p => is_Some (api_health srv !! fst p)) nutrition_apis ->
  exists a' srv',
    (if Qeq_bool (calories_per_serving a) 0
     then estimate_per_serving nm now recipe_data s a srv
     else Ok (a, srv)) = Ok (a', srv')
    /\ (ingredients recipe_data = [] \/ ~ (calories_per_serving a == 0)%Q ->
        srv' = srv).
Proof.
  intros Hin. destruct (Qeq_bool (calories_per_serving a) 0) eqn:E.
  - unfold estimate_per_serving.
    destruct (ingredients recipe_data) as [|i l] eqn:Ei.
    + eexists _, _. split; [reflexivity|auto].
    + rewrite <- Ei.
      destruct (nutrition_invocation nm now (ingredients recipe_data) srv Hin)
        as (out & ->).
      rewrite !per_serving_ok. eexists _, _. split; [reflexivity|].
      intros [H|H]; [congruence|].
      apply Qeq_bool_iff in E. contradiction.
  - eexists _, _. split; [reflexivity|auto].
Qed.

Lemma nutrition_loop_raises nm now il (apis : list (string * string)) :
  forall st e, nutrition_loop nm now il apis st = Raise e ->
  exists k, e = KeyError k.
Proof.
  induction apis as [|[api m] rest IH]; intros st e; cbn [nutrition_loop].
  - discriminate.
  - destruct (api_health (n_self st) !! api) as [entry|].
    + destruct (negb (available entry)); [apply IH|].
      destruct (nm m il) as [res|x]; [|apply IH].
      destruct (any_values res); [discriminate|apply IH].
    + intros H. injection H as <-. eauto.
Qed.

Lemma estimate_per_serving_raises nm now (recipe_data : recipe) (s : Q)
    (a : analysis) (srv : server) (e : exn) :
  estimate_per_serving nm now recipe_data s a srv = Raise e ->
  exists k, e = KeyError k.
Proof.
  unfold estimate_per_serving.
  destruct (ingredients recipe_data); [discriminate|].
  unfold get_nutrition_with_fallback.
  destruct (nutrition_loop _ _ _ _ _) as [st|x] eqn:E.
  - cbv zeta. destruct (negb _); rewrite !per_serving_ok; discriminate.
  - intros H. injection H as <-. eapply nutrition_loop_raises, E.
Qed.

(** A division by zero happens in one case only: [servings] is zero and
    the embedded [nutrients] list has an entry whose name contains
    "Calories", "Protein", "Carbohydrates" or "Fat".  Of the divisions of
    the method only [amount / servings] of lines 504-510 can have a zero
    divisor: the estimate divides by [max(servings, 1)] and the
    percentages are computed under the test [calories > 0].  This holds
    for a recipe whose [servings] and amounts are numbers, whatever the
    providers do and whatever the health dictionary holds. *)
Theorem analyze_nutrition_raises_iff nm now (recipe_data : recipe)
    (srv : server) :
  let servings := default 1%Q (servings recipe_data) in
  let embedded := default [] (nutrients (nutrition recipe_data)) in
  analyze_nutrition nm now recipe_data srv = Raise ZeroDivisionError
  <-> (servings == 0)%Q /\ existsb names_macro embedded = true.
Proof.
  intros servings embedded. unfold analyze_nutrition. fold servings embedded.
  split.
  - intros Hrun.
    destruct (Qeq_bool servings 0) eqn:E.
    + apply Qeq_bool_iff in E. split; [exact E|].
      rewrite analyze_nutrients_zero in Hrun by exact E.
      destruct (existsb names_macro embedded); [reflexivity|].
      destruct (Qeq_bool (calories_per_serving analysis_init) 0);
        [|discriminate].
      destruct (estimate_per_serving _ _ _ _ _ _) as [[a' srv']|x] eqn:Ee;
        [discriminate|].
      apply estimate_per_serving_raises in Ee as [k ->]. discriminate.
    + exfalso.
      assert (Hs : ~ (servings == 0)%Q)
        by (intros Hs; apply Qeq_bool_iff in Hs; congruence).
      destruct (analyze_nutrients_nonzero servings embedded Hs analysis_init)
        as [a Ha].
      rewrite Ha in Hrun.
      destruct (Qeq_bool (calories_per_serving a) 0); [|discriminate].
      destruct (estimate_per_serving _ _ _ _ _ _) as [[a' srv']|x] eqn:Ee;
        [discriminate|].
      apply estimate_per_serving_raises in Ee as [k ->]. discriminate.
  - intros [Hs Hm]. now rewrite analyze_nutrients_zero, Hm.
Qed.

Lemma analyze_nutrition_raises_iff_witness :
  analyze_nutrition nutrition_all_down 3 recipe_zero_servings initial_server
  = Raise ZeroDivisionError.
Proof.
  apply (analyze_nutrition_raises_iff nutrition_all_down 3
           recipe_zero_servings initial_server).
  split; reflexivity.
Defined.

(** The providers are called, and the server state changes, only for a
    recipe that has ingredients and whose embedded list gave no calories:
    with an empty ingredient list, or with calories from the embedded
    list, a returning analysis leaves the server as it was. *)
Theorem analyze_nutrition_keeps_server nm now (recipe_data : recipe)
    (srv srv' : server) (a : analysis) :
  Forall (fun p => is_Some (api_health srv !! fst p)) nutrition_apis ->
  analyze_nutrition nm now recipe_data srv = Ok (a, srv') ->
  ingredients recipe_data = []
  \/ (exists a0,
        analyze_nutrients (default 1%Q (servings recipe_data))
          (default [] (nutrients (nutrition recipe_data))) analysis_init
        = Ok a0
        /\ ~ (calories_per_serving a0 == 0)%Q) ->
  srv' = srv.
Proof.
  intros Hin Hrun Hcase. unfold analyze_nutrition in Hrun.
  destruct (analyze_nutrients _ _ analysis_init) as [a0|] eqn:E0;
    [|discriminate].
  destruct (analyze_after_loop nm now recipe_data
              (default 1%Q (servings recipe_data)) a0 srv Hin)
    as (a1 & srv1 & Hafter & Hsame).
  rewrite Hafter in Hrun. injection Hrun as _ <-.
  apply Hsame. destruct Hcase as [H|(a0' & Ha0 & Hnz)]; [now left|right].
  now injection Ha0 as <-.
Qed.

Lemma analyze_nutrition_keeps_server_witness :
  exists a srv',
    analyze_nutrition nutrition_all_down 3
      (fallback_recipe "Mystery Cake" [] "Dessert" 15 0 [] [])
      initial_server = Ok (a, srv')
    /\ srv' = initial_server.
Proof.
  assert (Hin : Forall (fun p => is_Some (api_health initial_server !! fst p))
                  nutrition_apis)
    by (repeat constructor; eexists; reflexivity).
  destruct (analyze_nutrition nutrition_all_down 3
              (fallback_recipe "Mystery Cake" [] "Dessert" 15 0 [] [])
              initial_server) as [[a srv']|] eqn:Hrun;
    [|vm_compute in Hrun; discriminate].
  exists a, srv'. split; [reflexivity|].
  exact (analyze_nutrition_keeps_server _ _ _ _ _ _ Hin Hrun
           (or_introl eq_refl)).
Defined.

(** ** The provider methods *)

Lemma fatsecret_zero (key secret : string) (l : list string) :
  get_nutrition_fatsecret key secret l = Ok zero_record.
Proof.
  unfold get_nutrition_fatsecret.
  now destruct (String.eqb key "" || String.eqb secret "").
Qed.

(** FatSecret never contributes: whatever its credentials, its method
    returns zeros and raises nothing, so an invocation leaves its health
    entry as it was, and the numbers returned are those of USDA (its
    positive values) or the keyword estimate. *)
Theorem fatsecret_never_contributes usda_http (key secret : string) now
    (ingredient_list : list string) (srv : server) (e : health_entry) :
  Forall (fun p => is_Some (api_health srv !! fst p)) nutrition_apis ->
  api_health srv !! "fatsecret" = Some e ->
  exists out srv',
    get_nutrition_with_fallback (nutrition_methods usda_http key secret) now
      ingredient_list srv = Ok (out, srv')
    /\ api_health srv' !! "fatsecret" = Some e
    /\ (values out = dict_of_record (estimate_nutrition ingredient_list)
        \/ exists r,
             fst (get_nutrition_usda usda_http ingredient_list) = Ok r
             /\ values out = dict_of_record (positive_part r)).
Proof.
  intros Hin He.
  set (nm := nutrition_methods usda_http key secret).
  eexists _, _.
  split; [apply (nutrition_invocation_out nm now ingredient_list srv Hin)|].
  cbn [api_health]. unfold nutrition_attempts. split.
  - destruct (health_after_entry any_values now nutrition_record_failure
                (fun m => nm m ingredient_list) nutrition_apis
                (api_health srv) "fatsecret" "get_nutrition_fatsecret" e
                nutrition_apis_nodup (or_intror (or_introl eq_refl)) He)
      as (e' & He' & [->| ->]); [exact He'|].
    rewrite He'. f_equal. unfold nm, nutrition_methods. cbn [String.eqb].
    change (String.eqb "get_nutrition_fatsecret" "get_nutrition_usda")
      with false.
    change (String.eqb "get_nutrition_fatsecret" "get_nutrition_fatsecret")
      with true.
    cbv iota. rewrite fatsecret_zero. now apply entry_after_no_data.
  - destruct (named_data_single
                (map (fun p => (p, attempt_of any_values (api_health srv)
                                     (fun m => nm m ingredient_list) p))
                   nutrition_apis))
      as [Hnone|(api & m & r & Hr & Hone)].
    + rewrite Hnone. left. reflexivity.
    + rewrite Hone. cbn [map fold_left snd]. fold (positive_part r).
      destruct (any_values (positive_part r)); [|now left].
      right. exists r. split; [|reflexivity].
      apply in_map_iff in Hr as ([api' m'] & Heq & Hp).
      injection Heq as -> -> Ha.
      apply attempt_of_data in Ha as [Hcall Huse]. cbn [snd] in Hcall.
      destruct Hp as [Hp|[Hp|[]]]; injection Hp as <- <-.
      * exact Hcall.
      * unfold nm, nutrition_methods in Hcall.
        change (String.eqb "get_nutrition_fatsecret" "get_nutrition_usda")
          with false in Hcall.
        change (String.eqb "get_nutrition_fatsecret" "get_nutrition_fatsecret")
          with true in Hcall.
        cbv iota in Hcall. rewrite fatsecret_zero in Hcall.
        injection Hcall as <-. discriminate.
Qed.

Lemma fatsecret_never_contributes_witness :
  exists out srv',
    get_nutrition_with_fallback (nutrition_methods usda_http_grams "k" "s") 2
      ["chicken"] initial_server = Ok (out, srv')
    /\ api_health srv' !! "fatsecret" = Some (mk_health true 0 0).
Proof.
  assert (Hin : Forall (fun p => is_Some (api_health initial_server !! fst p))
                  nutrition_apis)
    by (repeat constructor; eexists; reflexivity).
  destruct (fatsecret_never_contributes usda_http_grams "k" "s" 2 ["chicken"]
              initial_server (mk_health true 0 0) Hin eq_refl)
    as (out & srv' & Hget & He & _).
  exists out, srv'. split; [exact Hget|exact He].
Defined.

(** The loop of [get_nutrition_usda] from a list of ingredients: the
    requests made are a prefix of the list; the loop raises only on a
    network error, at the last request made; without one it makes every
    request and returns. *)
Lemma usda_loop_requests http (l : list string) :
  forall (d : nutrition_record) (requests : list string),
  let run := usda_loop http l d requests in
  (exists k, snd run = requests ++ firstn k l)
  /\ (forall e, fst run = Raise e ->
        exists i msg, last (snd run) = Some i /\ http i = NetworkError msg)
  /\ (forall r, fst run = Ok r -> snd run = requests ++ l)
  /\ (Forall (fun i => forall msg, http i <> NetworkError msg) l ->
      exists r, fst run = Ok r).
Proof.
  induction l as [|i l IH]; intros d requests; cbn [usda_loop].
  - cbn [fst snd]. repeat split.
    + exists 0%nat. cbn. now rewrite app_nil_r.
    + discriminate.
    + intros r _. now rewrite app_nil_r.
    + eauto.
  - destruct (http i) as [msg|status body] eqn:Ei; cbn [usda_add_response].
    + cbn [fst snd]. repeat split.
      * exists 1%nat. reflexivity.
      * intros e _. exists i, msg. split; [apply last_snoc|exact Ei].
      * discriminate.
      * intros Hno. apply List.Forall_cons_iff in Hno as [Hno _].
        now contradiction (Hno msg).
    + assert (Hok : exists d', (if status =? 200
                                then Ok (fold_left
                                           (fun d food =>
                                              fold_left usda_add_nutrient food d)
                                           (firstn 1 body) d)
                                else Ok d) = Ok d')
        by (destruct (status =? 200); eauto).
      destruct Hok as [d' ->].
      destruct (IH d' (requests ++ [i])) as ((k & Hk) & Hraise & Hret & Hno).
      repeat split.
      * exists (S k). rewrite Hk, <- app_assoc. reflexivity.
      * exact Hraise.
      * intros r Hr. rewrite (Hret r Hr), <- app_assoc. reflexivity.
      * intros Hall. apply List.Forall_cons_iff in Hall as [_ Hall]. auto.
Qed.

(** USDA is asked about the first three ingredients at most, in order, one
    request each.  A status other than 200 is passed over in silence; with
    bodies that decode to the shape the method reads, only a network error
    makes it raise, at once, without the requests that remain. *)
Theorem usda_requests_first_three http (ingredient_list : list string) :
  let run := get_nutrition_usda http ingredient_list in
  (exists k, snd run = firstn k (firstn 3 ingredient_list))
  /\ (length (snd run) <= 3)%nat
  /\ (forall e, fst run = Raise e ->
        exists i msg, last (snd run) = Some i /\ http i = NetworkError msg)
  /\ (forall r, fst run = Ok r -> snd run = firstn 3 ingredient_list)
  /\ (Forall (fun i => forall msg, http i <> NetworkError msg)
        (firstn 3 ingredient_list) ->
      exists r, fst run = Ok r).
Proof.
  unfold get_nutrition_usda.
  destruct (usda_loop_requests http (firstn 3 ingredient_list) zero_record [])
    as ((k & Hk) & Hraise & Hret & Hno).
  cbn [app] in *. cbv zeta.
  split; [now exists k|]. split; [|auto].
  rewrite Hk, !length_firstn. lia.
Qed.

Lemma usda_requests_first_three_witness :
  snd (get_nutrition_usda usda_http_grams ["egg"; "rice"; "oil"; "salt"])
  = ["egg"; "rice"; "oil"].
Proof.
  destruct (usda_requests_first_three usda_http_grams
              ["egg"; "rice"; "oil"; "salt"]) as (_ & _ & _ & Hret & _).
  exact (Hret _ eq_refl).
Defined.

Lemma usda_add_passed_over (d : nutrition_record) (n : usda_nutrient) :
  usda_passed_over n = true -> usda_add_nutrient d n = d.
Proof. unfold usda_passed_over, usda_add_nutrient. now intros ->. Qed.

Lemma usda_add_response_nothing (d : nutrition_record)
    (response : http_response usda_body) :
  usda_adds_nothing response -> usda_add_response d response = Ok d.
Proof.
  destruct response as [msg|status body]; cbn; [tauto|].
  intros [Hstatus|Hall].
  - destruct (status =? 200) eqn:E; [lia|reflexivity].
  - destruct (status =? 200); [|reflexivity]. f_equal.
    destruct body as [|food rest]; [reflexivity|].
    cbn [firstn fold_left] in *.
    apply List.Forall_cons_iff in Hall as [Hfood _].
    induction food as [|n food IH]; [reflexivity|].
    apply List.Forall_cons_iff in Hfood as [Hn Hfood].
    cbn [fold_left]. rewrite usda_add_passed_over by exact Hn. now apply IH.
Qed.

(** Nutrients given in grams (unit "g") or per 100 g are never counted:
    when every answer has a status other than 200 or a first food with such
    nutrients only, the method returns the all-zero record, which the
    orchestrator takes as no data. *)
Theorem usda_grams_count_nothing http (ingredient_list : list string) :
  Forall (fun i => usda_adds_nothing (http i)) (firstn 3 ingredient_list) ->
  fst (get_nutrition_usda http ingredient_list) = Ok zero_record
  /\ any_values zero_record = false.
Proof.
  intros Hall. split; [|reflexivity]. unfold get_nutrition_usda.
  generalize (@nil string).
  induction (firstn 3 ingredient_list) as [|i l IH]; intros requests;
    [reflexivity|].
  apply List.Forall_cons_iff in Hall as [Hi Hall].
  cbn [usda_loop]. rewrite usda_add_response_nothing by exact Hi. now apply IH.
Qed.

Lemma usda_grams_count_nothing_witness :
  fst (get_nutrition_usda usda_http_grams ["chicken"; "rice"]) = Ok zero_record.
Proof.
  apply (usda_grams_count_nothing usda_http_grams ["chicken"; "rice"]).
  repeat constructor; right; repeat constructor.
Defined.

(** The first provider of a priority list is always attempted: its entry
    after the loop is what the attempt makes of it. *)
Lemma first_provider_entry {A} (usable : A -> bool) now f
    (outcome : string -> result A) (api m : string)
    (rest : list (string * string)) (h : gmap string health_entry)
    (e : health_entry) :
  NoDup (map fst ((api, m) :: rest)) -> h !! api = Some e ->
  health_after now f
    (tried_until_success
       (map (fun p => (p, attempt_of usable h outcome p)) ((api, m) :: rest)))
    h !! api
  = Some (entry_after now f (attempt_on usable e (outcome m)) e).
Proof.
  intros Hnd He. cbn [map] in *. apply NoDup_cons in Hnd as [Hfresh _].
  cbn [fst] in Hfresh.
  rewrite tried_cons, health_after_cons. cbn [fst snd].
  rewrite health_after_other.
  - rewrite lookup_alter_eq, He. cbn. f_equal.
    unfold attempt_of. cbn [fst snd]. now rewrite He.
  - intros Hk. apply Hfresh, list_elem_of_In.
    destruct (is_success _); [destruct Hk|].
    apply in_map_iff in Hk as (pa & Hpa & Hk).
    apply tried_until_success_subset in Hk.
    apply in_map_iff in Hk as (p & <- & Hp). cbn in Hpa. subst api.
    now apply in_map.
Qed.

(** A body with [meals: null], the answer of TheMealDB when nothing is
    found, makes the method raise, and the search counts a failure of
    TheMealDB; a body without the entry, or with an empty list, does
    not. *)
Theorem themealdb_null_counts_as_failure themealdb_http api_key sp_http now
    query max_results diet (srv : server) (e1 : health_entry) :
  Forall (fun p => is_Some (api_health srv !! fst p)) api_priority ->
  api_health srv !! "themealdb" = Some e1 -> available e1 = true ->
  exists returned srv',
    search_recipes_with_fallback
      (search_methods themealdb_http api_key sp_http) now query max_results
      diet srv = Ok (returned, srv')
    /\ (themealdb_http query = Response 200 MealsNull ->
        api_health srv' !! "themealdb" = Some (search_record_failure e1))
    /\ (themealdb_http query = Response 200 MealsAbsent
        \/ themealdb_http query = Response 200 (Meals []) ->
        api_health srv' !! "themealdb" = Some e1).
Proof.
  intros Hin H1 Hav. eexists _, _.
  split; [apply (search_invocation _ now query max_results diet srv Hin)|].
  cbn [api_health]. unfold search_attempts, api_priority.
  rewrite (first_provider_entry nonempty now search_record_failure _
             "themealdb" "search_recipes_themealdb" _ _ e1
             api_priority_nodup H1).
  unfold attempt_on, search_methods. rewrite Hav.
  change (String.eqb "search_recipes_themealdb" "search_recipes_themealdb")
    with true. cbv iota. unfold search_recipes_themealdb.
  split.
  - now intros ->.
  - intros [-> | ->]; [reflexivity|].
    change (200 =? 200) with true. cbv iota.
    unfold list_slice_to. destruct (max_results <? 0);
      now rewrite firstn_nil.
Qed.

Lemma themealdb_null_counts_as_failure_witness :
  exists returned srv',
    search_recipes_with_fallback
      (search_methods themealdb_http_null None spoonacular_http_down) 0
      "zzz" 5 "" initial_server = Ok (returned, srv')
    /\ api_health srv' !! "themealdb" = Some (mk_health true 0 1).
Proof.
  assert (Hin : Forall (fun p => is_Some (api_health initial_server !! fst p))
                  api_priority)
    by (repeat constructor; eexists; reflexivity).
  destruct (themealdb_null_counts_as_failure themealdb_http_null None
              spoonacular_http_down 0 "zzz" 5 "" initial_server
              (mk_health true 0 0) Hin eq_refl eq_refl)
    as (returned & srv' & Hrun & Hnull & _).
  exists returned, srv'. split; [exact Hrun|exact (Hnull eq_refl)].
Defined.

(** Without a Spoonacular key the method raises before any request is
    made; a search that gets to Spoonacular while it is available then
    counts a failure against it, however the network is. *)
Theorem spoonacular_without_key_fails themealdb_http api_key sp_http now
    query max_results diet (srv : server) (e1 e2 : health_entry) :
  default "" api_key = "" ->
  api_health srv !! "themealdb" = Some e1 ->
  api_health srv !! "spoonacular" = Some e2 ->
  available e2 = true ->
  is_success (attempt_on nonempty e1
                (search_recipes_themealdb themealdb_http query max_results))
  = false ->
  snd (search_recipes_spoonacular api_key sp_http query max_results) = []
  /\ exists returned srv',
       search_recipes_with_fallback
         (search_methods themealdb_http api_key sp_http) now query
         max_results diet srv = Ok (returned, srv')
       /\ api_health srv' !! "spoonacular" = Some (search_record_failure e2).
Proof.
  intros Hkey H1 H2 Hav Hfirst.
  assert (Hsp : search_recipes_spoonacular api_key sp_http query max_results
                = (Raise (ProviderError "Spoonacular API key not configured"),
                   [])).
  { unfold search_recipes_spoonacular. now rewrite Hkey. }
  split; [now rewrite Hsp|].
  assert (Hin : Forall (fun p => is_Some (api_health srv !! fst p)) api_priority)
    by (repeat constructor; cbn [fst]; eauto).
  eexists _, _.
  split; [apply (search_invocation _ now query max_results diet srv Hin)|].
  cbn [api_health]. unfold search_attempts, api_priority, attempt_of.
  cbn [map fst snd]. rewrite H1, H2.
  unfold search_methods at 1.
  change (String.eqb "search_recipes_themealdb" "search_recipes_themealdb")
    with true. cbv iota.
  rewrite tried_cons. cbn [snd]. rewrite Hfirst.
  unfold search_methods.
  change (String.eqb "search_recipes_spoonacular" "search_recipes_themealdb")
    with false.
  change (String.eqb "search_recipes_spoonacular" "search_recipes_spoonacular")
    with true. cbv iota. rewrite Hsp. cbn [fst].
  unfold attempt_on at 2. rewrite Hav.
  cbn [tried_until_success is_success snd health_after fold_left fst
       entry_after].
  rewrite lookup_alter_eq, lookup_alter_ne by discriminate.
  now rewrite H2.
Qed.

Lemma spoonacular_without_key_fails_witness :
  exists returned srv',
    search_recipes_with_fallback
      (search_methods themealdb_http_null None spoonacular_http_down) 0
      "zzz" 5 "" server_two_failures = Ok (returned, srv')
    /\ api_health srv' !! "spoonacular" = Some (mk_health false 0 3).
Proof.
  destruct (spoonacular_without_key_fails themealdb_http_null None
              spoonacular_http_down 0 "zzz" 5 "" server_two_failures
              (mk_health true 0 2) (mk_health true 0 2)
              eq_refl eq_refl eq_refl eq_refl eq_refl)
    as (_ & returned & srv' & Hrun & He).
  exists returned, srv'. split; [exact Hrun|exact He].
Defined.

Lemma meal_ingredients_shape (m : meal) :
  (length (meal_ingredients m) <= 20)%nat
  /\ Forall (fun s => s <> "") (meal_ingredients m)
  /\ (forall s, In s (meal_ingredients m) <->
        s <> "" /\ exists i, (1 <= i <= 20)%nat /\ strIngredient m i = Some s).
Proof.
  unfold meal_ingredients.
  assert (Hgen : forall l : list nat,
            (length (flat_map
                       (fun i => match strIngredient m i with
                                 | Some s => if String.eqb s "" then [] else [s]
                                 | None => []
                                 end) l) <= length l)%nat).
  { induction l as [|i l IH]; cbn [flat_map length]; [lia|].
    rewrite length_app.
    destruct (strIngredient m i) as [s|]; [destruct (String.eqb s "")|];
      cbn [length]; lia. }
  assert (Hin : forall s, In s (flat_map
                       (fun i => match strIngredient m i with
                                 | Some s => if String.eqb s "" then [] else [s]
                                 | None => []
                                 end) (seq 1 20)) <->
                s <> "" /\ exists i, (1 <= i <= 20)%nat
                                     /\ strIngredient m i = Some s).
  { intros s. rewrite in_flat_map. split.
    - intros (i & Hi & Hs). apply in_seq in Hi.
      destruct (strIngredient m i) as [t|] eqn:Et; [|destruct Hs].
      destruct (String.eqb t "") eqn:E; [destruct Hs|].
      destruct Hs as [->|[]]. apply String.eqb_neq in E.
      split; [exact E|]. exists i. split; [lia|exact Et].
    - intros (Hne & i & Hi & Hs). exists i. split; [apply in_seq; lia|].
      rewrite Hs. apply String.eqb_neq in Hne. rewrite Hne. now left. }
  split; [|split].
  - specialize (Hgen (seq 1 20)). now rewrite length_seq in Hgen.
  - apply List.Forall_forall. intros s Hs. now apply Hin in Hs.
  - exact Hin.
Qed.

(** From a 200 answer with a list of meals, TheMealDB gives one record for
    each of the first [max_results] meals, in order; a record lists the
    entries [strIngredient1] to [strIngredient20] that are neither null
    nor empty, so 20 ingredients at most, and has the fixed defaults of 4
    servings and 30 minutes. *)
Theorem themealdb_records themealdb_http (query : string) (max_results : Z)
    (l : list meal) :
  themealdb_http query = Response 200 (Meals l) -> 0 <= max_results ->
  exists records,
    search_recipes_themealdb themealdb_http query max_results = Ok records
    /\ records = map themealdb_recipe (firstn (Z.to_nat max_results) l)
    /\ Z.of_nat (length records) <= max_results
    /\ Forall (fun r =>
         (length (ingredients r) <= 20)%nat
         /\ Forall (fun s => s <> "") (ingredients r)
         /\ servings r = Some 4%Q /\ readyInMinutes r = 30%Q
         /\ source r = "TheMealDB" /\ _sources_tried r = None) records.
Proof.
  intros Hhttp Hcap. unfold search_recipes_themealdb. rewrite Hhttp.
  change (200 =? 200) with true. cbv iota.
  unfold list_slice_to. destruct (max_results <? 0) eqn:E; [lia|].
  eexists. split; [reflexivity|]. split; [reflexivity|]. split.
  - rewrite length_map, length_firstn. lia.
  - apply List.Forall_forall. intros r Hr.
    apply in_map_iff in Hr as (m & <- & _).
    destruct (meal_ingredients_shape m) as (Hlen & Hne & _).
    cbn [themealdb_recipe ingredients servings readyInMinutes source
         _sources_tried].
    repeat split; auto.
Qed.

Lemma themealdb_records_witness :
  exists records,
    search_recipes_themealdb
      (fun _ => Response 200
                  (Meals [mk_meal "Dal"
                            (fun i => if (i =? 1)%nat then Some "lentils"
                                      else if (i =? 2)%nat then Some ""
                                      else None)
                            "Vegetarian" (Some "Curry,Mild")]))
      "dal" 3 = Ok records
    /\ map ingredients records = [["lentils"]].
Proof.
  destruct (themealdb_records
              (fun _ => Response 200
                  (Meals [mk_meal "Dal"
                            (fun i => if (i =? 1)%nat then Some "lentils"
                                      else if (i =? 2)%nat then Some ""
                                      else None)
                            "Vegetarian" (Some "Curry,Mild")]))
              "dal" 3 _ eq_refl ltac:(lia))
    as (records & Hrun & Heq & _).
  exists records. split; [exact Hrun|]. rewrite Heq. reflexivity.
Defined.

(** ** The callers of the analysis *)

(** The analysis either has no positive calorie value, and then neither a
    score nor a recommendation, or it has a score between 10 and 100 that
    is a multiple of 5 and exactly two recommendations. *)
Theorem analysis_score_range nm now (recipe_data : recipe)
    (srv srv' : server) (a : analysis) :
  analyze_nutrition nm now recipe_data srv = Ok (a, srv') ->
  ((calories_per_serving a <= 0)%Q
   /\ health_score a = 0 /\ recommendations a = [])
  \/ ((0 < calories_per_serving a)%Q
      /\ 10 <= health_score a <= 100
      /\ (5 | health_score a)
      /\ length (recommendations a) = 2%nat).
Proof.
  intros H. apply analyze_nutrition_scored in H as (a0 & -> & Hs & Hr).
  destruct (score_analysis_cases a0 Hs Hr) as [ [Hc ->] | (Hc & -> & _ & _ & _ & -> & ->) ].
  - left. auto.
  - right. split; [exact Hc|].
    match goal with |- context [balance_score ?p ?c ?f] =>
      pose proof (balance_score_values p c f) as [Hb Hb'];
      set (b := balance_score p c f) in *
    end.
    pose proof (calorie_score_values (calories_per_serving a0)) as Hcs.
    set (cs := calorie_score (calories_per_serving a0)) in *.
    cbv zeta in *.
    repeat split; try lia.
    destruct Hb' as [-> | [-> | [-> | ->]]], Hcs as [-> | [-> | [-> | ->]]];
      match goal with |- (5 | ?n) => exists (n / 5); reflexivity end.
Qed.

Lemma analysis_score_range_witness :
  exists a srv',
    analyze_nutrition nutrition_all_down 3 balanced_bowl initial_server
    = Ok (a, srv')
    /\ 10 <= health_score a <= 100.
Proof.
  eexists _, _. split; [vm_compute; reflexivity|].
  edestruct (analysis_score_range nutrition_all_down 3 balanced_bowl
               initial_server) as [(_ & H & _)|(_ & H & _)];
    [vm_compute; reflexivity| |exact H].
  vm_compute in H. discriminate H.
Defined.

(** [enhance_recipe_with_mcp] advises to balance the meal exactly when
    the score is below 70. *)
Lemma mcp_recommendations_balance (nutrition_analysis : option analysis) :
  In "Consider balancing this meal with additional vegetables"
    (mcp_recommendations nutrition_analysis)
  <-> mcp_health_score nutrition_analysis < 70.
Proof.
  unfold mcp_recommendations, mcp_health_score.
  destruct (from_option health_score 0 nutrition_analysis <? 70) eqn:E.
  - apply Z.ltb_lt in E. split; [auto|]. intros _. now left.
  - apply Z.ltb_ge in E. split; [|lia].
    destruct (Qgt_bool _ _); cbn; intros H;
      repeat destruct H as [H|H]; try discriminate H; contradiction.
Qed.

(** When [enhance_recipe_with_mcp] does not advise to balance the meal,
    the analysis it read calls the macronutrients well balanced: a score
    of 70 needs at least 50 of its points from the balance. *)
Theorem no_balance_advice_means_balanced nm now (recipe_data : recipe)
    (srv srv' : server) (a : analysis) :
  analyze_nutrition nm now recipe_data srv = Ok (a, srv') ->
  ~ In "Consider balancing this meal with additional vegetables"
      (mcp_recommendations (Some a)) ->
  exists calorie_advice,
    recommendations a = ["Well-balanced macronutrients!"; calorie_advice].
Proof.
  intros H Hno. rewrite mcp_recommendations_balance in Hno.
  unfold mcp_health_score in Hno. cbn [from_option] in Hno.
  apply analyze_nutrition_scored in H as (a0 & -> & Hs & Hr).
  destruct (score_analysis_cases a0 Hs Hr)
    as [ [Hc E] | (Hc & _ & _ & _ & _ & E1 & E2) ].
  - rewrite E in Hno. lia.
  - rewrite E2. rewrite E1 in Hno.
    match goal with |- context [balance_score ?p ?c ?f] =>
      pose proof (balance_score_values p c f) as [Hb Hb'];
      set (b := balance_score p c f) in *
    end.
    pose proof (calorie_score_values (calories_per_serving a0)) as Hcs.
    cbv zeta in Hcs.
    destruct (50 <=? b) eqn:E; [eauto|].
    apply Z.leb_gt in E. cbv zeta in Hb'. lia.
Qed.

Lemma no_balance_advice_means_balanced_witness :
  exists a srv' calorie_advice,
    analyze_nutrition nutrition_all_down 3 balanced_bowl initial_server
    = Ok (a, srv')
    /\ recommendations a = ["Well-balanced macronutrients!"; calorie_advice].
Proof.
  eexists _, _.
  edestruct (no_balance_advice_means_balanced nutrition_all_down 3
               balanced_bowl initial_server) as [c Hc];
    [vm_compute; reflexivity| |exists c; split; [vm_compute; reflexivity|exact Hc]].
  vm_compute. intros H. repeat destruct H as [H|H]; try discriminate H.
  exact H.
Defined.

(** The two judgements of the macronutrient balance agree in one
    direction: when [analyze_recipe_health] reports a well-balanced
    profile, [analyze_nutrition] gave all 75 points of the balance, said
    so in its recommendations, and [enhance_recipe_with_mcp] does not
    advise to balance the meal. *)
Theorem balanced_insight_agrees nm now (recipe_data : recipe)
    (srv srv' : server) (a : analysis) :
  analyze_nutrition nm now recipe_data srv = Ok (a, srv') ->
  In "Well-balanced macronutrient profile" (insights (Some a)) ->
  85 <= health_score a
  /\ In "Well-balanced macronutrients!" (recommendations a)
  /\ ~ In "Consider balancing this meal with additional vegetables"
         (mcp_recommendations (Some a)).
Proof.
  intros H Hin.
  assert (Hgoal : 85 <= health_score a
                  /\ In "Well-balanced macronutrients!" (recommendations a)).
  2:{ destruct Hgoal as [H1 H2]. repeat split; auto.
      rewrite mcp_recommendations_balance. unfold mcp_health_score.
      cbn [from_option]. lia. }
  apply analyze_nutrition_scored in H as (a0 & -> & Hs & Hr).
  unfold insights in Hin. cbv zeta in Hin. cbn [from_option] in Hin.
  rewrite !in_app_iff in Hin.
  assert (Hbal : In "Well-balanced macronutrient profile"
            (if Qle_bool 0.15
                  (macro_ratio (protein_per_serving (score_analysis a0)) 4
                     (calories_per_serving (score_analysis a0)))
                && Qle_bool
                     (macro_ratio (protein_per_serving (score_analysis a0)) 4
                        (calories_per_serving (score_analysis a0))) 0.25
                && Qle_bool
                     (macro_ratio (carbs_per_serving (score_analysis a0)) 4
                        (calories_per_serving (score_analysis a0))) 0.5
                && Qle_bool
                     (macro_ratio (fat_per_serving (score_analysis a0)) 9
                        (calories_per_serving (score_analysis a0))) 0.3
             then ["Well-balanced macronutrient profile"] else [])).
  { destruct Hin as [Hin|[Hin|Hin]]; [| |exact Hin].
    - repeat match type of Hin with
             | context [if ?b then _ else _] => destruct b
             end; cbn in Hin;
        repeat destruct Hin as [Hin|Hin]; try discriminate Hin;
        contradiction.
    - repeat match type of Hin with
             | context [if ?b then _ else _] => destruct b
             end; cbn in Hin;
        repeat destruct Hin as [Hin|Hin]; try discriminate Hin;
        contradiction. }
  clear Hin.
  match type of Hbal with
  | In _ (if ?b then _ else _) => destruct b eqn:E; [|contradiction]
  end.
  clear Hbal. rewrite !andb_true_iff in E.
  destruct E as [[[E1 E2] E3] E4].
  apply Qle_bool_iff in E1, E2, E3, E4.
  destruct (score_analysis_cases a0 Hs Hr)
    as [ [Hc E] | (Hc & Ec & Ep & Ecb & Ef & Eh & Er) ].
  - rewrite E in E1. unfold macro_ratio in E1.
    apply Qgt_bool_false in Hc. rewrite Hc in E1. lra.
  - rewrite Ec, Ep in E1, E2. rewrite Ec, Ecb in E3. rewrite Ec, Ef in E4.
    unfold macro_ratio in E1, E2, E3, E4.
    apply Qgt_bool_true in Hc. rewrite Hc in E1, E2, E3, E4.
    rewrite Eh, Er.
    set (c := calories_per_serving a0) in *.
    set (p := (protein_per_serving a0 * 4 / c)%Q) in *.
    set (cb := (carbs_per_serving a0 * 4 / c)%Q) in *.
    set (f := (fat_per_serving a0 * 9 / c)%Q) in *.
    assert (Hb : balance_score (p * 100) (cb * 100) (f * 100) = 75).
    { unfold balance_score.
      assert (Qle_bool 10 (p * 100) = true) as -> by (apply Qle_bool_iff; lra).
      assert (Qle_bool (p * 100) 30 = true) as -> by (apply Qle_bool_iff; lra).
      assert (Qle_bool (cb * 100) 65 = true) as -> by (apply Qle_bool_iff; lra).
      assert (Qle_bool (f * 100) 35 = true) as -> by (apply Qle_bool_iff; lra).
      reflexivity. }
    rewrite Hb.
    pose proof (calorie_score_values c) as Hcs. cbv zeta in Hcs.
    split; [lia|]. now left.
Qed.

Lemma balanced_insight_agrees_witness :
  exists a srv',
    analyze_nutrition nutrition_all_down 3 balanced_bowl initial_server
    = Ok (a, srv')
    /\ 85 <= health_score a.
Proof.
  eexists _, _. split; [vm_compute; reflexivity|].
  eapply (balanced_insight_agrees nutrition_all_down 3 balanced_bowl
            initial_server).
  - vm_compute. reflexivity.
  - vm_compute. now left.
Defined.

(** ** The built-in recipes *)

Lemma sublist_list_filter {A} (f : A -> bool) (l : list A) :
  sublist (List.filter f l) l.
Proof.
  induction l as [|x l IH]; cbn [List.filter]; [constructor|].
  destruct (f x); now constructor.
Qed.

Lemma sublist_list_slice_to {A} (l : list A) (n : Z) :
  sublist (list_slice_to l n) l.
Proof.
  unfold list_slice_to. destruct (n <? 0); apply sublist_take.
Qed.

(** Whatever the query and the cap, [get_fallback_recipes] returns a
    sublist of the records of its table, in the order of the table; so it
    never returns more than five. *)
Theorem get_fallback_recipes_sublist (query : string) (max_results : Z) :
  sublist (get_fallback_recipes query max_results) (map snd fallback_recipes)
  /\ (length (get_fallback_recipes query max_results) <= 5)%nat.
Proof.
  assert (H : sublist (get_fallback_recipes query max_results)
                (map snd fallback_recipes)).
  { unfold get_fallback_recipes. cbv zeta.
    destruct (map snd (List.filter _ fallback_recipes)) as [|r l] eqn:E.
    - apply sublist_take.
    - rewrite <- E. etransitivity; [apply sublist_list_slice_to|].
      apply (fmap_sublist snd), sublist_list_filter. }
  split; [exact H|]. apply sublist_length in H. exact H.
Qed.
